(** * CensoEscolarData: the CSV ingestion pipeline of [migrate_csv_to_sqlite.py]

    A shallow embedding of [find_column] and [migrate_csv] together with the
    properties of the ingestion run: column resolution, region filtering,
    per-row normalisation, the existence pre-check and the
    [INSERT OR IGNORE] bulk write.

    Python integers are [Z]; a cell of a pandas frame read with [dtype=str]
    is missing ([NaN]), a text ([Str]) or, once [pd.to_numeric] has rewritten
    its column, a number ([Num]).  The connection is a record holding the
    table, the [total_changes] counter and the chronological trace of what
    the run executes and prints.  A run ends in one of three ways: it
    finishes, it raises before it reads a chunk, or the bulk write of a
    chunk raises and the exception leaves [migrate_csv]. *)

From Stdlib Require Import List String Ascii Bool Arith ZArith QArith Lia.
From Stdlib Require Import DecimalString.
Import ListNotations.

Local Open Scope string_scope.
Local Open Scope list_scope.
Local Open Scope Z_scope.

(** ** Column resolver *)

(** The keys of the [CANDIDATE_COLUMNS] dictionary. *)
Inductive field : Type :=
| f_codigo | f_nome | f_co_uf | f_co_municipio
| f_qt_mat_bas | f_qt_mat_prof | f_qt_mat_esp.

Definition CANDIDATE_COLUMNS (f : field) : list string :=
  match f with
  | f_codigo => ["CO_ENTIDADE"; "CO_ENTIDADE_ESCOLA"; "CO_ENTIDADE_MEC";
                 "COD_ENTIDADE"; "CO_ENTIDADE_ENSINO"; "CO_ENTIDADE_CURSO"]
  | f_nome => ["NO_ENTIDADE"; "NO_ESCOLA"; "NOME_ENTIDADE"]
  | f_co_uf => ["CO_UF"]
  | f_co_municipio => ["CO_MUNICIPIO"]
  | f_qt_mat_bas => ["QT_MAT_BAS"; "NU_MATRICULAS_BASICA"; "QT_MATRICULAS_BAS"]
  | f_qt_mat_prof => ["QT_MAT_PROF"; "NU_MATRICULAS_PROF"]
  | f_qt_mat_esp => ["QT_MAT_ESP"; "NU_MATRICULAS_ESP"]
  end.

(** [c in columns] on a Python list of strings. *)
Definition contains (columns : list string) (c : string) : bool :=
  existsb (String.eqb c) columns.

Fixpoint find_column (columns candidates : list string) : option string :=
  match candidates with
  | [] => None
  | c :: rest => if contains columns c then Some c else find_column columns rest
  end.

(** Truth value of [find_column]'s result in [if not codigo_col]: [None] and
    the empty string are false. *)
Definition truthy (col : option string) : bool :=
  match col with
  | Some s => negb (s =? "")%string
  | None => false
  end.

(** ** Frames, rows and cells *)

Inductive cell : Type :=
| NaN
| Str (s : string)
| Num (q : Q).

(** [pd.isna] *)
Definition isna (c : cell) : bool :=
  match c with NaN => true | _ => false end.

Record DataFrame : Type := mkFrame {
  columns : list string;
  rows : list (list cell)
}.

(** [len(chunk)], also [len(chunk.index)] *)
Definition len (df : DataFrame) : Z := Z.of_nat (List.length (rows df)).

(** Position-wise lookup of a label in a row of [iterrows]; a label that is
    not in the index, and a record shorter than the header, give the missing
    value. *)
Fixpoint lookup (cols : list string) (vals : list cell) (c : string) : cell :=
  match cols, vals with
  | k :: cols', v :: vals' => if (k =? c)%string then v else lookup cols' vals' c
  | _, _ => NaN
  end.

(** [row.get(col)] where [col] is what [find_column] returned. *)
Definition row_get (cols : list string) (vals : list cell) (col : option string) : cell :=
  match col with
  | Some c => lookup cols vals c
  | None => NaN
  end.

(** Rewrite of one column, [chunk[col] = f(chunk[col])], cell by cell. *)
Fixpoint set_cell (cols : list string) (vals : list cell) (c : string)
    (f : cell -> cell) : list cell :=
  match cols, vals with
  | k :: cols', v :: vals' =>
      if (k =? c)%string then f v :: vals' else v :: set_cell cols' vals' c f
  | _, _ => vals
  end.

Definition set_column (df : DataFrame) (c : string) (f : cell -> cell) : DataFrame :=
  mkFrame (columns df) (map (fun vals => set_cell (columns df) vals c f) (rows df)).

(** Boolean indexing [chunk[mask]] with a mask computed row by row. *)
Definition select_rows (df : DataFrame) (keep : list cell -> bool) : DataFrame :=
  mkFrame (columns df) (filter keep (rows df)).

(** ** The library behaviour the run depends on

    What pandas and the Python built-ins do on texts is a parameter of the
    development: every result below holds whatever these functions are. *)
Record runtime : Type := mkRuntime {
  (** texts, besides the empty field, that [read_csv] reads as missing *)
  na_values : list string;
  (** [pd.to_numeric(..., errors='coerce')] on one text; [None] is NaN (a
      non-finite result is identified with it: neither passes the range test,
      neither prints with a leading digit) *)
  to_numeric : string -> option Q;
  (** whether [Series.between] accepts [inclusive=True]; releases that only
      take ['both'], ['neither'], ['left'], ['right'] raise instead *)
  between_accepts_bool : bool;
  (** the text of a number under [astype(str)] and [str] *)
  num_str : Q -> string;
  (** [int(s)] on a text; [None] is [ValueError] *)
  int_of_str : string -> option Z
}.

(** Decimal text of a Python integer, [str(x)]. *)
Definition str_int (z : Z) : string := NilZero.string_of_int (Z.to_int z).

(** [range(lo, hi)] *)
Definition range (lo hi : Z) : list Z :=
  map (fun i => lo + Z.of_nat i) (seq 0 (Z.to_nat (hi - lo))).

(** [s.startswith(prefixes)] with a tuple of prefixes. *)
Definition startswith (prefixes : list string) (s : string) : bool :=
  existsb (fun p => String.prefix p s) prefixes.

(** ** The destination table *)

(** Modelled from the spec: [schema.sql] is not among the sources. The table
    [tb_instituicao] has the seven insertable columns below, a surrogate [id]
    the migration never reads back, and a uniqueness constraint on [codigo],
    the only constraint an insert of the migration can violate. *)
Record instituicao : Type := mkInst {
  codigo : string;
  nome : string;
  co_uf : Z;
  co_municipio : Z;
  qt_mat_bas : Z;
  qt_mat_prof : Z;
  qt_mat_esp : Z
}.

Definition table : Type := list instituicao.

(** [SELECT id FROM tb_instituicao WHERE codigo = ?] followed by
    [fetchone() is not None]. *)
Definition has_codigo (t : table) (c : string) : bool :=
  existsb (fun r => (codigo r =? c)%string) t.

(** One [INSERT OR IGNORE]: the row is appended unless its [codigo] is
    already present. *)
Definition insert_or_ignore (t : table) (r : instituicao) : table :=
  if has_codigo t (codigo r) then t else t ++ [r].

(** [executemany] of [INSERT OR IGNORE], in the order of the list. *)
Definition insert_or_ignore_many (t : table) (rs : list instituicao) : table :=
  fold_left insert_or_ignore rs t.

(** An integer that SQLite can hold; binding a Python integer outside of
    this range raises [OverflowError]. *)
Definition fits_int64 (z : Z) : bool :=
  (-9223372036854775808 <=? z) && (z <=? 9223372036854775807).

(** Every integer of the tuple can be bound. *)
Definition bindable (r : instituicao) : bool :=
  fits_int64 (co_uf r) && fits_int64 (co_municipio r) && fits_int64 (qt_mat_bas r)
  && fits_int64 (qt_mat_prof r) && fits_int64 (qt_mat_esp r).

(** The tuples that are bound, and executed, before the first one that
    cannot be. *)
Fixpoint bound_prefix (rs : list instituicao) : list instituicao :=
  match rs with
  | [] => []
  | r :: rest => if bindable r then r :: bound_prefix rest else []
  end.

(** ** Output lines and the trace of a run *)

Inductive line : Type :=
| DetectedColumns (cols : list string)
| DetectedMapping (name : string) (col : option string)
| CannotIdentify
| ChunkStats (chunk_idx total_in_chunk total_filtered new_inserts dup_count : Z)
| Summary (processed inserted skipped : Z).

Inductive event : Type :=
| CallFindColumn (f : field) (cols : list string)
| Pragma (s : string)
| Select (c : string)
| InsertOrIgnoreMany (rs : list instituicao)
| Commit
| Print (l : line).

Inductive exn : Type :=
| FileNotFoundError
| ValueError
| OverflowError.

(** The connection with the store behind it, and what has happened so far. *)
Record world : Type := mkWorld {
  tb_instituicao : table;
  total_changes : Z;
  trace : list event
}.

Definition log (e : event) (w : world) : world :=
  mkWorld (tb_instituicao w) (total_changes w) (trace w ++ [e]).

(** A state monad over the world. *)
Definition M (A : Type) : Type := world -> A * world.

Definition ret {A : Type} (a : A) : M A := fun w => (a, w).

Definition bind {A B : Type} (m : M A) (k : A -> M B) : M B :=
  fun w => let (a, w') := m w in k a w'.

Declare Scope run_scope.
Delimit Scope run_scope with run.
Notation "x <- m ;; k" := (bind m (fun x => k))
  (at level 100, m at next level, right associativity) : run_scope.
Notation "m ;; k" := (bind m (fun _ => k))
  (at level 100, right associativity) : run_scope.
Local Open Scope run_scope.

Definition emit (e : event) : M unit := fun w => (tt, log e w).

Definition print (l : line) : M unit := emit (Print l).

(** [find_column(cols, CANDIDATE_COLUMNS[f])]; the call is recorded. *)
Definition call_find_column (cols : list string) (f : field) : M (option string) :=
  emit (CallFindColumn f cols) ;; ret (find_column cols (CANDIDATE_COLUMNS f)).

(** [cursor.execute("SELECT id ... WHERE codigo = ?")] and [fetchone()]. *)
Definition select_codigo (c : string) : M bool :=
  fun w => (has_codigo (tb_instituicao w) c, log (Select c) w).

(** [conn.total_changes] *)
Definition get_total_changes : M Z := fun w => (total_changes w, w).

(** [cursor.executemany("INSERT OR IGNORE ...", rs)]. When every tuple can
    be bound the counter grows by the number of rows really added and
    nothing is raised. A tuple with an integer beyond 64 bits makes the call
    raise [OverflowError] when its turn comes: the tuples before it have
    been executed and counted, but they are never committed, so the store
    keeps what it held. *)
Definition executemany (rs : list instituicao) : M (option exn) :=
  fun w =>
    if forallb bindable rs then
      let t' := insert_or_ignore_many (tb_instituicao w) rs in
      (None, log (InsertOrIgnoreMany rs)
               (mkWorld t'
                  (total_changes w
                   + (Z.of_nat (List.length t') - Z.of_nat (List.length (tb_instituicao w))))
                  (trace w)))
    else
      let t' := insert_or_ignore_many (tb_instituicao w) (bound_prefix rs) in
      (Some OverflowError,
       log (InsertOrIgnoreMany rs)
         (mkWorld (tb_instituicao w)
            (total_changes w
             + (Z.of_nat (List.length t') - Z.of_nat (List.length (tb_instituicao w))))
            (trace w))).

Definition commit : M unit := emit Commit.

(** ** Batch reader *)

(** A source file after tokenisation by [sep]: the header line and the
    records, every field a text. *)
Record csv_source : Type := mkSource {
  header : list string;
  records : list (list string)
}.

Fixpoint chunked {A : Type} (fuel n : nat) (l : list A) : list (list A) :=
  match fuel with
  | O => []
  | S fuel' =>
      match l with
      | [] => []
      | _ :: _ => firstn n l :: chunked fuel' n (skipn n l)
      end
  end.

(** Local variables of [migrate_csv] that live across chunks. *)
Record locals : Type := mkLocals {
  inserted_total : Z;
  skipped_total : Z;
  processed_total : Z;
  columns_printed : bool;
  chunk_idx : Z
}.

(** The seven columns detected for a chunk. *)
Record mapping : Type := mkMapping {
  codigo_col : option string;
  nome_col : option string;
  co_uf_col : option string;
  co_municipio_col : option string;
  qt_mat_bas_col : option string;
  qt_mat_prof_col : option string;
  qt_mat_esp_col : option string
}.

(** How [migrate_csv] ends: [Raised] before the first chunk is read,
    [Finished] after the summary, [Aborted] when an exception left the loop
    over the chunks; [w] is then the store as the last commit left it, with
    the change counter of the lost connection and the trace up to the
    statement that raised. *)
Inductive result : Type :=
| Raised (e : exn)
| Finished (l : locals) (w : world)
| Aborted (e : exn) (w : world).

Section Pipeline.

Variable rt : runtime.

(** A field of the file as [read_csv(..., dtype=str)] delivers it. *)
Definition read_field (s : string) : cell :=
  if (s =? "")%string || contains (na_values rt) s then NaN else Str s.

(** [pd.read_csv(csv_file, sep=sep, chunksize=chunk_size, dtype=str)]: the
    frames share the header; a file without records gives one empty frame. *)
Definition read_csv (src : csv_source) (chunk_size : nat) : list DataFrame :=
  match records src with
  | [] => [mkFrame (header src) []]
  | _ :: _ =>
      map (fun rs => mkFrame (header src) (map (map read_field) rs))
          (chunked (List.length (records src)) chunk_size (records src))
  end.

(** [str(x)] and the entries of [astype(str)]. *)
Definition py_str (c : cell) : string :=
  match c with
  | NaN => "nan"
  | Str s => s
  | Num q => num_str rt q
  end.

(** [int(x)]: a text is parsed, a number is truncated toward zero, NaN
    raises. [None] stands for the exception. *)
Definition py_int (c : cell) : option Z :=
  match c with
  | NaN => None
  | Str s => int_of_str rt s
  | Num q => Some (Z.quot (Qnum q) (Z.pos (Qden q)))
  end.

(** ** Region filter *)

(** [pd.to_numeric(column, errors='coerce')], entry by entry. *)
Definition to_numeric_cell (c : cell) : cell :=
  match c with
  | Str s => match to_numeric rt s with Some q => Num q | None => NaN end
  | NaN => NaN
  | Num q => Num q
  end.

(** One entry of [column.between(lo, hi)] with both ends included. *)
Definition between (lo hi : Q) (c : cell) : bool :=
  match c with
  | Num q => Qle_bool lo q && Qle_bool q hi
  | _ => false
  end.

(** [tuple(str(x) for x in range(21, 30))] *)
Definition nordeste_prefixes : list string := map str_int (range 21 30).

(** The body of [if filter_nordeste:]. The column is rewritten first; when
    [between] then raises, the handler filters the rewritten column by the
    prefixes of its texts. *)
Definition region_filter (chunk : DataFrame) (co_uf_col : option string) : DataFrame :=
  match co_uf_col with
  | Some c =>
      let chunk := set_column chunk c to_numeric_cell in
      if between_accepts_bool rt then
        select_rows chunk
          (fun vals => between (21 # 1) (29 # 1) (lookup (columns chunk) vals c))
      else
        select_rows chunk
          (fun vals => startswith nordeste_prefixes (py_str (lookup (columns chunk) vals c)))
  | None => chunk
  end.

(** ** Row normalizer *)

(** [int(row.get(col)) if col and not pd.isna(row.get(col)) else 0] inside
    [try ... except Exception: ... = 0]. *)
Definition int_or_zero (cols : list string) (vals : list cell) (col : option string) : Z :=
  if truthy col && negb (isna (row_get cols vals col)) then
    match py_int (row_get cols vals col) with
    | Some n => n
    | None => 0
    end
  else 0.

(** The tuple appended to [insert_rows] for a row. *)
Definition normalize (m : mapping) (cols : list string) (vals : list cell) : instituicao :=
  let codigo := row_get cols vals (codigo_col m) in
  let nome := if truthy (nome_col m) then row_get cols vals (nome_col m) else Str "" in
  mkInst (py_str codigo) (py_str nome)
         (int_or_zero cols vals (co_uf_col m))
         (int_or_zero cols vals (co_municipio_col m))
         (int_or_zero cols vals (qt_mat_bas_col m))
         (int_or_zero cols vals (qt_mat_prof_col m))
         (int_or_zero cols vals (qt_mat_esp_col m)).

(** [for idx, row in chunk.iterrows():] threading [insert_rows],
    [codes_in_chunk] and [skipped_total]. *)
Fixpoint iterrows_loop (m : mapping) (cols : list string) (rs : list (list cell))
    (insert_rows : list instituicao) (codes_in_chunk : list string) (skipped : Z)
    : M (list instituicao * list string * Z) :=
  match rs with
  | [] => ret (insert_rows, codes_in_chunk, skipped)
  | vals :: rest =>
      let codigo := row_get cols vals (codigo_col m) in
      if isna codigo then
        iterrows_loop m cols rest insert_rows codes_in_chunk (skipped + 1)
      else
        found <- select_codigo (py_str codigo) ;;
        if found then
          iterrows_loop m cols rest insert_rows codes_in_chunk (skipped + 1)
        else
          iterrows_loop m cols rest
            (insert_rows ++ [normalize m cols vals])
            (codes_in_chunk ++ [py_str codigo]) skipped
  end.

(** ** Dedup/bulk writer *)

Definition nonempty {A : Type} (l : list A) : bool :=
  match l with [] => false | _ :: _ => true end.

(** The body of [if insert_rows:]; returns [added], or the exception of
    [executemany], which nothing catches. Both branches of the inner
    [if fast:] commit, so the flag does not appear. *)
Definition bulk_write (dry_run : bool) (insert_rows : list instituicao) : M (exn + Z) :=
  if negb dry_run && nonempty insert_rows then
    before_changes <- get_total_changes ;;
    raised <- executemany insert_rows ;;
    match raised with
    | Some e => ret (inl e)
    | None =>
        commit ;;
        after_changes <- get_total_changes ;;
        ret (inr (after_changes - before_changes))
    end
  else ret (inr 0).

(** ** One iteration of the loop over chunks *)

(** The seven calls of [find_column] at the head of the loop body. *)
Definition detect (cols : list string) : M mapping :=
  codigo_col <- call_find_column cols f_codigo ;;
  nome_col <- call_find_column cols f_nome ;;
  co_uf_col <- call_find_column cols f_co_uf ;;
  co_municipio_col <- call_find_column cols f_co_municipio ;;
  qt_mat_bas_col <- call_find_column cols f_qt_mat_bas ;;
  qt_mat_prof_col <- call_find_column cols f_qt_mat_prof ;;
  qt_mat_esp_col <- call_find_column cols f_qt_mat_esp ;;
  ret (mkMapping codigo_col nome_col co_uf_col co_municipio_col
                 qt_mat_bas_col qt_mat_prof_col qt_mat_esp_col).

(** The lines under [if not columns_printed:]. *)
Definition print_mapping (cols : list string) (m : mapping) : M unit :=
  print (DetectedColumns cols) ;;
  print (DetectedMapping "codigo" (codigo_col m)) ;;
  print (DetectedMapping "nome" (nome_col m)) ;;
  print (DetectedMapping "co_uf" (co_uf_col m)) ;;
  print (DetectedMapping "co_municipio" (co_municipio_col m)) ;;
  print (DetectedMapping "qt_mat_bas" (qt_mat_bas_col m)) ;;
  print (DetectedMapping "qt_mat_prof" (qt_mat_prof_col m)) ;;
  print (DetectedMapping "qt_mat_esp" (qt_mat_esp_col m)).

(** The body of [for chunk in pd.read_csv(...):]; [inl] is an exception on
    its way out. As in the source, [total_in_chunk] and [total_filtered] are
    both taken from the chunk after the filter has replaced it. *)
Definition chunk_body (filter_nordeste dry_run : bool) (chunk : DataFrame) (l : locals)
    : M (exn + locals) :=
  let processed := processed_total l + len chunk in
  let cols := columns chunk in
  m <- detect cols ;;
  (if columns_printed l then ret tt else print_mapping cols m) ;;
  if negb (truthy (codigo_col m)) || negb (truthy (nome_col m))
     || negb (truthy (co_uf_col m)) then
    print CannotIdentify ;;
    ret (inr (mkLocals (inserted_total l) (skipped_total l) processed true (chunk_idx l)))
  else
    let chunk := if filter_nordeste then region_filter chunk (co_uf_col m) else chunk in
    r <- iterrows_loop m (columns chunk) (rows chunk) [] [] (skipped_total l) ;;
    let '(insert_rows, _, skipped) := r in
    r' <- (if nonempty insert_rows then
             outcome <- bulk_write dry_run insert_rows ;;
             match outcome with
             | inl e => ret (inl e)
             | inr added =>
                 ret (inr (inserted_total l + added,
                           Z.of_nat (List.length insert_rows) - added))
             end
           else ret (inr (inserted_total l, 0))) ;;
    match r' with
    | inl e => ret (inl e)
    | inr (inserted, dup_count) =>
        let idx := chunk_idx l + 1 in
        let total_in_chunk := len chunk in
        let total_filtered := len chunk in
        print (ChunkStats idx total_in_chunk total_filtered
                          (Z.of_nat (List.length insert_rows)) dup_count) ;;
        ret (inr (mkLocals inserted skipped processed true idx))
    end.

(** [for chunk in pd.read_csv(...):]; an exception ends the loop. *)
Fixpoint chunk_loop (filter_nordeste dry_run : bool) (chunks : list DataFrame) (l : locals)
    : M (exn + locals) :=
  match chunks with
  | [] => ret (inr l)
  | chunk :: rest =>
      r <- chunk_body filter_nordeste dry_run chunk l ;;
      match r with
      | inl e => ret (inl e)
      | inr l' => chunk_loop filter_nordeste dry_run rest l'
      end
  end.

(** Modelled from the spec: [load_schema] runs [schema.sql], which is not
    among the sources; it creates the tables and the uniqueness constraint
    when they are missing and leaves an existing table as it is. *)
Definition load_schema (db : table) : table := db.

(** The three [PRAGMA] statements of [if fast:]. *)
Definition pragmas (fast : bool) : M unit :=
  if fast then
    emit (Pragma "journal_mode = WAL") ;;
    emit (Pragma "synchronous = OFF") ;;
    emit (Pragma "temp_store = MEMORY")
  else ret tt.

(** The run on the chunks the reader delivers, from a fresh connection; the
    summary is printed only when the loop ends without exception. *)
Definition run_chunks (filter_nordeste fast dry_run : bool) (chunks : list DataFrame)
    (db : table) : (exn + locals) * world :=
  (pragmas fast ;;
   r <- chunk_loop filter_nordeste dry_run chunks (mkLocals 0 0 0 false 0) ;;
   match r with
   | inl e => ret (inl e)
   | inr l =>
       print (Summary (processed_total l) (inserted_total l) (skipped_total l)) ;;
       ret (inr l)
   end) (mkWorld (load_schema db) 0 []).

(** [migrate_csv]: [csv_file] is what lies at the path, [None] when nothing
    does; [db] is the content of [tb_instituicao] at [db_path]. *)
Definition migrate_csv (csv_file : option csv_source) (db : table) (chunk_size : Z)
    (filter_nordeste fast dry_run : bool) : result :=
  match csv_file with
  | None => Raised FileNotFoundError
  | Some src =>
      if chunk_size <? 1 then Raised ValueError
      else
        match run_chunks filter_nordeste fast dry_run
                (read_csv src (Z.to_nat chunk_size)) db with
        | (inr l, w) => Finished l w
        | (inl e, w) => Aborted e w
        end
  end.

End Pipeline.

(** ** Views of a chunk used to state the properties *)

Section Views.

Variable rt : runtime.

(** The mapping [detect] computes from a header. *)
Definition mapping_of (cols : list string) : mapping :=
  mkMapping (find_column cols (CANDIDATE_COLUMNS f_codigo))
            (find_column cols (CANDIDATE_COLUMNS f_nome))
            (find_column cols (CANDIDATE_COLUMNS f_co_uf))
            (find_column cols (CANDIDATE_COLUMNS f_co_municipio))
            (find_column cols (CANDIDATE_COLUMNS f_qt_mat_bas))
            (find_column cols (CANDIDATE_COLUMNS f_qt_mat_prof))
            (find_column cols (CANDIDATE_COLUMNS f_qt_mat_esp)).

Definition detect_events (cols : list string) : list event :=
  map (fun f => CallFindColumn f cols)
      [f_codigo; f_nome; f_co_uf; f_co_municipio; f_qt_mat_bas; f_qt_mat_prof; f_qt_mat_esp].

Definition mapping_lines (cols : list string) (m : mapping) : list event :=
  map Print
      [DetectedColumns cols;
       DetectedMapping "codigo" (codigo_col m);
       DetectedMapping "nome" (nome_col m);
       DetectedMapping "co_uf" (co_uf_col m);
       DetectedMapping "co_municipio" (co_municipio_col m);
       DetectedMapping "qt_mat_bas" (qt_mat_bas_col m);
       DetectedMapping "qt_mat_prof" (qt_mat_prof_col m);
       DetectedMapping "qt_mat_esp" (qt_mat_esp_col m)].

(** The three mandatory columns were found. *)
Definition usable (m : mapping) : bool :=
  truthy (codigo_col m) && truthy (nome_col m) && truthy (co_uf_col m).

(** The chunk the row loop iterates over. *)
Definition retained (filter_nordeste : bool) (chunk : DataFrame) : DataFrame :=
  if filter_nordeste
  then region_filter rt chunk (co_uf_col (mapping_of (columns chunk)))
  else chunk.

(** The business key of a row, [str(codigo)]. *)
Definition key (m : mapping) (cols : list string) (vals : list cell) : string :=
  py_str rt (row_get cols vals (codigo_col m)).

Definition missing_key (m : mapping) (cols : list string) (vals : list cell) : bool :=
  isna (row_get cols vals (codigo_col m)).

(** The row passes both tests of the loop: its key is there and the table
    does not hold it. *)
Definition fresh (t : table) (m : mapping) (cols : list string) (vals : list cell) : bool :=
  negb (missing_key m cols vals) && negb (has_codigo t (key m cols vals)).

(** The list handed to [executemany] for a chunk read against table [t]. *)
Definition submitted (t : table) (filter_nordeste : bool) (chunk : DataFrame)
    : list instituicao :=
  let m := mapping_of (columns chunk) in
  let c := retained filter_nordeste chunk in
  map (normalize rt m (columns c)) (filter (fresh t m (columns c)) (rows c)).

(** The [SELECT] statements of the row loop. *)
Definition select_events (m : mapping) (cols : list string) (rs : list (list cell))
    : list event :=
  map (fun vals => Select (key m cols vals))
      (filter (fun vals => negb (missing_key m cols vals)) rs).

(** The test of the region filter read on a row before its region column is
    rewritten. *)
Definition region_keep (cols : list string) (c : string) (vals : list cell) : bool :=
  let n := to_numeric_cell rt (lookup cols vals c) in
  if between_accepts_bool rt
  then between (21 # 1) (29 # 1) n
  else startswith nordeste_prefixes (py_str rt n).

(** The value of an integer field cannot be taken from the row: its column
    was not found, the cell is missing, or [int] raises on it. *)
Definition uncoercible (cols : list string) (vals : list cell) (col : option string) : Prop :=
  col = None \/ isna (row_get cols vals col) = true \/ py_int rt (row_get cols vals col) = None.

(** The bulk write of the list would raise. *)
Definition overflows (dry_run : bool) (ins : list instituicao) : bool :=
  negb dry_run && negb (forallb bindable ins).

(** The table after the bulk write of a chunk; a write that raises leaves
    it as it was. *)
Definition written (dry_run : bool) (t : table) (ins : list instituicao) : table :=
  if dry_run || overflows dry_run ins then t else insert_or_ignore_many t ins.

(** What the bulk write of a chunk adds to the change counter: the rows
    added by the tuples that were executed, committed or not. *)
Definition counted (dry_run : bool) (t : table) (ins : list instituicao) : Z :=
  if dry_run then 0
  else Z.of_nat (List.length (insert_or_ignore_many t (bound_prefix ins)))
       - Z.of_nat (List.length t).

Definition write_events (dry_run : bool) (ins : list instituicao) : list event :=
  if negb dry_run && nonempty ins
  then if forallb bindable ins
       then [InsertOrIgnoreMany ins; Commit]
       else [InsertOrIgnoreMany ins]
  else [].

(** Rows of the retained chunk that the loop counts as skipped. *)
Definition skipped_rows (t : table) (filter_nordeste : bool) (chunk : DataFrame)
    : list (list cell) :=
  let m := mapping_of (columns chunk) in
  let c := retained filter_nordeste chunk in
  filter (fun vals => negb (fresh t m (columns c) vals)) (rows c).

(** The chunk is one whose bulk write raises. *)
Definition raises (filter_nordeste dry_run : bool) (t : table) (chunk : DataFrame) : bool :=
  usable (mapping_of (columns chunk))
  && overflows dry_run (submitted t filter_nordeste chunk).

(** The table after one chunk, and after the loop, which stops at the first
    chunk that raises. *)
Definition step_table (filter_nordeste dry_run : bool) (t : table) (chunk : DataFrame)
    : table :=
  if usable (mapping_of (columns chunk))
  then written dry_run t (submitted t filter_nordeste chunk)
  else t.

Fixpoint loop_table (filter_nordeste dry_run : bool) (chunks : list DataFrame) (t : table)
    : table :=
  match chunks with
  | [] => t
  | chunk :: rest =>
      if raises filter_nordeste dry_run t chunk then t
      else loop_table filter_nordeste dry_run rest
             (step_table filter_nordeste dry_run t chunk)
  end.

(** Some chunk of the loop raises. *)
Fixpoint loop_raises (filter_nordeste dry_run : bool) (chunks : list DataFrame) (t : table)
    : bool :=
  match chunks with
  | [] => false
  | chunk :: rest =>
      raises filter_nordeste dry_run t chunk
      || loop_raises filter_nordeste dry_run rest
           (step_table filter_nordeste dry_run t chunk)
  end.

(** The chunks whose body is entered: all of them, or those up to the one
    that raises. *)
Fixpoint started (filter_nordeste dry_run : bool) (chunks : list DataFrame) (t : table)
    : list DataFrame :=
  match chunks with
  | [] => []
  | chunk :: rest =>
      chunk :: (if raises filter_nordeste dry_run t chunk then []
                else started filter_nordeste dry_run rest
                       (step_table filter_nordeste dry_run t chunk))
  end.

(** No row of the chunks would pass the pre-check against [t]. *)
Definition covered (filter_nordeste : bool) (t : table) (chunks : list DataFrame) : Prop :=
  forall chunk vals,
    In chunk chunks ->
    usable (mapping_of (columns chunk)) = true ->
    In vals (rows (retained filter_nordeste chunk)) ->
    fresh t (mapping_of (columns chunk)) (columns chunk) vals = false.

(** Rows the loop iterates over, summed over the chunks it does not skip. *)
Fixpoint retained_total (filter_nordeste : bool) (chunks : list DataFrame) : Z :=
  match chunks with
  | [] => 0
  | chunk :: rest =>
      (if usable (mapping_of (columns chunk))
       then len (retained filter_nordeste chunk) else 0)
      + retained_total filter_nordeste rest
  end.

End Views.

(** Number of entries of [cs] that occur in [seen] or earlier in [cs]. *)
Fixpoint repeated (seen cs : list string) : nat :=
  match cs with
  | [] => 0
  | c :: cs' => (if contains seen c then 1 else 0) + repeated (c :: seen) cs'
  end.

Definition is_select (e : event) : bool :=
  match e with Select _ => true | _ => false end.

Definition is_insert (e : event) : bool :=
  match e with InsertOrIgnoreMany _ => true | _ => false end.

(** Calls of [find_column] for one field in a trace. *)
Definition resolutions (f : field) (tr : list event) : list (list string) :=
  flat_map (fun e => match e with
                     | CallFindColumn g cols =>
                         match f, g with
                         | f_codigo, f_codigo | f_nome, f_nome | f_co_uf, f_co_uf
                         | f_co_municipio, f_co_municipio | f_qt_mat_bas, f_qt_mat_bas
                         | f_qt_mat_prof, f_qt_mat_prof | f_qt_mat_esp, f_qt_mat_esp => [cols]
                         | _, _ => []
                         end
                     | _ => []
                     end) tr.

(** The lines printed, in order. *)
Definition printed (tr : list event) : list line :=
  flat_map (fun e => match e with Print l => [l] | _ => [] end) tr.

(** The table a run leaves behind, [db] when it raised before touching the
    store. *)
Definition left_table (db : table) (r : result) : table :=
  match r with
  | Raised _ => db
  | Finished _ w => tb_instituicao w
  | Aborted _ w => tb_instituicao w
  end.

(** The locals of [migrate_csv] before the first chunk. *)
Definition initial_locals : locals := mkLocals 0 0 0 false 0.

Definition pragma_events (fast : bool) : list event :=
  if fast
  then [Pragma "journal_mode = WAL"; Pragma "synchronous = OFF"; Pragma "temp_store = MEMORY"]
  else [].

(** ** Example inputs *)

Definition censo_header : list string := ["CO_ENTIDADE"; "NO_ENTIDADE"; "CO_UF"].

(** The batch repeating the code 111. *)
Definition repeated_code_file : csv_source :=
  mkSource censo_header
           [["111"; "Escola A"; "23"]; ["111"; "Escola A Dup"; "23"]].

(** Two schools of the region. *)
Definition two_schools_file : csv_source :=
  mkSource censo_header [["111"; "Escola A"; "23"]; ["222"; "Escola B"; "29"]].

(** One school of the region and one outside of it. *)
Definition mixed_region_file : csv_source :=
  mkSource censo_header [["111"; "Escola A"; "23"]; ["333"; "Escola C"; "35"]].

(** A school whose name field is empty. *)
Definition unnamed_school_file : csv_source :=
  mkSource censo_header [["111"; ""; "23"]].

(** A region code that only begins like one of the range. *)
Definition long_region_file : csv_source :=
  mkSource censo_header [["444"; "Escola D"; "230"]].

(** A header without the region column. *)
Definition no_region_file : csv_source :=
  mkSource ["CO_ENTIDADE"; "NO_ENTIDADE"] [["111"; "Escola A"]; ["222"; "Escola B"]].

(** Enrollment columns with a missing and a malformed figure. *)
Definition enrollment_frame : DataFrame :=
  mkFrame ["CO_ENTIDADE"; "NO_ENTIDADE"; "CO_UF"; "QT_MAT_BAS"; "QT_MAT_PROF"]
          [[Str "111"; Str "Escola A"; Str "23"; Str "12x"; NaN]].

(** A row without its business key between two complete rows. *)
Definition keyless_frame : DataFrame :=
  mkFrame censo_header
          [[Str "111"; Str "Escola A"; Str "23"];
           [NaN; Str "Escola ?"; Str "23"];
           [Str "222"; Str "Escola B"; Str "29"]].

Definition escola_a : instituicao := mkInst "111" "Escola A" 23 0 0 0 0.

Definition escola_b : instituicao := mkInst "222" "Escola B" 29 0 0 0 0.

(** An enrollment figure that Python reads and SQLite cannot hold, after a
    school that can be stored. *)
Definition big_number_file : csv_source :=
  mkSource ["CO_ENTIDADE"; "NO_ENTIDADE"; "CO_UF"; "QT_MAT_BAS"]
           [["111"; "Escola A"; "23"; "10"];
            ["666"; "Escola F"; "23"; "99999999999999999999"]].

(** The same figure between two schools that can be stored. *)
Definition big_number_middle_file : csv_source :=
  mkSource ["CO_ENTIDADE"; "NO_ENTIDADE"; "CO_UF"; "QT_MAT_BAS"]
           [["111"; "Escola A"; "23"; "10"];
            ["666"; "Escola F"; "23"; "99999999999999999999"];
            ["777"; "Escola G"; "23"; "5"]].

(** A row without key outside of the region, and a key made of one space. *)
Definition keyless_outside_file : csv_source :=
  mkSource censo_header [[""; "Escola X"; "35"]].

Definition space_key_file : csv_source :=
  mkSource censo_header [[" "; "Escola Y"; "23"]].

(** A row without key in a file without the region column. *)
Definition keyless_no_region_file : csv_source :=
  mkSource ["CO_ENTIDADE"; "NO_ENTIDADE"] [[""; "Escola X"]].



(** One more row skipped in the result of the row loop. *)
Definition count_skipped (r : list instituicao * list string * Z * world)
    : list instituicao * list string * Z * world :=
  let '(insert_rows, codes_in_chunk, skipped, w) := r in
  (insert_rows, codes_in_chunk, skipped + 1, w).

(** A chunk line that announces neither an insert nor a duplicate. *)
Definition quiet_line (l : line) : Prop :=
  match l with
  | ChunkStats _ _ _ new_inserts dup_count => new_inserts = 0 /\ dup_count = 0
  | Summary _ inserted _ => inserted = 0
  | _ => True
  end.

(** Sum of the [duplicates_in_db] figures of the chunk lines. *)
Fixpoint duplicates_reported (ls : list line) : Z :=
  match ls with
  | [] => 0
  | ChunkStats _ _ _ _ dup_count :: rest => dup_count + duplicates_reported rest
  | _ :: rest => duplicates_reported rest
  end.

(** ** Two concrete runtimes

    Texts are signed decimal integers, on which [int], [pd.to_numeric] and
    the printing of an integer column agree with the definitions below; the
    empty field is the only missing value. *)

Definition decimal (s : string) : option Z :=
  option_map Z.of_int (NilZero.int_of_string s).

(** A pandas whose [between] takes [inclusive=True]. *)
Definition pandas_bool_inclusive : runtime :=
  mkRuntime [] (fun s => option_map inject_Z (decimal s)) true
            (fun q => str_int (Z.quot (Qnum q) (Z.pos (Qden q)))) decimal.

(** A pandas whose [between] raises on [inclusive=True]. *)
Definition pandas_str_inclusive : runtime :=
  mkRuntime [] (fun s => option_map inject_Z (decimal s)) false
            (fun q => str_int (Z.quot (Qnum q) (Z.pos (Qden q)))) decimal.

(** ** Further views of a run *)


(** A stored region code of the Nordeste, [co_uf BETWEEN 21 AND 29]. *)
Definition in_nordeste (r : instituicao) : bool :=
  (21 <=? co_uf r) && (co_uf r <=? 29).

(** ** Readers of the table: [verify_migration.py] and the institution
    endpoints of [app.py] *)

(** A row as a reader sees it: the [id] SQLite gave it and its columns. *)
Definition stored : Type := (Z * instituicao)%type.

(** Largest integer SQLite holds; a larger Python integer cannot be bound
    ([OverflowError]) and a larger literal is not an integer to [OFFSET]
    (datatype mismatch). *)
Definition INT64_MAX : Z := 9223372036854775807.

(** [LIMIT n] of SQLite: a negative bound is no bound. *)
Definition sql_limit {A : Type} (n : Z) (l : list A) : list A :=
  if n <? 0 then l else firstn (Z.to_nat n) l.

(** What [verify] prints, line by line. *)
Inductive verify_line : Type :=
| TotalRegistros (total : Z)
| TotalNordeste (total_nordeste : Z)
| Mostrando (sample : Z)
| Amostra (id : Z) (codigo nome : string) (co_uf qt_mat_bas : Z).

Definition amostra (r : stored) : verify_line :=
  Amostra (fst r) (codigo (snd r)) (nome (snd r)) (co_uf (snd r)) (qt_mat_bas (snd r)).

(** [verify(db_path, sample, nordeste)]: the lines printed and whether the
    last query raised ([OverflowError] when [sample] cannot be bound). The
    rows come in the order of the table. *)
Definition verify (db : list stored) (sample : Z) (nordeste : bool)
    : list verify_line * bool :=
  let total := Z.of_nat (List.length db) in
  let total_nordeste := Z.of_nat (List.length (filter (fun r => in_nordeste (snd r)) db)) in
  let head := [TotalRegistros total]
              ++ (if nordeste then [TotalNordeste total_nordeste] else [])
              ++ [Mostrando sample] in
  if (sample >? INT64_MAX) || (sample <? - INT64_MAX - 1) then (head, true)
  else
    let rows := if nordeste then filter (fun r => in_nordeste (snd r)) db else db in
    (head ++ map amostra (sql_limit sample rows), false).

(** Bodies of the responses of the two institution endpoints; [Unhandled]
    is an exception that leaves the view (status 500). *)
Inductive api_body : Type :=
| ParametrosInvalidos
| InstituicaoNaoEncontrada
| Lista (items : list (Z * string * string))
| Detalhe (id : Z) (r : instituicao)
| Unhandled.

Definition response : Type := (api_body * Z)%type.

Section Api.

Variable rt : runtime.

(** [int(request.args.get(name, default))]: [None] is [ValueError]. *)
Definition arg_int (arg : option string) (default : Z) : option Z :=
  match arg with
  | None => Some default
  | Some s => int_of_str rt s
  end.

(** The page bounds after [max(1, min(limit, 100))] and [max(0, offset)]. *)
Definition clamp_limit (limit : Z) : Z := Z.max 1 (Z.min limit 100).

Definition clamp_offset (offset : Z) : Z := Z.max 0 offset.

Definition item (r : stored) : Z * string * string :=
  (fst r, codigo (snd r), nome (snd r)).

(** [GET /instituicoesensino] with the query arguments [limit] and
    [offset], each given or not. The query has no [ORDER BY]: the rows come
    in the order of the table. An offset beyond [INT64_MAX] makes the
    statement fail, and the view does not catch that. *)
Definition listar_instituicoes_paginadas (db : list stored)
    (limit_arg offset_arg : option string) : response :=
  match arg_int limit_arg 50 with
  | None => (ParametrosInvalidos, 400)
  | Some limit =>
      match arg_int offset_arg 0 with
      | None => (ParametrosInvalidos, 400)
      | Some offset =>
          let limit := clamp_limit limit in
          let offset := clamp_offset offset in
          if offset >? INT64_MAX then (Unhandled, 500)
          else (Lista (map item (firstn (Z.to_nat limit) (skipn (Z.to_nat offset) db))), 200)
      end
  end.

End Api.

(** [GET /instituicoesensino/<int:id>]; the route only passes [id >= 0]. *)
Definition getInstituicoesEnsinoById (db : list stored) (id : Z) : response :=
  if id >? INT64_MAX then (Unhandled, 500)
  else
    match find (fun r => fst r =? id) db with
    | None => (InstituicaoNaoEncontrada, 404)
    | Some r => (Detalhe (fst r) (snd r), 200)
    end.

(** A table with five schools, as a reader sees it. *)
Definition five_schools : list stored :=
  [(1, mkInst "111" "Escola A" 23 2304400 10 0 0);
   (2, mkInst "222" "Escola B" 29 2927408 20 1 0);
   (3, mkInst "333" "Escola C" 35 3550308 30 0 2);
   (4, mkInst "444" "Escola D" 21 2111300 40 0 0);
   (5, mkInst "555" "Escola E" 0 0 0 0 0)].

(** * Properties *)

(** ** The resolver *)

Lemma contains_In (columns : list string) (c : string) :
  contains columns c = true <-> In c columns.
Proof.
  unfold contains. rewrite existsb_exists. split.
  - intros [x [Hx Heq]]. apply String.eqb_eq in Heq. now subst.
  - intros H. exists c. split; [assumption | apply String.eqb_refl].
Qed.

Lemma find_column_Some (columns candidates : list string) (c : string) :
  find_column columns candidates = Some c -> In c candidates /\ In c columns.
Proof.
  induction candidates as [|k rest IH]; simpl; [discriminate|].
  destruct (contains columns k) eqn:Hk.
  - intros [= <-]. split; [now left | now apply contains_In].
  - intros H. destruct (IH H). split; [now right | assumption].
Qed.

Lemma find_column_None (columns candidates : list string) :
  find_column columns candidates = None <->
  forall c, In c candidates -> ~ In c columns.
Proof.
  induction candidates as [|k rest IH]; simpl.
  - split; [intros _ c [] | reflexivity].
  - destruct (contains columns k) eqn:Hk.
    + split; [discriminate|]. intros H. exfalso.
      apply (H k); [now left | now apply contains_In].
    + rewrite IH. split.
      * intros H c [<-|Hc]; [|now apply H].
        intros Hin. apply contains_In in Hin. congruence.
      * intros H c Hc. apply H. now right.
Qed.

(** No candidate name is empty, so a detected column is always true in a
    condition. *)
Lemma truthy_find_column (columns : list string) (f : field) :
  truthy (find_column columns (CANDIDATE_COLUMNS f)) =
  match find_column columns (CANDIDATE_COLUMNS f) with Some _ => true | None => false end.
Proof.
  destruct (find_column columns (CANDIDATE_COLUMNS f)) as [c|] eqn:H; [|reflexivity].
  apply find_column_Some in H. destruct H as [H _].
  destruct f; simpl in H;
    repeat (destruct H as [<-|H]; [reflexivity|]); destruct H.
Qed.

(** Declared priority: with both [CO_ENTIDADE] and [CO_ENTIDADE_MEC] in the
    header, [codigo] resolves to the candidate declared first. *)
Example find_column_priority :
  find_column ["CO_ENTIDADE_MEC"; "NO_ESCOLA"; "CO_ENTIDADE"] (CANDIDATE_COLUMNS f_codigo)
  = Some "CO_ENTIDADE".
Proof. reflexivity. Qed.

(** ** The table under [INSERT OR IGNORE] *)

Lemma has_codigo_app (t u : table) (c : string) :
  has_codigo (t ++ u) c = has_codigo t c || has_codigo u c.
Proof. unfold has_codigo. apply existsb_app. Qed.

Lemma has_codigo_In (t : table) (c : string) :
  has_codigo t c = true <-> exists r, In r t /\ codigo r = c.
Proof.
  unfold has_codigo. rewrite existsb_exists. split.
  - intros [r [Hr He]]. apply String.eqb_eq in He. eauto.
  - intros [r [Hr He]]. exists r. split; [assumption | now apply String.eqb_eq].
Qed.

Lemma insert_or_ignore_many_cons (t : table) (r : instituicao) (rs : list instituicao) :
  insert_or_ignore_many t (r :: rs) = insert_or_ignore_many (insert_or_ignore t r) rs.
Proof. reflexivity. Qed.

Lemma insert_or_ignore_many_app (t : table) (rs rs' : list instituicao) :
  insert_or_ignore_many t (rs ++ rs') =
  insert_or_ignore_many (insert_or_ignore_many t rs) rs'.
Proof. unfold insert_or_ignore_many. apply fold_left_app. Qed.

(** Rows are only ever appended: the old table is a prefix of the new one. *)
Lemma insert_or_ignore_many_extends (rs : list instituicao) (t : table) :
  exists added, insert_or_ignore_many t rs = t ++ added /\ incl added rs.
Proof.
  revert t. induction rs as [|r rs IH]; intros t.
  - exists []. split; [now rewrite app_nil_r | intros x []].
  - rewrite insert_or_ignore_many_cons. unfold insert_or_ignore.
    destruct (has_codigo t (codigo r)).
    + destruct (IH t) as [a [Ha Hi]]. exists a. split; [assumption|].
      intros x Hx. right. now apply Hi.
    + destruct (IH (t ++ [r])) as [a [Ha Hi]]. exists (r :: a). split.
      * rewrite Ha. now rewrite <- app_assoc.
      * intros x [<-|Hx]; [now left | right; now apply Hi].
Qed.

Lemma insert_or_ignore_many_length (rs : list instituicao) (t : table) :
  (List.length t <= List.length (insert_or_ignore_many t rs) <=
   List.length t + List.length rs)%nat.
Proof.
  revert t. induction rs as [|r rs IH]; intros t; simpl; [lia|].
  fold (insert_or_ignore_many (insert_or_ignore t r) rs).
  specialize (IH (insert_or_ignore t r)). unfold insert_or_ignore in *.
  destruct (has_codigo t (codigo r)); [lia|].
  rewrite length_app in IH. simpl in IH. lia.
Qed.

Lemma has_codigo_kept (rs : list instituicao) (t : table) (c : string) :
  has_codigo t c = true -> has_codigo (insert_or_ignore_many t rs) c = true.
Proof.
  intros H. destruct (insert_or_ignore_many_extends rs t) as [a [-> _]].
  rewrite has_codigo_app, H. reflexivity.
Qed.

(** After the bulk write every submitted [codigo] is in the table. *)
Lemma has_codigo_submitted (rs : list instituicao) (t : table) (r : instituicao) :
  In r rs -> has_codigo (insert_or_ignore_many t rs) (codigo r) = true.
Proof.
  revert t. induction rs as [|x rs IH]; intros t; [intros []|].
  rewrite insert_or_ignore_many_cons. intros [->|Hin]; [|now apply IH].
  apply has_codigo_kept. unfold insert_or_ignore.
  destruct (has_codigo t (codigo r)) eqn:H; [assumption|].
  rewrite has_codigo_app, H. simpl. now rewrite String.eqb_refl.
Qed.

(** A write whose rows all carry a known [codigo] changes nothing. *)
Lemma insert_or_ignore_many_known (rs : list instituicao) (t : table) :
  (forall r, In r rs -> has_codigo t (codigo r) = true) ->
  insert_or_ignore_many t rs = t.
Proof.
  induction rs as [|x rs IH]; intros H; [reflexivity|].
  rewrite insert_or_ignore_many_cons. unfold insert_or_ignore.
  rewrite (H x (or_introl eq_refl)). apply IH. intros r Hr. apply H. now right.
Qed.

(** The first row of the list with a [codigo] the table does not hold is
    stored as it is. *)
Lemma insert_or_ignore_many_first (pre post : list instituicao) (r : instituicao) (t : table) :
  has_codigo t (codigo r) = false ->
  (forall x, In x pre -> codigo x <> codigo r) ->
  In r (insert_or_ignore_many t (pre ++ r :: post)).
Proof.
  intros Ht Hpre. rewrite insert_or_ignore_many_app, insert_or_ignore_many_cons.
  destruct (insert_or_ignore_many_extends pre t) as [a [Ha Hi]].
  assert (Hno : has_codigo (insert_or_ignore_many t pre) (codigo r) = false).
  { rewrite Ha, has_codigo_app, Ht. simpl.
    destruct (has_codigo a (codigo r)) eqn:E; [|reflexivity].
    apply has_codigo_In in E. destruct E as [x [Hx He]].
    exfalso. apply (Hpre x); [now apply Hi | assumption]. }
  unfold insert_or_ignore at 1. rewrite Hno.
  destruct (insert_or_ignore_many_extends post (insert_or_ignore_many t pre ++ [r]))
    as [b [-> _]].
  apply in_or_app. left. apply in_or_app. right. now left.
Qed.

(** The uniqueness constraint is an invariant of the write. *)
Lemma insert_or_ignore_many_NoDup (rs : list instituicao) (t : table) :
  NoDup (map codigo t) -> NoDup (map codigo (insert_or_ignore_many t rs)).
Proof.
  revert t. induction rs as [|r rs IH]; intros t H; [assumption|].
  rewrite insert_or_ignore_many_cons. apply IH. unfold insert_or_ignore.
  destruct (has_codigo t (codigo r)) eqn:E; [assumption|].
  rewrite map_app. simpl. apply NoDup_app; [assumption | repeat constructor; intros [] |].
  intros c Hc [<-|[]]. apply in_map_iff in Hc. destruct Hc as [x [Hx Hin]].
  assert (has_codigo t (codigo r) = true) by (apply has_codigo_In; eauto). congruence.
Qed.

(** ** What one chunk does *)

Section ChunkFacts.

Variable rt : runtime.

Lemma world_eta (w : world) :
  w = mkWorld (tb_instituicao w) (total_changes w) (trace w).
Proof. now destruct w. Qed.

Lemma detect_spec (cols : list string) (w : world) :
  detect cols w =
  (mapping_of cols,
   mkWorld (tb_instituicao w) (total_changes w) (trace w ++ detect_events cols)).
Proof.
  unfold detect, call_find_column, bind, emit, ret, log. simpl.
  repeat rewrite <- app_assoc. reflexivity.
Qed.

Lemma print_mapping_spec (cols : list string) (m : mapping) (w : world) :
  print_mapping cols m w =
  (tt, mkWorld (tb_instituicao w) (total_changes w) (trace w ++ mapping_lines cols m)).
Proof.
  unfold print_mapping, print, bind, emit, ret, log. simpl.
  repeat rewrite <- app_assoc. reflexivity.
Qed.

(** The row loop only reads the table; its result is a filter of the rows. *)
Lemma iterrows_loop_spec (m : mapping) (cols : list string) (rs : list (list cell)) :
  forall (ins : list instituicao) (codes : list string) (sk : Z) (w : world),
  iterrows_loop rt m cols rs ins codes sk w =
  ((ins ++ map (normalize rt m cols) (filter (fresh rt (tb_instituicao w) m cols) rs),
    codes ++ map (key rt m cols) (filter (fresh rt (tb_instituicao w) m cols) rs),
    sk + Z.of_nat (List.length
                     (filter (fun vals => negb (fresh rt (tb_instituicao w) m cols vals)) rs))),
   mkWorld (tb_instituicao w) (total_changes w)
           (trace w ++ select_events rt m cols rs)).
Proof.
  induction rs as [|vals rest IH]; intros ins codes sk w.
  - simpl. unfold ret, select_events. simpl. rewrite !app_nil_r, Z.add_0_r.
    now rewrite <- world_eta.
  - cbn [iterrows_loop]. unfold select_events, fresh, missing_key, key.
    cbn [filter map].
    destruct (isna (row_get cols vals (codigo_col m))) eqn:Hna; cbn [negb andb].
    + rewrite IH. unfold select_events, fresh, missing_key, key.
      cbn [List.length]. rewrite Nat2Z.inj_succ, <- Z.add_1_l, Z.add_assoc. reflexivity.
    + unfold bind, select_codigo.
      destruct (has_codigo (tb_instituicao w)
                  (py_str rt (row_get cols vals (codigo_col m)))) eqn:Hhas;
        cbn [negb]; rewrite IH; unfold select_events, fresh, missing_key, key, log;
        cbn [tb_instituicao total_changes trace map List.length];
        rewrite <- ?app_assoc; cbn [app].
      * rewrite Nat2Z.inj_succ, <- Z.add_1_l, Z.add_assoc. reflexivity.
      * reflexivity.
Qed.

Lemma region_filter_columns (chunk : DataFrame) (col : option string) :
  columns (region_filter rt chunk col) = columns chunk.
Proof.
  unfold region_filter. destruct col; [|reflexivity].
  destruct (between_accepts_bool rt); reflexivity.
Qed.

Lemma retained_columns (filter_nordeste : bool) (chunk : DataFrame) :
  columns (retained rt filter_nordeste chunk) = columns chunk.
Proof.
  unfold retained. destruct filter_nordeste; [apply region_filter_columns | reflexivity].
Qed.

Lemma overflows_nil (dry_run : bool) : overflows dry_run [] = false.
Proof. unfold overflows. cbn [forallb negb]. apply andb_false_r. Qed.

Lemma overflows_dry (ins : list instituicao) : overflows true ins = false.
Proof. reflexivity. Qed.

Lemma overflows_write (ins : list instituicao) :
  overflows false ins = negb (forallb bindable ins).
Proof. reflexivity. Qed.

Lemma written_dry (t : table) (ins : list instituicao) : written true t ins = t.
Proof. reflexivity. Qed.

Lemma written_nil (dry_run : bool) (t : table) : written dry_run t [] = t.
Proof. unfold written. now destruct (dry_run || overflows dry_run []). Qed.

Lemma written_overflow (dry_run : bool) (t : table) (ins : list instituicao) :
  overflows dry_run ins = true -> written dry_run t ins = t.
Proof. unfold written. intros ->. now rewrite orb_true_r. Qed.

Lemma written_stored (t : table) (ins : list instituicao) :
  forallb bindable ins = true -> written false t ins = insert_or_ignore_many t ins.
Proof. unfold written, overflows. now intros ->. Qed.

(** The table after a write is the old one or the old one extended. *)
Lemma written_cases (dry_run : bool) (t : table) (ins : list instituicao) :
  written dry_run t ins = t \/ written dry_run t ins = insert_or_ignore_many t ins.
Proof. unfold written. destruct (dry_run || overflows dry_run ins); auto. Qed.

Lemma bound_prefix_all (rs : list instituicao) :
  forallb bindable rs = true -> bound_prefix rs = rs.
Proof.
  induction rs as [|r rs IH]; [reflexivity|]. cbn [forallb bound_prefix].
  intros H. apply andb_prop in H. destruct H as [-> H]. now rewrite IH.
Qed.

Lemma bound_prefix_incl (rs : list instituicao) (r : instituicao) :
  In r (bound_prefix rs) -> In r rs.
Proof.
  induction rs as [|x rs IH]; [intros []|]. cbn [bound_prefix].
  destruct (bindable x); [|intros []]. intros [<-|H]; [now left | right; now apply IH].
Qed.

Lemma bound_prefix_length (rs : list instituicao) :
  (List.length (bound_prefix rs) <= List.length rs)%nat.
Proof.
  induction rs as [|x rs IH]; [reflexivity|]. cbn [bound_prefix].
  destruct (bindable x); cbn [List.length]; lia.
Qed.

(** When the write does not raise, the counter moves by the growth of the
    table. *)
Lemma counted_written (dry_run : bool) (t : table) (ins : list instituicao) :
  overflows dry_run ins = false ->
  counted dry_run t ins
  = Z.of_nat (List.length (written dry_run t ins)) - Z.of_nat (List.length t).
Proof.
  unfold counted, written, overflows. destruct dry_run; cbn [negb andb orb].
  - intros _. lia.
  - intros H. apply negb_false_iff in H. rewrite H. cbn [negb].
    now rewrite (bound_prefix_all ins H).
Qed.

Lemma counted_nil (dry_run : bool) (t : table) : counted dry_run t [] = 0.
Proof.
  unfold counted. destruct dry_run; [reflexivity|].
  cbn [bound_prefix insert_or_ignore_many fold_left]. lia.
Qed.

Lemma counted_bounds (dry_run : bool) (t : table) (ins : list instituicao) :
  0 <= counted dry_run t ins <= Z.of_nat (List.length ins).
Proof.
  unfold counted. destruct dry_run; [lia|].
  pose proof (insert_or_ignore_many_length (bound_prefix ins) t).
  pose proof (bound_prefix_length ins). lia.
Qed.

(** The bulk write: it raises exactly when a tuple cannot be bound, and
    then the table is as before and nothing is committed. *)
Lemma bulk_write_spec (dry_run : bool) (ins : list instituicao) (w : world) :
  bulk_write dry_run ins w =
  ((if overflows dry_run ins then inl OverflowError
    else inr (Z.of_nat (List.length (written dry_run (tb_instituicao w) ins))
              - Z.of_nat (List.length (tb_instituicao w)))),
   mkWorld (written dry_run (tb_instituicao w) ins)
           (total_changes w + counted dry_run (tb_instituicao w) ins)
           (trace w ++ write_events dry_run ins)).
Proof.
  unfold bulk_write, written, write_events, overflows, counted.
  destruct dry_run; cbn [negb andb orb].
  - unfold ret. rewrite Z.sub_diag, Z.add_0_r, app_nil_r. now rewrite <- world_eta.
  - destruct ins as [|r ins]; cbn [nonempty].
    + unfold ret. cbn [forallb negb bound_prefix insert_or_ignore_many fold_left].
      rewrite Z.sub_diag, Z.add_0_r, app_nil_r. now rewrite <- world_eta.
    + unfold bind, get_total_changes, executemany.
      destruct (forallb bindable (r :: ins)) eqn:Hb; cbn [negb].
      * rewrite (bound_prefix_all _ Hb).
        unfold commit, emit, ret, log.
        cbn [tb_instituicao total_changes trace]. rewrite <- app_assoc. cbn [app].
        do 2 f_equal. lia.
      * unfold ret, log. cbn [tb_instituicao total_changes trace]. reflexivity.
Qed.

(** A chunk whose header lacks a mandatory column. *)
Lemma chunk_body_unusable (filter_nordeste dry_run : bool) (chunk : DataFrame)
    (l : locals) (w : world) :
  usable (mapping_of (columns chunk)) = false ->
  chunk_body rt filter_nordeste dry_run chunk l w =
  (inr (mkLocals (inserted_total l) (skipped_total l) (processed_total l + len chunk) true
                 (chunk_idx l)),
   mkWorld (tb_instituicao w) (total_changes w)
           (trace w ++ detect_events (columns chunk)
            ++ (if columns_printed l then []
                else mapping_lines (columns chunk) (mapping_of (columns chunk)))
            ++ [Print CannotIdentify])).
Proof.
  intros Hu. unfold chunk_body, bind. rewrite detect_spec.
  assert (Hcond : negb (truthy (codigo_col (mapping_of (columns chunk))))
                  || negb (truthy (nome_col (mapping_of (columns chunk))))
                  || negb (truthy (co_uf_col (mapping_of (columns chunk)))) = true).
  { unfold usable in Hu. rewrite <- !negb_andb. now rewrite Hu. }
  destruct (columns_printed l).
  - unfold ret at 1. rewrite Hcond. unfold print, emit, ret, log.
    cbn [tb_instituicao total_changes trace]. now rewrite <- app_assoc.
  - rewrite print_mapping_spec. rewrite Hcond. unfold print, emit, ret, log.
    cbn [tb_instituicao total_changes trace]. now rewrite <- !app_assoc.
Qed.

(** A chunk with the three mandatory columns: it ends with its line of
    figures, or its bulk write raises and the statement that raised is the
    last thing the run did. *)
Lemma chunk_body_usable (filter_nordeste dry_run : bool) (chunk : DataFrame)
    (l : locals) (w : world) :
  usable (mapping_of (columns chunk)) = true ->
  let t := tb_instituicao w in
  let c := retained rt filter_nordeste chunk in
  let ins := submitted rt t filter_nordeste chunk in
  let t' := written dry_run t ins in
  let added := Z.of_nat (List.length t') - Z.of_nat (List.length t) in
  chunk_body rt filter_nordeste dry_run chunk l w =
  ((if overflows dry_run ins then inl OverflowError
    else inr (mkLocals (inserted_total l + added)
                (skipped_total l
                 + Z.of_nat (List.length (skipped_rows rt t filter_nordeste chunk)))
                (processed_total l + len chunk) true (chunk_idx l + 1))),
   mkWorld t' (total_changes w + counted dry_run t ins)
           (trace w ++ detect_events (columns chunk)
            ++ (if columns_printed l then []
                else mapping_lines (columns chunk) (mapping_of (columns chunk)))
            ++ select_events rt (mapping_of (columns chunk)) (columns c) (rows c)
            ++ write_events dry_run ins
            ++ (if overflows dry_run ins then []
                else [Print (ChunkStats (chunk_idx l + 1) (len c) (len c)
                               (Z.of_nat (List.length ins))
                               (Z.of_nat (List.length ins) - added))]))).
Proof.
  intros Hu t c ins t' added. unfold chunk_body, bind. rewrite detect_spec.
  assert (Hcond : negb (truthy (codigo_col (mapping_of (columns chunk))))
                  || negb (truthy (nome_col (mapping_of (columns chunk))))
                  || negb (truthy (co_uf_col (mapping_of (columns chunk)))) = false).
  { unfold usable in Hu. rewrite <- !negb_andb. now rewrite Hu. }
  set (w1 := (if columns_printed l then ret tt
              else print_mapping (columns chunk) (mapping_of (columns chunk))) _).
  assert (Hw1 : w1 = (tt, mkWorld t (total_changes w)
                            (trace w ++ detect_events (columns chunk)
                             ++ (if columns_printed l then []
                                 else mapping_lines (columns chunk)
                                        (mapping_of (columns chunk)))))).
  { subst w1. destruct (columns_printed l).
    - unfold ret. now rewrite app_nil_r.
    - rewrite print_mapping_spec. cbn [tb_instituicao total_changes trace].
      now rewrite <- app_assoc. }
  rewrite Hw1, Hcond. clear w1 Hw1.
  fold (retained rt filter_nordeste chunk). fold c.
  rewrite iterrows_loop_spec. cbn [tb_instituicao total_changes trace app].
  fold t.
  change (map (normalize rt (mapping_of (columns chunk)) (columns c))
            (filter (fresh rt t (mapping_of (columns chunk)) (columns c)) (rows c)))
    with ins.
  change (filter (fun vals => negb (fresh rt t (mapping_of (columns chunk)) (columns c) vals))
            (rows c))
    with (skipped_rows rt t filter_nordeste chunk).
  destruct (nonempty ins) eqn:Hne.
  - rewrite bulk_write_spec. cbn [tb_instituicao total_changes trace].
    fold t'. fold added.
    destruct (overflows dry_run ins); unfold ret, print, emit, log;
      cbn [tb_instituicao total_changes trace];
      rewrite ?app_nil_r, <- ?app_assoc; reflexivity.
  - destruct ins as [|x ins0] eqn:Hi; [|discriminate].
    rewrite overflows_nil.
    unfold ret, print, emit, log. cbn [tb_instituicao total_changes trace].
    assert (Ht' : t' = t) by (subst t'; apply written_nil).
    assert (Hc : counted dry_run t [] = 0) by apply counted_nil.
    subst added. rewrite Ht', Hc, Z.sub_diag, !Z.add_0_r. unfold write_events.
    rewrite andb_false_r. cbn [nonempty app List.length].
    now rewrite <- !app_assoc.
Qed.

(** How a chunk ends is read off the list it submits. *)
Lemma chunk_body_raises (filter_nordeste dry_run : bool) (chunk : DataFrame)
    (l : locals) (w : world) :
  raises rt filter_nordeste dry_run (tb_instituicao w) chunk = true ->
  fst (chunk_body rt filter_nordeste dry_run chunk l w) = inl OverflowError.
Proof.
  unfold raises. intros H. apply andb_prop in H. destruct H as [Hu Ho].
  rewrite (chunk_body_usable filter_nordeste dry_run chunk l w Hu). cbn [fst].
  now rewrite Ho.
Qed.

Lemma chunk_body_returns (filter_nordeste dry_run : bool) (chunk : DataFrame)
    (l : locals) (w : world) :
  raises rt filter_nordeste dry_run (tb_instituicao w) chunk = false ->
  exists l', fst (chunk_body rt filter_nordeste dry_run chunk l w) = inr l'.
Proof.
  unfold raises. intros H.
  destruct (usable (mapping_of (columns chunk))) eqn:Hu.
  - cbn [andb] in H.
    rewrite (chunk_body_usable filter_nordeste dry_run chunk l w Hu). cbn [fst].
    rewrite H. eauto.
  - rewrite (chunk_body_unusable filter_nordeste dry_run chunk l w Hu). cbn [fst]. eauto.
Qed.


Lemma chunk_body_inr (filter_nordeste dry_run : bool) (chunk : DataFrame)
    (l l' : locals) (w : world) :
  fst (chunk_body rt filter_nordeste dry_run chunk l w) = inr l' ->
  raises rt filter_nordeste dry_run (tb_instituicao w) chunk = false.
Proof.
  intros H.
  destruct (raises rt filter_nordeste dry_run (tb_instituicao w) chunk) eqn:Hr;
    [|reflexivity].
  rewrite (chunk_body_raises filter_nordeste dry_run chunk l w Hr) in H. discriminate.
Qed.

(** A chunk that raises leaves the table as it was. *)
Lemma step_table_raises (filter_nordeste dry_run : bool) (t : table) (chunk : DataFrame) :
  raises rt filter_nordeste dry_run t chunk = true ->
  step_table rt filter_nordeste dry_run t chunk = t.
Proof.
  unfold raises, step_table. intros H. apply andb_prop in H. destruct H as [-> Ho].
  now apply written_overflow.
Qed.

Lemma raises_dry (filter_nordeste : bool) (t : table) (chunk : DataFrame) :
  raises rt filter_nordeste true t chunk = false.
Proof. unfold raises. rewrite overflows_dry. apply andb_false_r. Qed.

End ChunkFacts.

(** ** What a run does *)

Lemma loop_table_cons (rt : runtime) (filter_nordeste dry_run : bool) (chunk : DataFrame)
    (rest : list DataFrame) (t : table) :
  loop_table rt filter_nordeste dry_run (chunk :: rest) t =
  if raises rt filter_nordeste dry_run t chunk then t
  else loop_table rt filter_nordeste dry_run rest
         (step_table rt filter_nordeste dry_run t chunk).
Proof. reflexivity. Qed.

Lemma loop_raises_cons (rt : runtime) (filter_nordeste dry_run : bool) (chunk : DataFrame)
    (rest : list DataFrame) (t : table) :
  loop_raises rt filter_nordeste dry_run (chunk :: rest) t =
  raises rt filter_nordeste dry_run t chunk
  || loop_raises rt filter_nordeste dry_run rest
       (step_table rt filter_nordeste dry_run t chunk).
Proof. reflexivity. Qed.

Section RunFacts.

Variable rt : runtime.
Variables filter_nordeste dry_run : bool.

Lemma chunk_loop_cons (chunk : DataFrame) (rest : list DataFrame) (l : locals) (w : world) :
  chunk_loop rt filter_nordeste dry_run (chunk :: rest) l w =
  match fst (chunk_body rt filter_nordeste dry_run chunk l w) with
  | inl e => (inl e, snd (chunk_body rt filter_nordeste dry_run chunk l w))
  | inr l' =>
      chunk_loop rt filter_nordeste dry_run rest l'
        (snd (chunk_body rt filter_nordeste dry_run chunk l w))
  end.
Proof.
  cbn [chunk_loop]. unfold bind.
  destruct (chunk_body rt filter_nordeste dry_run chunk l w) as [[e|l'] w']; reflexivity.
Qed.

Lemma chunk_body_table (chunk : DataFrame) (l : locals) (w : world) :
  tb_instituicao (snd (chunk_body rt filter_nordeste dry_run chunk l w)) =
  step_table rt filter_nordeste dry_run (tb_instituicao w) chunk.
Proof.
  unfold step_table. destruct (usable (mapping_of (columns chunk))) eqn:Hu.
  - now rewrite chunk_body_usable.
  - now rewrite chunk_body_unusable.
Qed.

Lemma chunk_body_counters (chunk : DataFrame) (l l' : locals) (w : world) :
  fst (chunk_body rt filter_nordeste dry_run chunk l w) = inr l' ->
  let w' := snd (chunk_body rt filter_nordeste dry_run chunk l w) in
  inserted_total l' - inserted_total l =
    Z.of_nat (List.length (tb_instituicao w')) - Z.of_nat (List.length (tb_instituicao w))
  /\ total_changes w' - total_changes w = inserted_total l' - inserted_total l
  /\ processed_total l' = processed_total l + len chunk.
Proof.
  destruct (usable (mapping_of (columns chunk))) eqn:Hu.
  - rewrite chunk_body_usable by assumption. cbn [fst snd].
    destruct (overflows _ _) eqn:Ho; [discriminate|]. intros [= <-].
    cbn [tb_instituicao total_changes inserted_total processed_total].
    rewrite (counted_written _ _ _ Ho). lia.
  - rewrite chunk_body_unusable by assumption. cbn [fst snd]. intros [= <-]. cbn. lia.
Qed.

(** The change counter never falls behind the table: it has counted every
    row the chunk stored, and, when the write raised, also the rows that
    were executed and not committed. *)
Lemma chunk_body_changes (chunk : DataFrame) (l : locals) (w : world) :
  let w' := snd (chunk_body rt filter_nordeste dry_run chunk l w) in
  Z.of_nat (List.length (tb_instituicao w')) - Z.of_nat (List.length (tb_instituicao w))
  <= total_changes w' - total_changes w.
Proof.
  destruct (usable (mapping_of (columns chunk))) eqn:Hu.
  - rewrite chunk_body_usable by assumption. cbn [snd tb_instituicao total_changes].
    set (ins := submitted rt (tb_instituicao w) filter_nordeste chunk).
    destruct (overflows dry_run ins) eqn:Ho.
    + rewrite (written_overflow _ _ _ Ho).
      pose proof (counted_bounds dry_run (tb_instituicao w) ins). lia.
    + rewrite (counted_written _ _ _ Ho). lia.
  - rewrite chunk_body_unusable by assumption. cbn. lia.
Qed.

Lemma chunk_loop_table (chunks : list DataFrame) :
  forall (l : locals) (w : world),
  tb_instituicao (snd (chunk_loop rt filter_nordeste dry_run chunks l w)) =
  loop_table rt filter_nordeste dry_run chunks (tb_instituicao w).
Proof.
  induction chunks as [|chunk rest IH]; intros l w; [reflexivity|].
  rewrite chunk_loop_cons. cbn [loop_table].
  destruct (raises rt filter_nordeste dry_run (tb_instituicao w) chunk) eqn:Hr.
  - rewrite (chunk_body_raises rt filter_nordeste dry_run chunk l w Hr). cbn [snd].
    rewrite chunk_body_table. now apply step_table_raises.
  - destruct (chunk_body_returns rt filter_nordeste dry_run chunk l w Hr) as [l' ->].
    now rewrite IH, chunk_body_table.
Qed.

(** The loop raises exactly when one of its chunks does. *)
Lemma chunk_loop_raises (chunks : list DataFrame) :
  forall (l : locals) (w : world),
  loop_raises rt filter_nordeste dry_run chunks (tb_instituicao w) = true ->
  fst (chunk_loop rt filter_nordeste dry_run chunks l w) = inl OverflowError.
Proof.
  induction chunks as [|chunk rest IH]; intros l w; [discriminate|].
  cbn [loop_raises]. rewrite chunk_loop_cons.
  destruct (raises rt filter_nordeste dry_run (tb_instituicao w) chunk) eqn:Hr.
  - intros _. now rewrite (chunk_body_raises rt filter_nordeste dry_run chunk l w Hr).
  - cbn [orb]. intros H.
    destruct (chunk_body_returns rt filter_nordeste dry_run chunk l w Hr) as [l' ->].
    apply IH. now rewrite chunk_body_table.
Qed.

Lemma chunk_loop_returns (chunks : list DataFrame) :
  forall (l : locals) (w : world),
  loop_raises rt filter_nordeste dry_run chunks (tb_instituicao w) = false ->
  exists l', fst (chunk_loop rt filter_nordeste dry_run chunks l w) = inr l'.
Proof.
  induction chunks as [|chunk rest IH]; intros l w; [cbn; eauto|].
  cbn [loop_raises]. rewrite chunk_loop_cons. intros H.
  apply orb_false_elim in H. destruct H as [Hr H].
  destruct (chunk_body_returns rt filter_nordeste dry_run chunk l w Hr) as [l' ->].
  apply IH. now rewrite chunk_body_table.
Qed.

Lemma chunk_loop_inl (chunks : list DataFrame) (l : locals) (w : world) (e : exn) :
  fst (chunk_loop rt filter_nordeste dry_run chunks l w) = inl e ->
  e = OverflowError
  /\ loop_raises rt filter_nordeste dry_run chunks (tb_instituicao w) = true.
Proof.
  intros H.
  destruct (loop_raises rt filter_nordeste dry_run chunks (tb_instituicao w)) eqn:Hr.
  - rewrite (chunk_loop_raises chunks l w Hr) in H. injection H as <-. now split.
  - destruct (chunk_loop_returns chunks l w Hr) as [l' Hl']. congruence.
Qed.

Lemma chunk_loop_inr (chunks : list DataFrame) (l l' : locals) (w : world) :
  fst (chunk_loop rt filter_nordeste dry_run chunks l w) = inr l' ->
  loop_raises rt filter_nordeste dry_run chunks (tb_instituicao w) = false.
Proof.
  intros H.
  destruct (loop_raises rt filter_nordeste dry_run chunks (tb_instituicao w)) eqn:Hr;
    [|reflexivity].
  rewrite (chunk_loop_raises chunks l w Hr) in H. discriminate.
Qed.

Lemma chunk_loop_counters (chunks : list DataFrame) :
  forall (l l' : locals) (w : world),
  fst (chunk_loop rt filter_nordeste dry_run chunks l w) = inr l' ->
  let w' := snd (chunk_loop rt filter_nordeste dry_run chunks l w) in
  inserted_total l' - inserted_total l =
    Z.of_nat (List.length (tb_instituicao w')) - Z.of_nat (List.length (tb_instituicao w))
  /\ total_changes w' - total_changes w = inserted_total l' - inserted_total l
  /\ processed_total l' =
       processed_total l + fold_right (fun chunk n => len chunk + n) 0 chunks.
Proof.
  induction chunks as [|chunk rest IH]; intros l l' w.
  - cbn. intros [= <-]. lia.
  - rewrite chunk_loop_cons. cbn zeta.
    destruct (fst (chunk_body rt filter_nordeste dry_run chunk l w)) as [e|l1] eqn:Hb;
      [discriminate|].
    intros H. specialize (IH l1 l' _ H).
    pose proof (chunk_body_counters chunk l l1 w Hb) as Hc. cbn zeta in IH, Hc.
    cbn [fold_right]. lia.
Qed.

(** The change counter has counted at least the growth of the table,
    however the loop ends. *)
Lemma chunk_loop_changes (chunks : list DataFrame) :
  forall (l : locals) (w : world),
  let w' := snd (chunk_loop rt filter_nordeste dry_run chunks l w) in
  Z.of_nat (List.length (tb_instituicao w')) - Z.of_nat (List.length (tb_instituicao w))
  <= total_changes w' - total_changes w.
Proof.
  induction chunks as [|chunk rest IH]; intros l w.
  - cbn. lia.
  - rewrite chunk_loop_cons. cbn zeta.
    pose proof (chunk_body_changes chunk l w) as Hc. cbn zeta in Hc.
    destruct (fst (chunk_body rt filter_nordeste dry_run chunk l w)) as [e|l1] eqn:Hb.
    + cbn [snd]. exact Hc.
    + specialize (IH l1 (snd (chunk_body rt filter_nordeste dry_run chunk l w))).
      cbn zeta in IH. lia.
Qed.

Lemma step_table_dry (t : table) (chunk : DataFrame) :
  dry_run = true -> step_table rt filter_nordeste dry_run t chunk = t.
Proof.
  intros ->. unfold step_table. rewrite written_dry. now destruct (usable _).
Qed.

Lemma loop_table_dry (chunks : list DataFrame) (t : table) :
  dry_run = true -> loop_table rt filter_nordeste dry_run chunks t = t.
Proof.
  intros H. revert t. induction chunks as [|chunk rest IH]; intros t; [reflexivity|].
  cbn [loop_table]. rewrite step_table_dry by assumption.
  destruct (raises _ _ _ _ _); [reflexivity | apply IH].
Qed.

Lemma loop_raises_dry (chunks : list DataFrame) (t : table) :
  dry_run = true -> loop_raises rt filter_nordeste dry_run chunks t = false.
Proof.
  intros ->. revert t. induction chunks as [|chunk rest IH]; intros t; [reflexivity|].
  cbn [loop_raises]. now rewrite raises_dry, IH.
Qed.

(** Without a chunk that raises, the loop enters every chunk. *)
Lemma started_all (chunks : list DataFrame) :
  forall t : table,
  loop_raises rt filter_nordeste dry_run chunks t = false ->
  started rt filter_nordeste dry_run chunks t = chunks.
Proof.
  induction chunks as [|chunk rest IH]; intros t; [reflexivity|].
  cbn [loop_raises started]. intros H. apply orb_false_elim in H. destruct H as [-> H].
  now rewrite IH.
Qed.

Lemma started_prefix (chunks : list DataFrame) :
  forall t : table,
  exists rest, chunks = started rt filter_nordeste dry_run chunks t ++ rest.
Proof.
  induction chunks as [|chunk more IH]; intros t; [now exists []|].
  cbn [started]. destruct (raises rt filter_nordeste dry_run t chunk).
  - now exists more.
  - destruct (IH (step_table rt filter_nordeste dry_run t chunk)) as [rest Hrest].
    exists rest. cbn [app]. now rewrite <- Hrest.
Qed.

End RunFacts.
(** ** Projections of a trace *)

Lemma resolutions_app (f : field) (a b : list event) :
  resolutions f (a ++ b) = resolutions f a ++ resolutions f b.
Proof. unfold resolutions. apply flat_map_app. Qed.

Lemma printed_app (a b : list event) : printed (a ++ b) = printed a ++ printed b.
Proof. unfold printed. apply flat_map_app. Qed.

Lemma resolutions_detect (f : field) (cols : list string) :
  resolutions f (detect_events cols) = [cols].
Proof. destruct f; reflexivity. Qed.

Lemma resolutions_mapping_lines (f : field) (cols : list string) (m : mapping) :
  resolutions f (mapping_lines cols m) = [].
Proof. reflexivity. Qed.

Section TraceFacts.

Variable rt : runtime.

Lemma resolutions_select (f : field) (m : mapping) (cols : list string)
    (rs : list (list cell)) :
  resolutions f (select_events rt m cols rs) = [].
Proof.
  unfold select_events.
  induction (filter (fun vals => negb (missing_key m cols vals)) rs); auto.
Qed.

Lemma printed_select (m : mapping) (cols : list string) (rs : list (list cell)) :
  printed (select_events rt m cols rs) = [].
Proof.
  unfold select_events.
  induction (filter (fun vals => negb (missing_key m cols vals)) rs); auto.
Qed.

Lemma insert_select (m : mapping) (cols : list string) (rs : list (list cell)) :
  filter is_insert (select_events rt m cols rs) = [].
Proof.
  unfold select_events.
  induction (filter (fun vals => negb (missing_key m cols vals)) rs); auto.
Qed.

Lemma select_select (m : mapping) (cols : list string) (rs : list (list cell)) :
  filter is_select (select_events rt m cols rs) = select_events rt m cols rs.
Proof.
  unfold select_events.
  induction (filter (fun vals => negb (missing_key m cols vals)) rs) as [|v l IH];
    [reflexivity|]. cbn [map filter is_select]. now rewrite IH.
Qed.

Lemma resolutions_write (f : field) (d : bool) (ins : list instituicao) :
  resolutions f (write_events d ins) = [].
Proof.
  unfold write_events.
  destruct (negb d && nonempty ins); [destruct (forallb bindable ins)|]; reflexivity.
Qed.

Lemma printed_write (d : bool) (ins : list instituicao) :
  printed (write_events d ins) = [].
Proof.
  unfold write_events.
  destruct (negb d && nonempty ins); [destruct (forallb bindable ins)|]; reflexivity.
Qed.

Lemma printed_detect (cols : list string) : printed (detect_events cols) = [].
Proof. reflexivity. Qed.

(** Every chunk calls the resolver once per field, on its own header. *)
Lemma chunk_body_resolutions (f : field) (filter_nordeste dry_run : bool)
    (chunk : DataFrame) (l : locals) (w : world) :
  resolutions f (trace (snd (chunk_body rt filter_nordeste dry_run chunk l w))) =
  resolutions f (trace w) ++ [columns chunk].
Proof.
  destruct (usable (mapping_of (columns chunk))) eqn:Hu.
  - rewrite chunk_body_usable by assumption. cbn [snd trace].
    rewrite !resolutions_app, resolutions_detect, resolutions_select, resolutions_write.
    destruct (columns_printed l); destruct (overflows _ _); destruct f; reflexivity.
  - rewrite chunk_body_unusable by assumption. cbn [snd trace].
    rewrite !resolutions_app, resolutions_detect.
    destruct (columns_printed l); destruct f; reflexivity.
Qed.

(** The loop calls it for the chunks it enters. *)
Lemma chunk_loop_resolutions (f : field) (filter_nordeste dry_run : bool)
    (chunks : list DataFrame) :
  forall (l : locals) (w : world),
  resolutions f (trace (snd (chunk_loop rt filter_nordeste dry_run chunks l w))) =
  resolutions f (trace w)
  ++ map columns (started rt filter_nordeste dry_run chunks (tb_instituicao w)).
Proof.
  induction chunks as [|chunk rest IH]; intros l w.
  - cbn. now rewrite app_nil_r.
  - rewrite chunk_loop_cons. cbn [started map].
    destruct (raises rt filter_nordeste dry_run (tb_instituicao w) chunk) eqn:Hr.
    + rewrite (chunk_body_raises rt filter_nordeste dry_run chunk l w Hr). cbn [snd].
      now rewrite chunk_body_resolutions.
    + destruct (chunk_body_returns rt filter_nordeste dry_run chunk l w Hr) as [l' ->].
      rewrite IH, chunk_body_resolutions, chunk_body_table, <- app_assoc. reflexivity.
Qed.

End TraceFacts.

(** ** The reader *)

Lemma read_csv_columns (rt : runtime) (src : csv_source) (n : nat) (chunk : DataFrame) :
  In chunk (read_csv rt src n) -> columns chunk = header src.
Proof.
  unfold read_csv. destruct (records src) as [|r rs].
  - intros [<-|[]]. reflexivity.
  - intros H. apply in_map_iff in H. destruct H as [x [<- _]]. reflexivity.
Qed.

Lemma map_columns_read_csv (rt : runtime) (src : csv_source) (n : nat) :
  map columns (read_csv rt src n) =
  repeat (header src) (List.length (read_csv rt src n)).
Proof.
  pose proof (read_csv_columns rt src n) as H.
  induction (read_csv rt src n) as [|chunk rest IH]; [reflexivity|].
  cbn [map List.length repeat]. rewrite (H chunk (or_introl eq_refl)).
  f_equal. apply IH. intros c Hc. apply H. now right.
Qed.

(** The empty field is read as a missing value, like every text of
    [na_values]. *)
Lemma read_field_blank (rt : runtime) : read_field rt "" = NaN.
Proof. reflexivity. Qed.

Lemma read_field_na (rt : runtime) (s : string) :
  In s (na_values rt) -> read_field rt s = NaN.
Proof.
  intros H. unfold read_field. apply contains_In in H. rewrite H.
  now rewrite orb_true_r.
Qed.

(** ** The run as a whole *)

Section WholeRun.

Variable rt : runtime.
Variables filter_nordeste fast dry_run : bool.

Lemma run_chunks_spec (chunks : list DataFrame) (db : table) :
  run_chunks rt filter_nordeste fast dry_run chunks db =
  let r := chunk_loop rt filter_nordeste dry_run chunks initial_locals
             (mkWorld db 0 (pragma_events fast)) in
  match fst r with
  | inl e => (inl e, snd r)
  | inr l =>
      (inr l, log (Print (Summary (processed_total l) (inserted_total l)
                                  (skipped_total l))) (snd r))
  end.
Proof.
  unfold run_chunks, load_schema, pragmas, pragma_events, initial_locals.
  destruct fast; unfold bind, emit, print, log, ret;
    cbn [tb_instituicao total_changes trace app];
    match goal with
    | |- context [chunk_loop ?a ?b ?c ?d ?e ?f] =>
        destruct (chunk_loop a b c d e f) as [[e0|l0] w0]
    end; reflexivity.
Qed.

Lemma run_chunks_table (chunks : list DataFrame) (db : table) :
  tb_instituicao (snd (run_chunks rt filter_nordeste fast dry_run chunks db)) =
  loop_table rt filter_nordeste dry_run chunks db.
Proof.
  rewrite run_chunks_spec. cbn zeta.
  pose proof (chunk_loop_table rt filter_nordeste dry_run chunks initial_locals
                (mkWorld db 0 (pragma_events fast))) as H.
  cbn [tb_instituicao] in H. rewrite <- H.
  now destruct (fst (chunk_loop _ _ _ _ _ _)).
Qed.

(** How the run ends. *)
Lemma run_chunks_raises (chunks : list DataFrame) (db : table) :
  loop_raises rt filter_nordeste dry_run chunks db = true ->
  fst (run_chunks rt filter_nordeste fast dry_run chunks db) = inl OverflowError.
Proof.
  intros H. rewrite run_chunks_spec. cbn zeta.
  now rewrite (chunk_loop_raises rt filter_nordeste dry_run chunks initial_locals
                 (mkWorld db 0 (pragma_events fast)) H).
Qed.

Lemma run_chunks_returns (chunks : list DataFrame) (db : table) :
  loop_raises rt filter_nordeste dry_run chunks db = false ->
  exists l, fst (run_chunks rt filter_nordeste fast dry_run chunks db) = inr l.
Proof.
  intros H. rewrite run_chunks_spec. cbn zeta.
  destruct (chunk_loop_returns rt filter_nordeste dry_run chunks initial_locals
              (mkWorld db 0 (pragma_events fast)) H) as [l ->].
  now exists l.
Qed.

Lemma run_chunks_inl (chunks : list DataFrame) (db : table) (e : exn) :
  fst (run_chunks rt filter_nordeste fast dry_run chunks db) = inl e ->
  e = OverflowError /\ loop_raises rt filter_nordeste dry_run chunks db = true.
Proof.
  intros H. destruct (loop_raises rt filter_nordeste dry_run chunks db) eqn:Hr.
  - rewrite (run_chunks_raises chunks db Hr) in H. injection H as <-. now split.
  - destruct (run_chunks_returns chunks db Hr) as [l Hl]. congruence.
Qed.

Lemma run_chunks_inr (chunks : list DataFrame) (db : table) (l : locals) :
  fst (run_chunks rt filter_nordeste fast dry_run chunks db) = inr l ->
  loop_raises rt filter_nordeste dry_run chunks db = false.
Proof.
  intros H. destruct (loop_raises rt filter_nordeste dry_run chunks db) eqn:Hr;
    [|reflexivity].
  rewrite (run_chunks_raises chunks db Hr) in H. discriminate.
Qed.

(** A run that reaches its summary has the locals and the world of the
    loop, with the summary as last line. *)
Lemma run_chunks_finished (chunks : list DataFrame) (db : table) (l : locals) :
  fst (run_chunks rt filter_nordeste fast dry_run chunks db) = inr l ->
  let r := chunk_loop rt filter_nordeste dry_run chunks initial_locals
             (mkWorld db 0 (pragma_events fast)) in
  fst r = inr l
  /\ snd (run_chunks rt filter_nordeste fast dry_run chunks db)
     = log (Print (Summary (processed_total l) (inserted_total l) (skipped_total l)))
           (snd r).
Proof.
  rewrite run_chunks_spec. cbn zeta.
  destruct (fst (chunk_loop _ _ _ _ _ _)) as [e|l0]; [discriminate|].
  cbn [fst snd]. intros [= <-]. now split.
Qed.


(** The total the run reports is the growth of the table, and of the
    change counter. *)
Lemma run_chunks_inserted (chunks : list DataFrame) (db : table) (l : locals) :
  let r := run_chunks rt filter_nordeste fast dry_run chunks db in
  fst r = inr l ->
  inserted_total l =
    Z.of_nat (List.length (tb_instituicao (snd r))) - Z.of_nat (List.length db)
  /\ total_changes (snd r) = inserted_total l
  /\ processed_total l = fold_right (fun chunk n => len chunk + n) 0 chunks.
Proof.
  cbn zeta. intros H. destruct (run_chunks_finished chunks db l H) as [Hl ->].
  cbn [log tb_instituicao total_changes].
  pose proof (chunk_loop_counters rt filter_nordeste dry_run chunks initial_locals l
                (mkWorld db 0 (pragma_events fast)) Hl) as Hc.
  cbn [tb_instituicao total_changes inserted_total processed_total initial_locals] in Hc.
  lia.
Qed.

(** The change counter has counted at least the growth of the table,
    however the run ends. *)
Lemma run_chunks_changes (chunks : list DataFrame) (db : table) :
  let r := run_chunks rt filter_nordeste fast dry_run chunks db in
  Z.of_nat (List.length (tb_instituicao (snd r))) - Z.of_nat (List.length db)
  <= total_changes (snd r).
Proof.
  cbn zeta. rewrite run_chunks_spec. cbn zeta.
  pose proof (chunk_loop_changes rt filter_nordeste dry_run chunks initial_locals
                (mkWorld db 0 (pragma_events fast))) as Hc.
  cbn [tb_instituicao total_changes] in Hc.
  destruct (fst (chunk_loop _ _ _ _ _ _)); cbn [snd log tb_instituicao total_changes]; lia.
Qed.

Lemma run_chunks_resolutions (f : field) (chunks : list DataFrame) (db : table) :
  resolutions f (trace (snd (run_chunks rt filter_nordeste fast dry_run chunks db))) =
  map columns (started rt filter_nordeste dry_run chunks db).
Proof.
  rewrite run_chunks_spec. cbn zeta.
  pose proof (chunk_loop_resolutions rt f filter_nordeste dry_run chunks initial_locals
                (mkWorld db 0 (pragma_events fast))) as H.
  cbn [tb_instituicao trace] in H.
  assert (Hp : resolutions f (pragma_events fast) = []) by (now destruct fast).
  rewrite Hp in H. cbn [app] in H.
  destruct (fst (chunk_loop _ _ _ _ _ _)); cbn [snd log trace].
  - exact H.
  - rewrite resolutions_app, H. cbn. now rewrite app_nil_r.
Qed.

(** [migrate_csv] on a file that is there, with a chunk size [read_csv]
    accepts: the run finishes or the bulk write of a chunk raises. *)
Lemma migrate_csv_cases (src : csv_source) (db : table) (chunk_size : Z) :
  1 <= chunk_size ->
  let chunks := read_csv rt src (Z.to_nat chunk_size) in
  let r := run_chunks rt filter_nordeste fast dry_run chunks db in
  (loop_raises rt filter_nordeste dry_run chunks db = false
   /\ exists l, fst r = inr l
                /\ migrate_csv rt (Some src) db chunk_size filter_nordeste fast dry_run
                   = Finished l (snd r))
  \/ (loop_raises rt filter_nordeste dry_run chunks db = true
      /\ fst r = inl OverflowError
      /\ migrate_csv rt (Some src) db chunk_size filter_nordeste fast dry_run
         = Aborted OverflowError (snd r)).
Proof.
  intros Hn chunks r.
  assert (Hlt : (chunk_size <? 1) = false) by (apply Z.ltb_ge; lia).
  unfold migrate_csv. rewrite Hlt. fold chunks. fold r.
  destruct (loop_raises rt filter_nordeste dry_run chunks db) eqn:Hr.
  - right. pose proof (run_chunks_raises chunks db Hr) as H. fold r in H.
    destruct r as [[e|l] w]; cbn [fst snd] in *; [|discriminate].
    injection H as ->. auto.
  - left. destruct (run_chunks_returns chunks db Hr) as [l H]. fold r in H.
    destruct r as [[e|l0] w]; cbn [fst snd] in *; [discriminate|].
    injection H as ->. split; [reflexivity|]. exists l. auto.
Qed.

Lemma left_table_migrate_csv (src : csv_source) (db : table) (chunk_size : Z) :
  1 <= chunk_size ->
  left_table db (migrate_csv rt (Some src) db chunk_size filter_nordeste fast dry_run)
  = loop_table rt filter_nordeste dry_run (read_csv rt src (Z.to_nat chunk_size)) db.
Proof.
  intros Hn. rewrite <- run_chunks_table.
  destruct (migrate_csv_cases src db chunk_size Hn) as [[_ [l [_ ->]]]|[_ [_ ->]]];
    reflexivity.
Qed.

End WholeRun.

(** ** How [migrate_csv] ends *)

Section Endings.

Variable rt : runtime.
Variables (src : csv_source) (db : table) (chunk_size : Z).
Variables filter_nordeste fast dry_run : bool.

Hypothesis Hsize : 1 <= chunk_size.

Let chunks := read_csv rt src (Z.to_nat chunk_size).
Let r := run_chunks rt filter_nordeste fast dry_run chunks db.

Lemma migrate_csv_inr (l : locals) :
  fst r = inr l ->
  migrate_csv rt (Some src) db chunk_size filter_nordeste fast dry_run
  = Finished l (snd r).
Proof.
  intros H. destruct (migrate_csv_cases rt filter_nordeste fast dry_run src db chunk_size
                        Hsize) as [[_ [l0 [Hl0 Hm]]]|[_ [He _]]].
  - fold chunks in Hl0, Hm. fold r in Hl0, Hm. congruence.
  - fold chunks in He. fold r in He. congruence.
Qed.

Lemma migrate_csv_inl (e : exn) :
  fst r = inl e ->
  migrate_csv rt (Some src) db chunk_size filter_nordeste fast dry_run
  = Aborted e (snd r).
Proof.
  intros H. destruct (migrate_csv_cases rt filter_nordeste fast dry_run src db chunk_size
                        Hsize) as [[_ [l0 [Hl0 _]]]|[_ [He Hm]]].
  - fold chunks in Hl0. fold r in Hl0. congruence.
  - fold chunks in He, Hm. fold r in He, Hm. congruence.
Qed.

Lemma migrate_csv_Finished_inv (l : locals) (w : world) :
  migrate_csv rt (Some src) db chunk_size filter_nordeste fast dry_run = Finished l w ->
  loop_raises rt filter_nordeste dry_run chunks db = false
  /\ fst r = inr l /\ snd r = w.
Proof.
  intros H. destruct (migrate_csv_cases rt filter_nordeste fast dry_run src db chunk_size
                        Hsize) as [[Hr [l0 [Hl0 Hm]]]|[_ [_ Hm]]].
  - fold chunks in Hr, Hl0, Hm. fold r in Hl0, Hm. rewrite Hm in H.
    injection H as <- <-. auto.
  - rewrite Hm in H. discriminate.
Qed.

Lemma migrate_csv_Aborted_inv (e : exn) (w : world) :
  migrate_csv rt (Some src) db chunk_size filter_nordeste fast dry_run = Aborted e w ->
  e = OverflowError
  /\ dry_run = false
  /\ loop_raises rt filter_nordeste dry_run chunks db = true
  /\ fst r = inl OverflowError /\ snd r = w.
Proof.
  intros H. destruct (migrate_csv_cases rt filter_nordeste fast dry_run src db chunk_size
                        Hsize) as [[_ [l0 [_ Hm]]]|[Hr [He Hm]]].
  - rewrite Hm in H. discriminate.
  - fold chunks in Hr, He, Hm. fold r in He, Hm. rewrite Hm in H.
    injection H as <- <-. repeat split; auto.
    destruct dry_run; [|reflexivity].
    now rewrite (loop_raises_dry rt filter_nordeste true chunks db eq_refl) in Hr.
Qed.

Lemma migrate_csv_not_Raised (e : exn) :
  migrate_csv rt (Some src) db chunk_size filter_nordeste fast dry_run <> Raised e.
Proof.
  destruct (migrate_csv_cases rt filter_nordeste fast dry_run src db chunk_size
              Hsize) as [[_ [l0 [_ ->]]]|[_ [_ ->]]]; discriminate.
Qed.

End Endings.
(** ** The row normalizer *)

Section NormalizerFacts.

Variable rt : runtime.

Lemma codigo_normalize (m : mapping) (cols : list string) (vals : list cell) :
  codigo (normalize rt m cols vals) = key rt m cols vals.
Proof. reflexivity. Qed.


(** A missing name is not replaced by the empty text: [str] of the missing
    value is stored. *)
Lemma nome_normalize_missing (m : mapping) (cols : list string) (vals : list cell) :
  truthy (nome_col m) = true ->
  isna (row_get cols vals (nome_col m)) = true ->
  nome (normalize rt m cols vals) = "nan".
Proof.
  intros Ht Hna. unfold normalize. cbn [nome]. rewrite Ht.
  now destruct (row_get cols vals (nome_col m)).
Qed.

Lemma fresh_missing_key (t : table) (m : mapping) (cols : list string) (vals : list cell) :
  missing_key m cols vals = true -> fresh rt t m cols vals = false.
Proof. unfold fresh. now intros ->. Qed.

Lemma select_events_app (m : mapping) (cols : list string) (a b : list (list cell)) :
  select_events rt m cols (a ++ b) = select_events rt m cols a ++ select_events rt m cols b.
Proof. unfold select_events. now rewrite filter_app, map_app. Qed.

(** A row without key leaves the loop as if it had not been there, but for
    the skip it adds. *)
Lemma iterrows_loop_missing_key (m : mapping) (cols : list string)
    (pre post : list (list cell)) (vals : list cell)
    (ins : list instituicao) (codes : list string) (sk : Z) (w : world) :
  missing_key m cols vals = true ->
  iterrows_loop rt m cols (pre ++ vals :: post) ins codes sk w =
  count_skipped (iterrows_loop rt m cols (pre ++ post) ins codes sk w).
Proof.
  intros Hk. rewrite !iterrows_loop_spec. unfold count_skipped.
  rewrite !filter_app, !select_events_app. cbn [filter].
  rewrite (fresh_missing_key (tb_instituicao w) m cols vals Hk). cbn [negb].
  unfold select_events at 2. cbn [filter]. rewrite Hk. cbn [negb].
  fold (select_events rt m cols post).
  rewrite !length_app. cbn [List.length].
  do 2 f_equal. lia.
Qed.

End NormalizerFacts.

(** ** The region filter *)

Section RegionFacts.

Variable rt : runtime.

Lemma lookup_set_cell (f : cell -> cell) (c : string) (cols : list string) :
  f NaN = NaN ->
  forall vals, lookup cols (set_cell cols vals c f) c = f (lookup cols vals c).
Proof.
  intros Hf. induction cols as [|k cols IH]; intros vals.
  - destruct vals; cbn; now rewrite Hf.
  - destruct vals as [|v vals]; cbn [set_cell lookup]; [now rewrite Hf|].
    destruct (k =? c)%string eqn:E; cbn [lookup]; rewrite ?E; [reflexivity | apply IH].
Qed.

Lemma lookup_set_cell_other (f : cell -> cell) (c c' : string) (cols : list string) :
  c' <> c ->
  forall vals, lookup cols (set_cell cols vals c f) c' = lookup cols vals c'.
Proof.
  intros Hne. induction cols as [|k cols IH]; intros vals.
  - now destruct vals.
  - destruct vals as [|v vals]; cbn [set_cell lookup]; [reflexivity|].
    destruct (k =? c)%string eqn:E; cbn [lookup].
    + apply String.eqb_eq in E. subst k.
      destruct (c =? c')%string eqn:E'; [|reflexivity].
      apply String.eqb_eq in E'. congruence.
    + destruct (k =? c')%string; [reflexivity | apply IH].
Qed.

Lemma filter_map_comm {A B : Type} (g : A -> B) (p : B -> bool) (l : list A) :
  filter p (map g l) = map g (filter (fun x => p (g x)) l).
Proof.
  induction l as [|x l IH]; [reflexivity|]. cbn [map filter].
  destruct (p (g x)); cbn [map]; now rewrite IH.
Qed.

(** The rows the filter keeps are the rows that pass [region_keep], with
    their region column rewritten by [pd.to_numeric]. *)
Lemma region_filter_rows (chunk : DataFrame) (c : string) :
  rows (region_filter rt chunk (Some c)) =
  map (fun vals => set_cell (columns chunk) vals c (to_numeric_cell rt))
      (filter (region_keep rt (columns chunk) c) (rows chunk)).
Proof.
  unfold region_filter, region_keep, select_rows, set_column. cbn [columns rows].
  destruct (between_accepts_bool rt); cbn [rows]; rewrite filter_map_comm; f_equal;
    apply filter_ext; intros vals; now rewrite lookup_set_cell.
Qed.

(** The key column is never the region column. *)
Lemma mandatory_columns_differ (cols : list string) :
  usable (mapping_of cols) = true ->
  exists ck c, codigo_col (mapping_of cols) = Some ck
               /\ co_uf_col (mapping_of cols) = Some c /\ ck <> c.
Proof.
  unfold usable, mapping_of. cbn [codigo_col nome_col co_uf_col].
  destruct (find_column cols (CANDIDATE_COLUMNS f_codigo)) as [ck|] eqn:Hk;
    [|discriminate].
  destruct (find_column cols (CANDIDATE_COLUMNS f_co_uf)) as [c|] eqn:Hc;
    [|cbn; now rewrite andb_false_r].
  intros _. exists ck, c. repeat split.
  apply find_column_Some in Hk, Hc. destruct Hk as [Hk _]. destruct Hc as [Hc _].
  cbn in Hc. destruct Hc as [<-|[]].
  cbn in Hk. repeat (destruct Hk as [<-|Hk]; [discriminate|]). destruct Hk.
Qed.

(** Every tuple handed to the bulk write comes from a row of the chunk, as
    read, that has its key. *)
Lemma submitted_from_keyed_row (t : table) (filter_nordeste : bool) (chunk : DataFrame)
    (r : instituicao) :
  usable (mapping_of (columns chunk)) = true ->
  In r (submitted rt t filter_nordeste chunk) ->
  exists vals,
    In vals (rows chunk)
    /\ missing_key (mapping_of (columns chunk)) (columns chunk) vals = false
    /\ codigo r = key rt (mapping_of (columns chunk)) (columns chunk) vals.
Proof.
  intros Hu Hin. unfold submitted in Hin. rewrite retained_columns in Hin.
  apply in_map_iff in Hin. destruct Hin as [v' [<- Hv']].
  apply filter_In in Hv'. destruct Hv' as [Hin' Hf].
  assert (Hk' : missing_key (mapping_of (columns chunk)) (columns chunk) v' = false).
  { unfold fresh in Hf. apply andb_prop in Hf. destruct Hf as [Hf _].
    now apply negb_true_iff in Hf. }
  unfold retained in Hin'. destruct filter_nordeste.
  - destruct (mandatory_columns_differ (columns chunk) Hu) as (ck & c & Hck & Hc & Hne).
    rewrite Hc, region_filter_rows in Hin'.
    apply in_map_iff in Hin'. destruct Hin' as [vals [<- Hvals]].
    apply filter_In in Hvals. destruct Hvals as [Hvals _].
    exists vals. split; [assumption|].
    unfold missing_key, key, normalize in *. cbn [codigo].
    rewrite Hck in *. cbn [row_get] in *.
    rewrite lookup_set_cell_other in * by assumption. now split.
  - exists v'. now repeat split.
Qed.

Lemma between_iff (c : cell) :
  between (21 # 1) (29 # 1) c = true <->
  exists q, c = Num q /\ (21 # 1 <= q)%Q /\ (q <= 29 # 1)%Q.
Proof.
  destruct c as [|s|q]; cbn [between].
  - split; [discriminate | intros [q [H _]]; discriminate].
  - split; [discriminate | intros [q [H _]]; discriminate].
  - rewrite andb_true_iff, !Qle_bool_iff. split.
    + intros [H1 H2]. now exists q.
    + intros [q' [[= <-] H]]. exact H.
Qed.

Lemma startswith_iff (prefixes : list string) (s : string) :
  startswith prefixes s = true <->
  exists p, In p prefixes /\ String.prefix p s = true.
Proof. unfold startswith. apply existsb_exists. Qed.

End RegionFacts.

(** ** Duplicates inside one bulk write *)

Lemma repeated_ext_in (cs : list string) :
  forall seen seen' : list string,
  (forall c, In c cs -> contains seen c = contains seen' c) ->
  repeated seen cs = repeated seen' cs.
Proof.
  induction cs as [|c cs IH]; intros seen seen' H; [reflexivity|].
  cbn [repeated]. rewrite (H c (or_introl eq_refl)). f_equal.
  apply IH. intros c' Hc'. unfold contains in *. cbn [existsb].
  now rewrite (H c' (or_intror Hc')).
Qed.


Lemma filter_none {A : Type} (p : A -> bool) (l : list A) :
  (forall x, In x l -> p x = false) -> filter p l = [].
Proof.
  induction l as [|x l IH]; intros H; [reflexivity|]. cbn [filter].
  rewrite (H x (or_introl eq_refl)). apply IH. intros y Hy. apply H. now right.
Qed.

Lemma filter_all {A : Type} (p : A -> bool) (l : list A) :
  (forall x, In x l -> p x = true) -> filter p l = l.
Proof.
  induction l as [|x l IH]; intros H; [reflexivity|]. cbn [filter].
  rewrite (H x (or_introl eq_refl)). f_equal. apply IH. intros y Hy. apply H. now right.
Qed.

(** ** The pre-check and the second run *)

Section SecondRun.

Variable rt : runtime.
Variable filter_nordeste : bool.

(** Every submitted tuple has a [codigo] the table did not hold when the
    chunk was read. *)
Lemma submitted_unknown (t : table) (chunk : DataFrame) (r : instituicao) :
  In r (submitted rt t filter_nordeste chunk) -> has_codigo t (codigo r) = false.
Proof.
  unfold submitted. intros H. apply in_map_iff in H. destruct H as [vals [<- Hv]].
  apply filter_In in Hv. destruct Hv as [_ Hf]. rewrite codigo_normalize.
  unfold fresh in Hf. apply andb_prop in Hf. destruct Hf as [_ Hf].
  now apply negb_true_iff in Hf.
Qed.


(** The table only grows along the loop, so a known [codigo] stays known. *)
Lemma has_codigo_step (dry_run : bool) (t : table) (chunk : DataFrame) (c : string) :
  has_codigo t c = true ->
  has_codigo (step_table rt filter_nordeste dry_run t chunk) c = true.
Proof.
  intros H. unfold step_table.
  destruct (usable _); [|assumption].
  destruct (written_cases dry_run t (submitted rt t filter_nordeste chunk)) as [->| ->];
    [assumption | now apply has_codigo_kept].
Qed.

Lemma has_codigo_loop (dry_run : bool) (chunks : list DataFrame) :
  forall (t : table) (c : string),
  has_codigo t c = true ->
  has_codigo (loop_table rt filter_nordeste dry_run chunks t) c = true.
Proof.
  induction chunks as [|chunk rest IH]; intros t c H; [assumption|].
  cbn [loop_table]. destruct (raises _ _ _ _ _); [assumption|].
  apply IH. now apply has_codigo_step.
Qed.

Lemma fresh_false_iff (t : table) (m : mapping) (cols : list string) (vals : list cell) :
  fresh rt t m cols vals = false <->
  missing_key m cols vals = true \/ has_codigo t (key rt m cols vals) = true.
Proof.
  unfold fresh. destruct (missing_key m cols vals);
    destruct (has_codigo t (key rt m cols vals)); cbn; intuition congruence.
Qed.

(** After a real write of a chunk every one of its keys is in the table. *)
Lemma step_table_covers (t : table) (chunk : DataFrame) (vals : list cell) :
  usable (mapping_of (columns chunk)) = true ->
  raises rt filter_nordeste false t chunk = false ->
  In vals (rows (retained rt filter_nordeste chunk)) ->
  fresh rt (step_table rt filter_nordeste false t chunk)
        (mapping_of (columns chunk)) (columns chunk) vals = false.
Proof.
  intros Hu Hr Hin. apply fresh_false_iff.
  destruct (missing_key (mapping_of (columns chunk)) (columns chunk) vals) eqn:Hk;
    [now left | right].
  unfold raises in Hr. rewrite Hu, overflows_write in Hr. cbn [andb] in Hr.
  apply negb_false_iff in Hr.
  unfold step_table. rewrite Hu, (written_stored _ _ Hr).
  destruct (fresh rt t (mapping_of (columns chunk)) (columns chunk) vals) eqn:Hf.
  - rewrite <- codigo_normalize. apply has_codigo_submitted.
    unfold submitted. rewrite retained_columns. apply in_map. apply filter_In. now split.
  - apply has_codigo_kept. apply fresh_false_iff in Hf.
    destruct Hf as [Hf|Hf]; [congruence | assumption].
Qed.

End SecondRun.

Section Idempotence.

Variable rt : runtime.
Variable filter_nordeste : bool.

Lemma fresh_false_loop (dry_run : bool) (chunks : list DataFrame) (t : table)
    (m : mapping) (cols : list string) (vals : list cell) :
  fresh rt t m cols vals = false ->
  fresh rt (loop_table rt filter_nordeste dry_run chunks t) m cols vals = false.
Proof.
  rewrite !fresh_false_iff. intros [H|H]; [now left | right].
  now apply has_codigo_loop.
Qed.

(** A run that writes all its chunks leaves a table that covers them. *)
Lemma loop_table_covers (chunks : list DataFrame) :
  forall t : table,
  loop_raises rt filter_nordeste false chunks t = false ->
  covered rt filter_nordeste (loop_table rt filter_nordeste false chunks t) chunks.
Proof.
  induction chunks as [|chunk rest IH]; intros t Hl c vals Hc Hu Hin; [destruct Hc|].
  cbn [loop_raises] in Hl. apply orb_false_elim in Hl. destruct Hl as [Hr Hl].
  cbn [loop_table]. rewrite Hr.
  destruct Hc as [<-|Hc].
  - apply fresh_false_loop. now apply step_table_covers.
  - now apply (IH (step_table rt filter_nordeste false t chunk) Hl c vals).
Qed.

(** A chunk that the table covers submits nothing, in any mode. *)
Lemma submitted_covered (t : table) (chunk : DataFrame) :
  (forall vals, In vals (rows (retained rt filter_nordeste chunk)) ->
                fresh rt t (mapping_of (columns chunk)) (columns chunk) vals = false) ->
  submitted rt t filter_nordeste chunk = [].
Proof.
  intros Hcov. unfold submitted.
  rewrite retained_columns, filter_none; [reflexivity | exact Hcov].
Qed.

Lemma step_covered (dry_run : bool) (t : table) (chunk : DataFrame) :
  (usable (mapping_of (columns chunk)) = true ->
   forall vals, In vals (rows (retained rt filter_nordeste chunk)) ->
                fresh rt t (mapping_of (columns chunk)) (columns chunk) vals = false) ->
  raises rt filter_nordeste dry_run t chunk = false
  /\ step_table rt filter_nordeste dry_run t chunk = t.
Proof.
  intros Hcov. unfold raises, step_table.
  destruct (usable (mapping_of (columns chunk))); [|now split].
  rewrite (submitted_covered t chunk (Hcov eq_refl)), overflows_nil, written_nil.
  now split.
Qed.

(** The table a writing loop leaves is a fixed point of the loop, in any
    mode, whether the loop ran to its end or not. *)
Lemma loop_table_fixpoint (dry_run : bool) (chunks : list DataFrame) :
  forall t : table,
  loop_table rt filter_nordeste dry_run chunks
    (loop_table rt filter_nordeste false chunks t)
  = loop_table rt filter_nordeste false chunks t.
Proof.
  induction chunks as [|chunk rest IH]; intros t; [reflexivity|].
  rewrite (loop_table_cons rt filter_nordeste false chunk rest t).
  destruct (raises rt filter_nordeste false t chunk) eqn:Hr.
  - destruct dry_run.
    + now apply loop_table_dry.
    + rewrite loop_table_cons. now rewrite Hr.
  - set (T := loop_table rt filter_nordeste false rest
                (step_table rt filter_nordeste false t chunk)).
    destruct (step_covered dry_run T chunk) as [Hr' Hs'].
    { intros Hu vals Hin. subst T. apply fresh_false_loop.
      now apply step_table_covers. }
    rewrite loop_table_cons, Hr', Hs'. apply IH.
Qed.

(** A writing loop that was cut short is cut short again, at the same
    chunk, when it is run against the table it left. *)
Lemma loop_raises_again (chunks : list DataFrame) :
  forall t : table,
  loop_raises rt filter_nordeste false chunks
    (loop_table rt filter_nordeste false chunks t)
  = loop_raises rt filter_nordeste false chunks t.
Proof.
  induction chunks as [|chunk rest IH]; intros t; [reflexivity|].
  rewrite (loop_table_cons rt filter_nordeste false chunk rest t).
  rewrite (loop_raises_cons rt filter_nordeste false chunk rest t).
  destruct (raises rt filter_nordeste false t chunk) eqn:Hr.
  - rewrite loop_raises_cons. now rewrite Hr.
  - set (T := loop_table rt filter_nordeste false rest
                (step_table rt filter_nordeste false t chunk)).
    destruct (step_covered false T chunk) as [Hr' Hs'].
    { intros Hu vals Hin. subst T. apply fresh_false_loop.
      now apply step_table_covers. }
    rewrite loop_raises_cons, Hr', Hs'. apply IH.
Qed.

Lemma is_insert_detect (cols : list string) : filter is_insert (detect_events cols) = [].
Proof. reflexivity. Qed.

Lemma is_insert_mapping_lines (cols : list string) (m : mapping) :
  filter is_insert (mapping_lines cols m) = [].
Proof. reflexivity. Qed.

Lemma printed_mapping_lines_quiet (cols : list string) (m : mapping) :
  Forall quiet_line (printed (mapping_lines cols m)).
Proof. cbn. repeat constructor. Qed.

(** A chunk all of whose rows are covered: nothing is submitted, every row
    is counted as skipped, and the line of the chunk shows no insert and no
    duplicate. *)
Lemma chunk_body_covered (dry_run : bool) (chunk : DataFrame) (l : locals) (w : world) :
  usable (mapping_of (columns chunk)) = true ->
  (forall vals, In vals (rows (retained rt filter_nordeste chunk)) ->
                fresh rt (tb_instituicao w) (mapping_of (columns chunk)) (columns chunk) vals
                = false) ->
  let c := retained rt filter_nordeste chunk in
  chunk_body rt filter_nordeste dry_run chunk l w =
  (inr (mkLocals (inserted_total l) (skipped_total l + len c)
                 (processed_total l + len chunk) true (chunk_idx l + 1)),
   mkWorld (tb_instituicao w) (total_changes w)
           (trace w ++ detect_events (columns chunk)
            ++ (if columns_printed l then []
                else mapping_lines (columns chunk) (mapping_of (columns chunk)))
            ++ select_events rt (mapping_of (columns chunk)) (columns c) (rows c)
            ++ [Print (ChunkStats (chunk_idx l + 1) (len c) (len c) 0 0)])).
Proof.
  intros Hu Hcov c. rewrite (chunk_body_usable rt filter_nordeste dry_run chunk l w Hu).
  assert (Hsub : submitted rt (tb_instituicao w) filter_nordeste chunk = [])
    by now apply submitted_covered.
  assert (Hsk : skipped_rows rt (tb_instituicao w) filter_nordeste chunk = rows c).
  { unfold skipped_rows. rewrite retained_columns. apply filter_all.
    intros vals Hin. now rewrite Hcov. }
  rewrite Hsub, Hsk, overflows_nil, written_nil, counted_nil, Z.sub_diag, !Z.add_0_r.
  unfold write_events.
  rewrite andb_false_r. cbn [List.length app Z.of_nat Z.sub Z.opp]. reflexivity.
Qed.

(** The loop over chunks that the table covers. *)
Lemma chunk_loop_covered (dry_run : bool) (chunks : list DataFrame) :
  forall (l : locals) (w : world),
  covered rt filter_nordeste (tb_instituicao w) chunks ->
  let w' := snd (chunk_loop rt filter_nordeste dry_run chunks l w) in
  exists l',
  fst (chunk_loop rt filter_nordeste dry_run chunks l w) = inr l'
  /\ tb_instituicao w' = tb_instituicao w
  /\ total_changes w' = total_changes w
  /\ inserted_total l' = inserted_total l
  /\ skipped_total l' = skipped_total l + retained_total rt filter_nordeste chunks
  /\ filter is_insert (trace w') = filter is_insert (trace w)
  /\ (Forall quiet_line (printed (trace w)) -> Forall quiet_line (printed (trace w'))).
Proof.
  induction chunks as [|chunk rest IH]; intros l w Hcov.
  - cbn. exists l. repeat split; auto. lia.
  - rewrite chunk_loop_cons. cbn zeta.
    assert (Hrest : forall t, t = tb_instituicao w -> covered rt filter_nordeste t rest).
    { intros t -> c vals Hc. apply Hcov. now right. }
    destruct (usable (mapping_of (columns chunk))) eqn:Hu.
    + rewrite (chunk_body_covered dry_run chunk l w Hu)
        by (intros vals Hin; now apply (Hcov chunk vals (or_introl eq_refl))).
      cbn [fst snd].
      match goal with
      | |- context [chunk_loop _ _ _ rest ?l1 ?w1] =>
          specialize (IH l1 w1 (Hrest _ eq_refl)); cbn zeta in IH;
          destruct IH as (l' & Hl' & Ht & Hc & Hi & Hs & Hins & Hq)
      end.
      cbn [tb_instituicao total_changes trace inserted_total skipped_total] in *.
      exists l'. split; [exact Hl'|].
      rewrite Ht, Hc, Hi, Hs, Hins. cbn [retained_total]. rewrite Hu.
      repeat split; try lia.
      * rewrite !filter_app, is_insert_detect, insert_select.
        destruct (columns_printed l); cbn; now rewrite app_nil_r.
      * intros Hq0. apply Hq. rewrite !printed_app, printed_detect, printed_select.
        apply Forall_app. split; [assumption|]. cbn [app]. apply Forall_app. split.
        -- destruct (columns_printed l); [constructor | apply printed_mapping_lines_quiet].
        -- cbn. repeat constructor.
    + rewrite (chunk_body_unusable rt filter_nordeste dry_run chunk l w Hu). cbn [fst snd].
      match goal with
      | |- context [chunk_loop _ _ _ rest ?l1 ?w1] =>
          specialize (IH l1 w1 (Hrest _ eq_refl)); cbn zeta in IH;
          destruct IH as (l' & Hl' & Ht & Hc & Hi & Hs & Hins & Hq)
      end.
      cbn [tb_instituicao total_changes trace inserted_total skipped_total] in *.
      exists l'. split; [exact Hl'|].
      rewrite Ht, Hc, Hi, Hs, Hins. cbn [retained_total]. rewrite Hu.
      repeat split; try lia.
      * rewrite !filter_app, is_insert_detect.
        destruct (columns_printed l); cbn; now rewrite app_nil_r.
      * intros Hq0. apply Hq. rewrite !printed_app, printed_detect.
        apply Forall_app. split; [assumption|]. cbn [app]. apply Forall_app. split.
        -- destruct (columns_printed l); [constructor | apply printed_mapping_lines_quiet].
        -- cbn. repeat constructor.
Qed.

End Idempotence.

(** ** The writer *)

Section WriterFacts.

Variable rt : runtime.
Variables (filter_nordeste dry_run : bool) (chunk : DataFrame) (l : locals) (w : world).

Hypothesis Husable : usable (mapping_of (columns chunk)) = true.

Let c := retained rt filter_nordeste chunk.
Let ins := submitted rt (tb_instituicao w) filter_nordeste chunk.
Let w' := snd (chunk_body rt filter_nordeste dry_run chunk l w).
Let added := Z.of_nat (List.length (written dry_run (tb_instituicao w) ins))
             - Z.of_nat (List.length (tb_instituicao w)).

Lemma written_trace :
  trace w' =
  (trace w ++ detect_events (columns chunk)
   ++ (if columns_printed l then []
       else mapping_lines (columns chunk) (mapping_of (columns chunk))))
  ++ select_events rt (mapping_of (columns chunk)) (columns chunk) (rows c)
  ++ write_events dry_run ins
  ++ (if overflows dry_run ins then []
      else [Print (ChunkStats (chunk_idx l + 1) (len c) (len c)
                     (Z.of_nat (List.length ins))
                     (Z.of_nat (List.length ins) - added))]).
Proof.
  subst w'. rewrite (chunk_body_usable rt filter_nordeste dry_run chunk l w Husable).
  cbn [snd trace]. rewrite (retained_columns rt filter_nordeste chunk).
  fold c. fold ins. fold added.
  now rewrite <- !app_assoc.
Qed.

Lemma written_selects :
  filter is_select (trace w') =
  filter is_select (trace w)
  ++ select_events rt (mapping_of (columns chunk)) (columns chunk) (rows c).
Proof.
  rewrite written_trace, !filter_app, select_select.
  assert (Hw : filter is_select (write_events dry_run ins) = []).
  { unfold write_events.
    destruct (negb dry_run && nonempty ins); [destruct (forallb bindable ins)|];
      reflexivity. }
  rewrite Hw. cbn [filter is_select detect_events map app].
  destruct (columns_printed l); destruct (overflows dry_run ins); cbn;
    now rewrite !app_nil_r.
Qed.

(** The bulk write is attempted once when the run writes and the list is
    not empty, whether the statement then raises or not. *)
Lemma written_inserts :
  filter is_insert (trace w') =
  filter is_insert (trace w)
  ++ (if negb dry_run && nonempty ins then [InsertOrIgnoreMany ins] else []).
Proof.
  rewrite written_trace, !filter_app, insert_select, is_insert_detect.
  unfold write_events.
  destruct (columns_printed l); destruct (negb dry_run && nonempty ins);
    destruct (forallb bindable ins); destruct (overflows dry_run ins); cbn;
    now rewrite ?app_nil_r.
Qed.

Lemma written_last_line :
  overflows dry_run ins = false ->
  last (printed (trace w')) CannotIdentify =
  ChunkStats (chunk_idx l + 1) (len c) (len c) (Z.of_nat (List.length ins))
             (Z.of_nat (List.length ins) - added).
Proof.
  intros Ho. rewrite written_trace, Ho, !printed_app. cbn [printed flat_map app].
  rewrite !app_assoc. apply last_last.
Qed.

(** When the write raises, the statement that raised is the last thing the
    chunk did: nothing is committed and no line is printed for it. *)
Lemma written_last_event :
  overflows dry_run ins = true ->
  last (trace w') Commit = InsertOrIgnoreMany ins.
Proof.
  intros Ho. rewrite written_trace, Ho, app_nil_r.
  unfold overflows in Ho. apply andb_prop in Ho. destruct Ho as [Hd Hb].
  apply negb_true_iff in Hb. unfold write_events. rewrite Hd, Hb.
  destruct ins as [|x rest] eqn:Hi; [discriminate|]. cbn [nonempty andb].
  rewrite !app_assoc. apply last_last.
Qed.

End WriterFacts.

(** ** The uniqueness invariant *)

(** A run keeps the table free of repeated [codigo]s. *)
Lemma run_keeps_codigo_unique (rt : runtime) (filter_nordeste fast dry_run : bool)
    (chunks : list DataFrame) (db : table) :
  NoDup (map codigo db) ->
  NoDup (map codigo
           (tb_instituicao (snd (run_chunks rt filter_nordeste fast dry_run chunks db)))).
Proof.
  rewrite run_chunks_table. revert db.
  induction chunks as [|chunk rest IH]; intros db H; [assumption|].
  rewrite loop_table_cons. destruct (raises _ _ _ _ _); [assumption|]. apply IH.
  unfold step_table. destruct (usable _); [|assumption].
  destruct (written_cases dry_run db (submitted rt db filter_nordeste chunk)) as [->| ->];
    [assumption | now apply insert_or_ignore_many_NoDup].
Qed.

(** ** Runs that end early or skip every chunk *)

Example migrate_csv_file_not_found (rt : runtime) :
  migrate_csv rt None [] 200000 true false false = Raised FileNotFoundError.
Proof. reflexivity. Qed.

Example migrate_csv_chunk_size_zero (rt : runtime) :
  migrate_csv rt (Some two_schools_file) [] 0 true false false = Raised ValueError.
Proof. reflexivity. Qed.

(** Without a region column the run reads both records, skips the chunk and
    ends with the table it started from. *)
Example no_region_file_is_skipped :
  match migrate_csv pandas_bool_inclusive (Some no_region_file) [escola_b] 200000
          true false false with
  | Finished l w =>
      tb_instituicao w = [escola_b]
      /\ l = mkLocals 0 0 2 true 0
      /\ last (printed (trace w)) CannotIdentify = Summary 2 0 0
      /\ In CannotIdentify (printed (trace w))
  | _ => False
  end.
Proof. vm_compute. repeat split. do 8 right. now left. Qed.

(** ** Dry runs *)

(** Whatever the file, a dry run leaves the table as it found it, reports no
    insert and counts every row it read as processed. *)
Lemma dry_run_leaves_table (rt : runtime) (filter_nordeste fast : bool)
    (chunks : list DataFrame) (db : table) :
  let r := run_chunks rt filter_nordeste fast true chunks db in
  exists l,
  fst r = inr l
  /\ tb_instituicao (snd r) = db
  /\ inserted_total l = 0
  /\ total_changes (snd r) = 0
  /\ processed_total l = fold_right (fun chunk n => len chunk + n) 0 chunks.
Proof.
  cbn zeta.
  destruct (run_chunks_returns rt filter_nordeste fast true chunks db) as [l Hl].
  { now apply loop_raises_dry. }
  exists l. split; [exact Hl|].
  pose proof (run_chunks_inserted rt filter_nordeste fast true chunks db l Hl) as H.
  cbn zeta in H. destruct H as (Hi & Hc & Hp).
  assert (Ht : tb_instituicao (snd (run_chunks rt filter_nordeste fast true chunks db)) = db).
  { rewrite run_chunks_table. now apply loop_table_dry. }
  rewrite Ht in Hi. repeat split; auto; lia.
Qed.

(** The line of a chunk prints the size of the filtered chunk twice: as rows
    read and as rows after the filter. *)
Lemma chunk_line_rows_read (rt : runtime) (filter_nordeste dry_run : bool)
    (chunk : DataFrame) (l : locals) (w : world) :
  usable (mapping_of (columns chunk)) = true ->
  overflows dry_run (submitted rt (tb_instituicao w) filter_nordeste chunk) = false ->
  exists new_inserts dup_count,
    last (printed (trace (snd (chunk_body rt filter_nordeste dry_run chunk l w))))
         CannotIdentify
    = ChunkStats (chunk_idx l + 1)
                 (len (retained rt filter_nordeste chunk))
                 (len (retained rt filter_nordeste chunk)) new_inserts dup_count.
Proof.
  intros Hu Ho. rewrite (chunk_body_usable rt filter_nordeste dry_run chunk l w Hu).
  cbn [snd trace]. rewrite Ho. do 2 eexists.
  rewrite !printed_app. cbn [printed flat_map app]. rewrite !app_assoc.
  apply last_last.
Qed.

(** ** A run that the bulk write cuts short *)

(** In one chunk, the school before the figure that cannot be bound is lost
    with it: its insert was executed, and counted, but never committed;
    nothing is stored and no line is printed for the chunk. Read one record
    at a time, the first school was committed before the second chunk
    raises. *)
Example big_number_file_aborts :
  match migrate_csv pandas_bool_inclusive (Some big_number_file) [] 200000
          true false false with
  | Aborted e w =>
      e = OverflowError
      /\ tb_instituicao w = []
      /\ total_changes w = 1
      /\ last (trace w) Commit
         = InsertOrIgnoreMany [mkInst "111" "Escola A" 23 0 10 0 0;
                               mkInst "666" "Escola F" 23 0 99999999999999999999 0 0]
      /\ duplicates_reported (printed (trace w)) = 0
  | _ => False
  end
  /\ match migrate_csv pandas_bool_inclusive (Some big_number_file) [] 1
             true false false with
     | Aborted e w =>
         e = OverflowError
         /\ tb_instituicao w = [mkInst "111" "Escola A" 23 0 10 0 0]
         /\ total_changes w = 1
         /\ In (ChunkStats 1 1 1 1 0) (printed (trace w))
     | _ => False
     end
  /\ match migrate_csv pandas_bool_inclusive (Some big_number_file) [] 200000
             true false true with
     | Finished l w =>
         tb_instituicao w = [] /\ l = mkLocals 0 0 2 true 1
     | _ => False
     end.
Proof.
  vm_compute. repeat split. do 8 right. now left.
Qed.

(** * The properties of the specification *)

(** C1, as amended: a second run of [migrate_csv] on the same file, against
    the table the first (writing) run left, leaves that table, and its row
    count, as they were. When the first run finished, the second finishes
    and reports no insert (total 0, change counter 0, no bulk write
    executed, every chunk line with 0 new inserts and 0 duplicates), and
    counts every row it iterates over in the skipped total: the rows met
    again are reported as skipped, not as duplicates. When the bulk write
    of a chunk cut the first run short, a second writing run is cut short
    in the same way and a dry second run finishes with no insert. *)
Theorem C1_second_run_inserts_nothing :
  forall (rt : runtime) (src : csv_source) (db : table) (chunk_size : Z)
         (filter_nordeste fast fast' dry_run' : bool),
    1 <= chunk_size ->
    let chunks := read_csv rt src (Z.to_nat chunk_size) in
    let r1 := migrate_csv rt (Some src) db chunk_size filter_nordeste fast false in
    let r2 := migrate_csv rt (Some src) (left_table db r1) chunk_size filter_nordeste
                fast' dry_run' in
    left_table (left_table db r1) r2 = left_table db r1
    /\ List.length (left_table (left_table db r1) r2) = List.length (left_table db r1)
    /\ match r1 with
       | Finished l1 w1 =>
           exists l2 w2,
             r2 = Finished l2 w2
             /\ tb_instituicao w2 = tb_instituicao w1
             /\ inserted_total l2 = 0
             /\ total_changes w2 = 0
             /\ filter is_insert (trace w2) = []
             /\ Forall quiet_line (printed (trace w2))
             /\ skipped_total l2 = retained_total rt filter_nordeste chunks
       | Aborted e w1 =>
           e = OverflowError
           /\ loop_raises rt filter_nordeste false chunks db = true
           /\ if dry_run'
              then exists l2 w2, r2 = Finished l2 w2 /\ inserted_total l2 = 0
              else exists w2, r2 = Aborted OverflowError w2
       | Raised _ => False
       end.
Proof.
  intros rt src db n fn fast fast' d' Hn chunks r1 r2.
  assert (H1 : left_table db r1 = loop_table rt fn false chunks db)
    by (apply left_table_migrate_csv; exact Hn).
  assert (H2 : left_table (left_table db r1) r2 = left_table db r1).
  { subst r2. rewrite left_table_migrate_csv by exact Hn. fold chunks.
    rewrite H1. apply loop_table_fixpoint. }
  split; [exact H2|]. split; [now rewrite H2|].
  destruct r1 as [e|l1 w1|e w1] eqn:Hr1.
  - now apply migrate_csv_not_Raised in Hr1.
  - apply migrate_csv_Finished_inv in Hr1; [|exact Hn]. fold chunks in Hr1.
    destruct Hr1 as (Hno & _ & Hw1). cbn [left_table] in H1, r2.
    assert (Hcov : covered rt fn (tb_instituicao w1) chunks).
    { rewrite H1. now apply loop_table_covers. }
    pose proof (chunk_loop_covered rt fn d' chunks initial_locals
                  (mkWorld (tb_instituicao w1) 0 (pragma_events fast')) Hcov) as H.
    cbn zeta in H. cbn [tb_instituicao total_changes trace] in H.
    destruct H as (l2 & Hl2 & Ht & Hc & Hi & Hs & Hins & Hq).
    assert (Hrun : run_chunks rt fn fast' d' chunks (tb_instituicao w1)
                   = (inr l2,
                      log (Print (Summary (processed_total l2) (inserted_total l2)
                                          (skipped_total l2)))
                          (snd (chunk_loop rt fn d' chunks initial_locals
                                  (mkWorld (tb_instituicao w1) 0
                                     (pragma_events fast')))))).
    { rewrite run_chunks_spec. cbn zeta. now rewrite Hl2. }
    exists l2. eexists. split.
    { subst r2. rewrite (migrate_csv_inr rt src (tb_instituicao w1) n fn fast' d' Hn l2).
      - fold chunks. rewrite Hrun. reflexivity.
      - fold chunks. now rewrite Hrun. }
    cbn [snd log tb_instituicao total_changes trace].
    cbn [inserted_total skipped_total initial_locals] in Hi, Hs.
    split; [exact Ht|]. split; [exact Hi|]. split; [exact Hc|]. split.
    { rewrite filter_app, Hins. now destruct fast'. }
    split; [|lia].
    rewrite printed_app. apply Forall_app. split.
    + apply Hq. destruct fast'; constructor.
    + cbn. constructor; [exact Hi | constructor].
  - apply migrate_csv_Aborted_inv in Hr1; [|exact Hn]. fold chunks in Hr1.
    destruct Hr1 as (-> & _ & Hyes & _ & Hw1). cbn [left_table] in H1, r2.
    split; [reflexivity|]. split; [exact Hyes|].
    destruct d'.
    + destruct (dry_run_leaves_table rt fn fast' chunks (tb_instituicao w1))
        as (l2 & Hl2 & _ & Hi & _).
      exists l2. eexists. split; [|exact Hi].
      subst r2. now apply migrate_csv_inr.
    + eexists. subst r2. apply migrate_csv_inl; [exact Hn|]. fold chunks.
      apply run_chunks_raises. rewrite H1, loop_raises_again. exact Hyes.
Qed.

Lemma C1_witness :
  let rt := pandas_bool_inclusive in
  let chunks := read_csv rt two_schools_file (Z.to_nat 1) in
  let r1 := migrate_csv rt (Some two_schools_file) [] 1 true false false in
  let r2 := migrate_csv rt (Some two_schools_file) (left_table [] r1) 1 true false false in
  left_table (left_table [] r1) r2 = left_table [] r1
  /\ List.length (left_table (left_table [] r1) r2) = List.length (left_table [] r1)
  /\ match r1 with
     | Finished l1 w1 =>
         exists l2 w2,
           r2 = Finished l2 w2
           /\ tb_instituicao w2 = tb_instituicao w1
           /\ inserted_total l2 = 0
           /\ total_changes w2 = 0
           /\ filter is_insert (trace w2) = []
           /\ Forall quiet_line (printed (trace w2))
           /\ skipped_total l2 = retained_total rt true chunks
     | Aborted e w1 =>
         e = OverflowError
         /\ loop_raises rt true false chunks [] = true
         /\ exists w2, r2 = Aborted OverflowError w2
     | Raised _ => False
     end.
Proof.
  apply (C1_second_run_inserts_nothing pandas_bool_inclusive two_schools_file [] 1
           true false false false).
  lia.
Defined.

(** The two ways the first run can end, on the two example files: the run
    over the two schools finishes and leaves both, the run over the file
    with the figure beyond 64 bits is cut short, again and again. *)
Example second_run_after_each_ending :
  match migrate_csv pandas_bool_inclusive (Some two_schools_file) [] 1 true false false with
  | Finished _ w1 => tb_instituicao w1 = [escola_a; escola_b]
  | _ => False
  end
  /\ match migrate_csv pandas_bool_inclusive (Some big_number_file) [] 1 true false false with
     | Aborted _ w1 =>
         match migrate_csv pandas_bool_inclusive (Some big_number_file)
                 (tb_instituicao w1) 1 true false false with
         | Aborted e w2 =>
             e = OverflowError /\ tb_instituicao w2 = tb_instituicao w1
         | _ => False
         end
     | _ => False
     end.
Proof. vm_compute. repeat split. Qed.

(** C1 as stated fails in its last part: in the second run over two schools
    no row is reported as a duplicate (the chunk line shows 0 duplicates
    where the statement expects 2); both are counted as skipped. *)
Lemma C1_counterexample :
  match migrate_csv pandas_bool_inclusive (Some two_schools_file) [] 200000
          true false false with
  | Finished _ w1 =>
      match migrate_csv pandas_bool_inclusive (Some two_schools_file)
              (tb_instituicao w1) 200000 true false false with
      | Finished l2 w2 =>
          duplicates_reported (printed (trace w2)) <> 2
          /\ duplicates_reported (printed (trace w2)) = 0
          /\ In (ChunkStats 1 2 2 0 0) (printed (trace w2))
          /\ skipped_total l2 = 2
      | _ => False
      end
  | _ => False
  end.
Proof.
  vm_compute. split; [discriminate|]. split; [reflexivity|].
  split; [|reflexivity]. do 8 right. now left.
Qed.

(** C2, as amended: for a chunk that is written, the row loop first asks
    the table, row by row, whether the [codigo] is there; the rows that pass
    go, if there are any, into one [INSERT OR IGNORE] bulk write. When every
    integer of the submitted tuples fits in 64 bits the table is afterwards
    the old one extended by the rows whose [codigo] was not met before, the
    count of inserts is the difference of [total_changes] around the write,
    equal to the growth of the table, and the count of duplicates is the
    number of submitted rows less that. Otherwise the write raises
    [OverflowError]: the table stays as it was, the counter has moved by the
    rows executed before the tuple that cannot be bound, nothing is
    committed and the statement is the last thing the run does. The batch
    repeating the code 111 gives 1 insert and 1 duplicate and keeps the name
    of the first occurrence. *)
Theorem C2_bulk_write_after_precheck :
  forall (rt : runtime) (filter_nordeste : bool) (chunk : DataFrame)
         (l : locals) (w : world),
    let m := mapping_of (columns chunk) in
    let c := retained rt filter_nordeste chunk in
    let t := tb_instituicao w in
    let ins := submitted rt t filter_nordeste chunk in
    let r := fst (chunk_body rt filter_nordeste false chunk l w) in
    let w' := snd (chunk_body rt filter_nordeste false chunk l w) in
    let added := total_changes w' - total_changes w in
    usable m = true ->
    filter is_select (trace w')
      = filter is_select (trace w) ++ select_events rt m (columns chunk) (rows c)
    /\ filter is_insert (trace w')
       = filter is_insert (trace w)
         ++ (if nonempty ins then [InsertOrIgnoreMany ins] else [])
    /\ (if forallb bindable ins
        then tb_instituicao w' = insert_or_ignore_many t ins
             /\ added = Z.of_nat (List.length (tb_instituicao w'))
                        - Z.of_nat (List.length t)
             /\ exists l',
                  r = inr l'
                  /\ inserted_total l' = inserted_total l + added
                  /\ last (printed (trace w')) CannotIdentify
                     = ChunkStats (chunk_idx l + 1) (len c) (len c)
                         (Z.of_nat (List.length ins))
                         (Z.of_nat (List.length ins) - added)
        else r = inl OverflowError
             /\ tb_instituicao w' = t
             /\ added = Z.of_nat (List.length
                                    (insert_or_ignore_many t (bound_prefix ins)))
                        - Z.of_nat (List.length t)
             /\ last (trace w') Commit = InsertOrIgnoreMany ins)
    /\ match migrate_csv pandas_bool_inclusive (Some repeated_code_file) [] 200000
               true false false with
       | Finished l1 w1 =>
           tb_instituicao w1 = [mkInst "111" "Escola A" 23 0 0 0 0]
           /\ inserted_total l1 = 1
           /\ duplicates_reported (printed (trace w1)) = 1
       | _ => False
       end.
Proof.
  intros rt fn chunk l w m c t ins r w' added Hu.
  assert (Hcnt : added = counted false t ins).
  { subst added w'. rewrite (chunk_body_usable rt fn false chunk l w Hu).
    cbn [snd total_changes]. fold t. fold ins. lia. }
  split; [apply (written_selects rt fn false chunk l w Hu)|].
  split; [apply (written_inserts rt fn false chunk l w Hu)|].
  split.
  - destruct (forallb bindable ins) eqn:Hb.
    + assert (Ho : overflows false ins = false) by (rewrite overflows_write; now rewrite Hb).
      assert (Htb : tb_instituicao w' = insert_or_ignore_many t ins).
      { subst w'. rewrite (chunk_body_usable rt fn false chunk l w Hu).
        cbn [snd tb_instituicao]. now apply written_stored. }
      assert (Hadd : added = Z.of_nat (List.length (tb_instituicao w'))
                             - Z.of_nat (List.length t)).
      { rewrite Hcnt, (counted_written false t ins Ho), Htb.
        now rewrite (written_stored t ins Hb). }
      split; [exact Htb|]. split; [exact Hadd|].
      pose proof (written_last_line rt fn false chunk l w Hu Ho) as Hlast.
      fold w' in Hlast. fold c in Hlast. fold t in Hlast. fold ins in Hlast.
      rewrite (written_stored t ins Hb), <- Htb, <- Hadd in Hlast.
      subst r. rewrite (chunk_body_usable rt fn false chunk l w Hu). cbn [fst].
      fold t. fold ins. rewrite Ho. eexists. split; [reflexivity|].
      cbn [inserted_total]. split; [|exact Hlast].
      rewrite Hadd, Htb, (written_stored t ins Hb). reflexivity.
    + assert (Ho : overflows false ins = true) by (rewrite overflows_write; now rewrite Hb).
      assert (Htb : tb_instituicao w' = t).
      { subst w'. rewrite (chunk_body_usable rt fn false chunk l w Hu).
        cbn [snd tb_instituicao]. now apply written_overflow. }
      split.
      { subst r. rewrite (chunk_body_usable rt fn false chunk l w Hu). cbn [fst].
        fold t. fold ins. now rewrite Ho. }
      split; [exact Htb|]. split; [rewrite Hcnt; reflexivity|].
      apply (written_last_event rt fn false chunk l w Hu Ho).
  - vm_compute. repeat split.
Qed.

Lemma C2_witness :
  let rt := pandas_bool_inclusive in
  let chunk := mkFrame censo_header
                 [[Str "111"; Str "Escola A"; Str "23"];
                  [Str "111"; Str "Escola A Dup"; Str "23"]] in
  let w := mkWorld [] 0 [] in
  let r := chunk_body rt true false chunk initial_locals w in
  let ins := submitted rt [] true chunk in
  let added := total_changes (snd r) - 0 in
  filter is_select (trace (snd r))
    = [] ++ select_events rt (mapping_of censo_header) censo_header
              (rows (retained rt true chunk))
  /\ filter is_insert (trace (snd r))
     = [] ++ (if nonempty ins then [InsertOrIgnoreMany ins] else [])
  /\ (tb_instituicao (snd r) = insert_or_ignore_many [] ins
      /\ added = Z.of_nat (List.length (tb_instituicao (snd r))) - Z.of_nat 0
      /\ exists l',
           fst r = inr l'
           /\ inserted_total l' = 0 + added
           /\ last (printed (trace (snd r))) CannotIdentify
              = ChunkStats (0 + 1) (len (retained rt true chunk))
                  (len (retained rt true chunk))
                  (Z.of_nat (List.length ins)) (Z.of_nat (List.length ins) - added))
  /\ match migrate_csv pandas_bool_inclusive (Some repeated_code_file) [] 200000
             true false false with
     | Finished l1 w1 =>
         tb_instituicao w1 = [mkInst "111" "Escola A" 23 0 0 0 0]
         /\ inserted_total l1 = 1
         /\ duplicates_reported (printed (trace w1)) = 1
     | _ => False
     end.
Proof.
  exact (C2_bulk_write_after_precheck pandas_bool_inclusive true
           (mkFrame censo_header
              [[Str "111"; Str "Escola A"; Str "23"];
               [Str "111"; Str "Escola A Dup"; Str "23"]])
           initial_locals (mkWorld [] 0 []) eq_refl).
Defined.

(** The other branch on the file with the figure beyond 64 bits: the write
    raises and the table is untouched; the counter has counted the first
    school, whose insert was executed and is not committed. *)
Example bulk_write_of_big_number :
  let chunk := mkFrame ["CO_ENTIDADE"; "NO_ENTIDADE"; "CO_UF"; "QT_MAT_BAS"]
                 [[Str "111"; Str "Escola A"; Str "23"; Str "10"];
                  [Str "666"; Str "Escola F"; Str "23"; Str "99999999999999999999"]] in
  let r := chunk_body pandas_bool_inclusive true false chunk initial_locals
             (mkWorld [escola_b] 0 []) in
  forallb bindable (submitted pandas_bool_inclusive [escola_b] true chunk) = false
  /\ fst r = inl OverflowError
  /\ tb_instituicao (snd r) = [escola_b]
  /\ total_changes (snd r) = 1
  /\ filter is_select (trace (snd r)) = [Select "111"; Select "666"].
Proof. vm_compute. repeat split. Qed.

(** C2 as stated fails: the writer does check each row against the table
    before the bulk write (two [SELECT]s for the batch repeating 111), and
    when the table already holds 111 neither row reaches the bulk write: no
    insert is executed, no duplicate is reported, both rows are skipped. *)
Lemma C2_counterexample :
  match migrate_csv pandas_bool_inclusive (Some repeated_code_file) [] 200000
          true false false with
  | Finished _ w => filter is_select (trace w) = [Select "111"; Select "111"]
                    /\ filter is_select (trace w) <> []
  | _ => False
  end
  /\ match migrate_csv pandas_bool_inclusive (Some repeated_code_file)
             [mkInst "111" "Escola A" 23 0 0 0 0] 200000 true false false with
     | Finished l w => filter is_insert (trace w) = []
                       /\ duplicates_reported (printed (trace w)) = 0
                       /\ duplicates_reported (printed (trace w)) <> 2
                       /\ skipped_total l = 2
     | _ => False
     end.
Proof. vm_compute. repeat split; discriminate. Qed.

(** What the region filter keeps, on both of its paths: with [between]
    taking [inclusive=True], the rows whose region value converts to a
    number [q] with 21 <= q <= 29; when [between] raises, the rows for which
    the text of the converted value begins with one of 21, ..., 29. The kept
    rows carry the converted region value. *)
Lemma region_filter_keeps (rt : runtime) (chunk : DataFrame) (c : string) :
  rows (region_filter rt chunk (Some c))
  = map (fun vals => set_cell (columns chunk) vals c (to_numeric_cell rt))
        (filter (region_keep rt (columns chunk) c) (rows chunk))
  /\ (forall vals,
        let n := to_numeric_cell rt (lookup (columns chunk) vals c) in
        region_keep rt (columns chunk) c vals = true <->
        if between_accepts_bool rt
        then exists q, n = Num q /\ (21 # 1 <= q)%Q /\ (q <= 29 # 1)%Q
        else exists p, In p ["21"; "22"; "23"; "24"; "25"; "26"; "27"; "28"; "29"]
                       /\ String.prefix p (py_str rt n) = true)
  /\ (forall vals',
        In vals' (rows (region_filter rt chunk (Some c))) ->
        if between_accepts_bool rt
        then exists q, lookup (columns chunk) vals' c = Num q
                       /\ (21 # 1 <= q)%Q /\ (q <= 29 # 1)%Q
        else startswith nordeste_prefixes (py_str rt (lookup (columns chunk) vals' c))
             = true).
Proof.
  split; [apply region_filter_rows|].
  assert (Hkeep : forall vals,
             region_keep rt (columns chunk) c vals = true <->
             if between_accepts_bool rt
             then exists q, to_numeric_cell rt (lookup (columns chunk) vals c) = Num q
                            /\ (21 # 1 <= q)%Q /\ (q <= 29 # 1)%Q
             else exists p, In p ["21"; "22"; "23"; "24"; "25"; "26"; "27"; "28"; "29"]
                            /\ String.prefix p
                                 (py_str rt (to_numeric_cell rt
                                               (lookup (columns chunk) vals c))) = true).
  { intros vals. unfold region_keep. destruct (between_accepts_bool rt).
    - apply between_iff.
    - apply (startswith_iff nordeste_prefixes). }
  split; [exact Hkeep|].
  intros vals' Hin. rewrite region_filter_rows in Hin.
  apply in_map_iff in Hin. destruct Hin as [vals [<- Hv]].
  apply filter_In in Hv. destruct Hv as [_ Hk].
  rewrite lookup_set_cell by reflexivity.
  unfold region_keep in Hk. destruct (between_accepts_bool rt).
  - now apply between_iff.
  - exact Hk.
Qed.

(** C3 fails on the code where [between] raises on [inclusive=True]: the
    handler matches the rows by prefix, and a school whose region code 230
    converts to a number that is not between 21 and 29 is kept by the
    filter and stored with that code. Where [between] takes the argument,
    the same row is dropped and nothing is stored. *)
Theorem C3_fallback_keeps_region_230 :
  let chunk := mkFrame censo_header [[Str "444"; Str "Escola D"; Str "230"]] in
  rows (region_filter pandas_str_inclusive chunk (Some "CO_UF"))
  = [[Str "444"; Str "Escola D"; Num (230 # 1)]]
  /\ to_numeric pandas_str_inclusive "230" = Some (230 # 1)
  /\ between (21 # 1) (29 # 1) (Num (230 # 1)) = false
  /\ Qle_bool (230 # 1) (29 # 1) = false
  /\ rows (region_filter pandas_bool_inclusive chunk (Some "CO_UF")) = []
  /\ match migrate_csv pandas_str_inclusive (Some long_region_file) [] 200000
             true false false with
     | Finished l w =>
         tb_instituicao w = [mkInst "444" "Escola D" 230 0 0 0 0]
         /\ inserted_total l = 1
     | _ => False
     end
  /\ match migrate_csv pandas_bool_inclusive (Some long_region_file) [] 200000
             true false false with
     | Finished l w => tb_instituicao w = [] /\ inserted_total l = 0
     | _ => False
     end.
Proof. vm_compute. repeat split. Qed.

(** C4, as amended: [find_column] is not called once per run but once per
    field for every chunk the run enters, each time on that chunk's own
    header: for every chunk of the file when the run reaches its end, for
    the chunks up to the one whose bulk write raises otherwise. Since all
    chunks of a file carry the header of the file, every chunk gets the
    same mapping. *)
Theorem C4_resolver_runs_for_every_chunk :
  forall (rt : runtime) (src : csv_source) (n : nat)
         (filter_nordeste fast dry_run : bool) (db : table) (f : field),
    let chunks := read_csv rt src n in
    let entered := started rt filter_nordeste dry_run chunks db in
    resolutions f (trace (snd (run_chunks rt filter_nordeste fast dry_run chunks db)))
      = repeat (header src) (List.length entered)
    /\ (if loop_raises rt filter_nordeste dry_run chunks db
        then fst (run_chunks rt filter_nordeste fast dry_run chunks db)
             = inl OverflowError
             /\ (1 <= List.length entered <= List.length chunks)%nat
        else entered = chunks
             /\ resolutions f
                  (trace (snd (run_chunks rt filter_nordeste fast dry_run chunks db)))
                = repeat (header src) (List.length chunks))
    /\ Forall (fun chunk => mapping_of (columns chunk) = mapping_of (header src)) chunks.
Proof.
  intros rt src n fn fast d db f chunks entered.
  assert (Hcols : forall cs : list DataFrame,
             (forall c, In c cs -> columns c = header src) ->
             map columns cs = repeat (header src) (List.length cs)).
  { induction cs as [|c cs IH]; intros H; [reflexivity|].
    cbn [map List.length repeat]. rewrite (H c (or_introl eq_refl)).
    f_equal. apply IH. intros c' Hc'. apply H. now right. }
  destruct (started_prefix rt fn d chunks db) as [rest Hrest]. fold entered in Hrest.
  assert (Hres : resolutions f (trace (snd (run_chunks rt fn fast d chunks db)))
                 = repeat (header src) (List.length entered)).
  { rewrite run_chunks_resolutions. fold entered. apply Hcols.
    intros c Hc. apply (read_csv_columns rt src n). fold chunks.
    rewrite Hrest. apply in_or_app. now left. }
  split; [exact Hres|]. split.
  - destruct (loop_raises rt fn d chunks db) eqn:Hr.
    + split; [now apply run_chunks_raises|].
      assert (Hlen : List.length chunks = (List.length entered + List.length rest)%nat)
        by (rewrite Hrest at 1; apply length_app).
      split; [|lia].
      subst entered. destruct chunks as [|c cs]; [discriminate | cbn; lia].
    + assert (He : entered = chunks) by (now apply started_all).
      split; [exact He|]. now rewrite Hres, He.
  - apply Forall_forall. intros chunk Hc.
    now rewrite (read_csv_columns rt src n chunk Hc).
Qed.

(** C4 as stated fails: a file read in two chunks has the resolver called
    twice for [codigo], not once. *)
Lemma C4_counterexample :
  match migrate_csv pandas_bool_inclusive (Some two_schools_file) [] 1 true false false with
  | Finished _ w =>
      resolutions f_codigo (trace w) = [censo_header; censo_header]
      /\ List.length (resolutions f_codigo (trace w)) <> 1%nat
  | _ => False
  end.
Proof. vm_compute. split; [reflexivity | discriminate]. Qed.

(** A run cut short at its second chunk of three: the resolver has been
    called for the two chunks the run entered, the third is never read, and
    the school of the first chunk stays. *)
Example resolver_calls_of_a_run_cut_short :
  let chunks := read_csv pandas_bool_inclusive big_number_middle_file (Z.to_nat 1) in
  List.length chunks = 3%nat
  /\ List.length (started pandas_bool_inclusive true false chunks []) = 2%nat
  /\ loop_raises pandas_bool_inclusive true false chunks [] = true
  /\ match migrate_csv pandas_bool_inclusive (Some big_number_middle_file) [] 1
             true false false with
     | Aborted e w =>
         e = OverflowError
         /\ List.length (resolutions f_codigo (trace w)) = 2%nat
         /\ tb_instituicao w = [mkInst "111" "Escola A" 23 0 10 0 0]
         /\ filter is_select (trace w) = [Select "111"; Select "666"]
     | _ => False
     end.
Proof. vm_compute. repeat split. Qed.

(** C5 fails on the code in the figure it prints as rows read: in a dry run
    over two records, one of them outside the region, the table stays as it
    was and the insert total is 0, the summary counts 2 processed rows, but
    the line of the chunk gives 1 for the rows read, the number left by the
    filter. *)
Theorem C5_dry_run_misreports_rows_read :
  match migrate_csv pandas_bool_inclusive (Some mixed_region_file) [escola_b] 200000
          true false true with
  | Finished l w =>
      tb_instituicao w = [escola_b]
      /\ inserted_total l = 0
      /\ filter is_insert (trace w) = []
      /\ processed_total l = 2
      /\ map len (read_csv pandas_bool_inclusive mixed_region_file (Z.to_nat 200000)) = [2]
      /\ last (printed (trace w)) CannotIdentify = Summary 2 0 0
      /\ In (ChunkStats 1 1 1 1 1) (printed (trace w))
  | _ => False
  end.
Proof.
  vm_compute. repeat split. do 8 right. now left.
Qed.

(** C6 fails on the code: a school whose name field is empty is stored
    under the name [nan], the text of the missing value, not under the empty
    name. *)
Theorem C6_missing_name_is_stored_as_nan :
  match migrate_csv pandas_bool_inclusive (Some unnamed_school_file) [] 200000
          true false false with
  | Finished _ w =>
      tb_instituicao w = [mkInst "111" "nan" 23 0 0 0 0]
      /\ filter is_insert (trace w)
         = [InsertOrIgnoreMany [mkInst "111" "nan" 23 0 0 0 0]]
  | _ => False
  end.
Proof. vm_compute. split; reflexivity. Qed.

(** C7, as amended: the empty field is read as a missing value. A row of
    the loop (its chunk has the three mandatory columns and the row passed
    the region filter, if there is one) whose [codigo] is missing gives no
    tuple to the bulk write; the rows before and after it are handled as if
    it were not there. Every tuple that is submitted comes from a row of the
    chunk that has its key, so no row without key is inserted. Unless the
    bulk write of the chunk raises, the row adds one to [skipped_total] and
    the chunk is carried to its end. *)
Theorem C7_missing_key_row_is_skipped :
  forall (rt : runtime) (filter_nordeste dry_run : bool) (chunk : DataFrame)
         (l : locals) (w : world) (pre post : list (list cell)) (vals : list cell),
    let m := mapping_of (columns chunk) in
    let cols := columns chunk in
    let t := tb_instituicao w in
    let ins := submitted rt t filter_nordeste chunk in
    let r := fst (chunk_body rt filter_nordeste dry_run chunk l w) in
    let w' := snd (chunk_body rt filter_nordeste dry_run chunk l w) in
    usable m = true ->
    rows (retained rt filter_nordeste chunk) = pre ++ vals :: post ->
    missing_key m cols vals = true ->
    read_field rt "" = NaN
    /\ (forall ins0 codes sk w0,
          iterrows_loop rt m cols (pre ++ vals :: post) ins0 codes sk w0
          = count_skipped (iterrows_loop rt m cols (pre ++ post) ins0 codes sk w0))
    /\ ins = map (normalize rt m cols) (filter (fresh rt t m cols) (pre ++ post))
    /\ (forall x, In x ins ->
                   exists v, In v (rows chunk) /\ missing_key m cols v = false
                             /\ codigo x = key rt m cols v)
    /\ tb_instituicao w' = written dry_run t ins
    /\ (if overflows dry_run ins
        then r = inl OverflowError /\ tb_instituicao w' = t
        else exists l',
               r = inr l'
               /\ skipped_total l'
                  = skipped_total l + 1
                    + Z.of_nat (List.length
                                  (filter (fun v => negb (fresh rt t m cols v))
                                          (pre ++ post)))
               /\ chunk_idx l' = chunk_idx l + 1).
Proof.
  intros rt fn d chunk l w pre post vals m cols t ins r w' Hu Hrows Hk.
  assert (Hf : fresh rt t m cols vals = false) by now apply fresh_missing_key.
  split; [reflexivity|]. split.
  { intros. now apply iterrows_loop_missing_key. }
  assert (Hsub : ins = map (normalize rt m cols) (filter (fresh rt t m cols) (pre ++ post))).
  { subst ins. unfold submitted. rewrite retained_columns, Hrows. fold m cols.
    rewrite !filter_app. cbn [filter]. now rewrite Hf. }
  split; [exact Hsub|].
  split; [intros x Hx; now apply (submitted_from_keyed_row rt t fn chunk x Hu)|].
  subst r w'. rewrite (chunk_body_usable rt fn d chunk l w Hu).
  cbn [fst snd tb_instituicao]. fold t. fold ins.
  split; [reflexivity|].
  destruct (overflows d ins) eqn:Ho.
  - split; [reflexivity | now apply written_overflow].
  - eexists. split; [reflexivity|]. cbn [skipped_total chunk_idx].
    split; [|reflexivity].
    unfold skipped_rows. rewrite retained_columns, Hrows. fold m cols.
    rewrite !filter_app. cbn [filter]. rewrite Hf. cbn [negb].
    rewrite !length_app. cbn [List.length]. lia.
Qed.

Lemma C7_witness :
  let rt := pandas_bool_inclusive in
  let m := mapping_of censo_header in
  let r := chunk_body rt false false keyless_frame initial_locals (mkWorld [] 0 []) in
  let pre := [[Str "111"; Str "Escola A"; Str "23"]] in
  let post := [[Str "222"; Str "Escola B"; Str "29"]] in
  let vals := [NaN; Str "Escola ?"; Str "23"] in
  read_field rt "" = NaN
  /\ (forall ins0 codes sk w0,
        iterrows_loop rt m censo_header (pre ++ vals :: post) ins0 codes sk w0
        = count_skipped (iterrows_loop rt m censo_header (pre ++ post) ins0 codes sk w0))
  /\ submitted rt [] false keyless_frame
     = map (normalize rt m censo_header) (filter (fresh rt [] m censo_header) (pre ++ post))
  /\ (forall x, In x (submitted rt [] false keyless_frame) ->
                 exists v, In v (rows keyless_frame) /\ missing_key m censo_header v = false
                           /\ codigo x = key rt m censo_header v)
  /\ tb_instituicao (snd r) = written false [] (submitted rt [] false keyless_frame)
  /\ (exists l',
        fst r = inr l'
        /\ skipped_total l'
           = 0 + 1 + Z.of_nat (List.length
                                 (filter (fun v => negb (fresh rt [] m censo_header v))
                                         (pre ++ post)))
        /\ chunk_idx l' = 0 + 1).
Proof.
  exact (C7_missing_key_row_is_skipped pandas_bool_inclusive false false keyless_frame
           initial_locals (mkWorld [] 0 [])
           [[Str "111"; Str "Escola A"; Str "23"]]
           [[Str "222"; Str "Escola B"; Str "29"]]
           [NaN; Str "Escola ?"; Str "23"] eq_refl eq_refl eq_refl).
Defined.

(** C7 as stated fails for the rows that never reach the row loop and for a
    key of blanks: a record without key outside of the region is dropped by
    the filter and counted nowhere (1 row processed, 0 skipped); so is a
    record without key in a file that lacks the region column; and a key
    made of one space is a key like any other, its row is inserted. *)
Lemma C7_counterexample :
  match migrate_csv pandas_bool_inclusive (Some keyless_outside_file) [] 200000
          true false false with
  | Finished l w =>
      processed_total l = 1 /\ skipped_total l = 0 /\ skipped_total l <> 1
      /\ tb_instituicao w = []
  | _ => False
  end
  /\ match migrate_csv pandas_bool_inclusive (Some keyless_no_region_file) [] 200000
             false false false with
     | Finished l w =>
         processed_total l = 1 /\ skipped_total l = 0 /\ skipped_total l <> 1
     | _ => False
     end
  /\ match migrate_csv pandas_bool_inclusive (Some space_key_file) [] 200000
             true false false with
     | Finished l w =>
         tb_instituicao w = [mkInst " " "Escola Y" 23 0 0 0 0]
         /\ inserted_total l = 1 /\ skipped_total l = 0
     | _ => False
     end.
Proof. vm_compute. repeat split; discriminate. Qed.

(** C8: a chunk whose header lacks one of [codigo], [nome], [co_uf] ends
    without exception and leaves the table, the change counter and the
    insert and skip totals as they were, executes no statement, still counts
    its rows as processed, and the loop goes on with the next chunk. *)
Theorem C8_unresolved_mandatory_column_skips_chunk :
  forall (rt : runtime) (filter_nordeste dry_run : bool) (chunk : DataFrame)
         (rest : list DataFrame) (l : locals) (w : world),
    find_column (columns chunk) (CANDIDATE_COLUMNS f_codigo) = None
    \/ find_column (columns chunk) (CANDIDATE_COLUMNS f_nome) = None
    \/ find_column (columns chunk) (CANDIDATE_COLUMNS f_co_uf) = None ->
    let w' := snd (chunk_body rt filter_nordeste dry_run chunk l w) in
    exists l',
      fst (chunk_body rt filter_nordeste dry_run chunk l w) = inr l'
      /\ tb_instituicao w' = tb_instituicao w
      /\ total_changes w' = total_changes w
      /\ inserted_total l' = inserted_total l
      /\ skipped_total l' = skipped_total l
      /\ processed_total l' = processed_total l + len chunk
      /\ filter is_insert (trace w') = filter is_insert (trace w)
      /\ filter is_select (trace w') = filter is_select (trace w)
      /\ chunk_loop rt filter_nordeste dry_run (chunk :: rest) l w
         = chunk_loop rt filter_nordeste dry_run rest l' w'.
Proof.
  intros rt fn d chunk rest l w H w'.
  assert (Hu : usable (mapping_of (columns chunk)) = false).
  { unfold usable, mapping_of. cbn [codigo_col nome_col co_uf_col].
    destruct H as [H|[H|H]]; rewrite H; cbn [truthy andb]; auto using andb_false_r.
    now rewrite andb_false_r. }
  subst w'. rewrite chunk_loop_cons.
  rewrite (chunk_body_unusable rt fn d chunk l w Hu). cbn [fst snd].
  eexists. split; [reflexivity|].
  cbn [tb_instituicao total_changes trace inserted_total skipped_total processed_total].
  repeat split; rewrite !filter_app; destruct (columns_printed l); cbn;
    now rewrite app_nil_r.
Qed.

Lemma C8_witness :
  let chunk := mkFrame ["CO_ENTIDADE"; "NO_ENTIDADE"]
                       [[Str "111"; Str "Escola A"]; [Str "222"; Str "Escola B"]] in
  let r := chunk_body pandas_bool_inclusive true false chunk initial_locals
             (mkWorld [escola_a] 0 []) in
  exists l',
    fst r = inr l'
    /\ tb_instituicao (snd r) = [escola_a]
    /\ total_changes (snd r) = 0
    /\ inserted_total l' = 0
    /\ skipped_total l' = 0
    /\ processed_total l' = 0 + 2
    /\ filter is_insert (trace (snd r)) = []
    /\ filter is_select (trace (snd r)) = []
    /\ chunk_loop pandas_bool_inclusive true false [chunk; chunk] initial_locals
         (mkWorld [escola_a] 0 [])
       = chunk_loop pandas_bool_inclusive true false [chunk] l' (snd r).
Proof.
  exact (C8_unresolved_mandatory_column_skips_chunk pandas_bool_inclusive true false
           (mkFrame ["CO_ENTIDADE"; "NO_ENTIDADE"]
                    [[Str "111"; Str "Escola A"]; [Str "222"; Str "Escola B"]])
           [mkFrame ["CO_ENTIDADE"; "NO_ENTIDADE"]
                    [[Str "111"; Str "Escola A"]; [Str "222"; Str "Escola B"]]]
           initial_locals (mkWorld [escola_a] 0 [])
           (or_intror (or_intror eq_refl))).
Defined.



(** The three ways of [uncoercible] occur in the example frame: a malformed
    text, a missing cell and a column that is not there. *)
Example enrollment_frame_uncoercible :
  let rt := pandas_bool_inclusive in
  let m := mapping_of (columns enrollment_frame) in
  let cols := columns enrollment_frame in
  let vals := [Str "111"; Str "Escola A"; Str "23"; Str "12x"; NaN] in
  uncoercible rt cols vals (qt_mat_bas_col m)
  /\ uncoercible rt cols vals (qt_mat_prof_col m)
  /\ uncoercible rt cols vals (qt_mat_esp_col m)
  /\ normalize rt m cols vals = mkInst "111" "Escola A" 23 0 0 0 0.
Proof.
  cbv zeta. unfold uncoercible. split; [right; right; reflexivity|].
  split; [right; left; reflexivity|]. split; [left; reflexivity | reflexivity].
Qed.




(** The chunk of the example: one known school is skipped, and of the two
    rows submitted for 222 the second is the one duplicate. *)
Example known_and_repeated_chunk :
  let chunk := mkFrame censo_header
                 [[Str "111"; Str "Escola A"; Str "23"];
                  [Str "222"; Str "Escola B"; Str "29"];
                  [Str "222"; Str "Escola B bis"; Str "29"]] in
  let r := chunk_body pandas_bool_inclusive true false chunk initial_locals
             (mkWorld [escola_a] 0 []) in
  tb_instituicao (snd r) = [escola_a; escola_b]
  /\ fst r = inr (mkLocals 1 1 3 true 1)
  /\ last (printed (trace (snd r))) CannotIdentify = ChunkStats 1 3 3 2 1.
Proof. vm_compute. repeat split. Qed.
(** * Further properties of the ingestion *)

(** ** The reader cuts the file into chunks without losing a record *)

Lemma chunked_concat {A : Type} (n : nat) :
  (1 <= n)%nat ->
  forall (fuel : nat) (l : list A),
  (List.length l <= fuel)%nat -> List.concat (chunked fuel n l) = l.
Proof.
  intros Hn. induction fuel as [|fuel IH]; intros l Hl.
  - destruct l; [reflexivity | cbn in Hl; lia].
  - destruct l as [|x l]; [reflexivity|].
    cbn [chunked List.concat]. rewrite IH.
    + apply firstn_skipn.
    + rewrite length_skipn. cbn [List.length] in *. lia.
Qed.

Lemma chunked_sizes {A : Type} (n : nat) :
  forall (fuel : nat) (l : list A) (c : list A),
  In c (chunked fuel n l) -> (List.length c <= n)%nat.
Proof.
  induction fuel as [|fuel IH]; intros l c H; [destruct H|].
  destruct l as [|x l]; [destruct H|]. cbn [chunked] in H.
  destruct H as [<-|H]; [apply firstn_le_length | now apply (IH _ _ H)].
Qed.

Lemma len_total_frames (rt : runtime) (h : list string) (cs : list (list (list string))) :
  fold_right (fun chunk k => len chunk + k) 0
             (map (fun rs => mkFrame h (map (map (read_field rt)) rs)) cs)
  = Z.of_nat (List.length (List.concat cs)).
Proof.
  induction cs as [|c cs IH]; [reflexivity|].
  cbn [map fold_right List.concat]. rewrite length_app, Nat2Z.inj_add, <- IH.
  unfold len. cbn [rows]. now rewrite length_map.
Qed.

Lemma len_total_read_csv (rt : runtime) (src : csv_source) (n : nat) :
  (1 <= n)%nat ->
  fold_right (fun chunk k => len chunk + k) 0 (read_csv rt src n)
  = Z.of_nat (List.length (records src)).
Proof.
  intros Hn. unfold read_csv.
  destruct (records src) as [|r rs] eqn:E; [reflexivity|].
  rewrite len_total_frames, chunked_concat; auto.
Qed.


(** ** The table only grows *)

Lemma insert_or_ignore_many_added (rs : list instituicao) :
  forall t : table,
  exists added,
    insert_or_ignore_many t rs = t ++ added
    /\ incl added rs
    /\ (forall r, In r added -> has_codigo t (codigo r) = false)
    /\ NoDup (map codigo added).
Proof.
  induction rs as [|x rs IH]; intros t.
  - exists []. cbn. rewrite app_nil_r.
    split; [reflexivity|]. split; [intros r []|]. try (split; [intros r []|]). constructor.
  - rewrite insert_or_ignore_many_cons. unfold insert_or_ignore.
    destruct (has_codigo t (codigo x)) eqn:E.
    + destruct (IH t) as (a & Ha & Hi & Hn & Hd). exists a.
      repeat split; auto. intros r Hr. right. now apply Hi.
    + destruct (IH (t ++ [x])) as (a & Ha & Hi & Hn & Hd). exists (x :: a).
      split; [rewrite Ha; now rewrite <- app_assoc|].
      split; [intros r [<-|Hr]; [now left | right; now apply Hi]|].
      split.
      * intros r [<-|Hr]; [assumption|].
        specialize (Hn r Hr). rewrite has_codigo_app in Hn.
        now apply orb_false_iff in Hn.
      * cbn [map]. constructor; [|assumption].
        intros Hin. apply in_map_iff in Hin. destruct Hin as [r [Hc Hr]].
        specialize (Hn r Hr). rewrite has_codigo_app in Hn.
        apply orb_false_iff in Hn. destruct Hn as [_ Hn].
        cbn in Hn. rewrite Hc, String.eqb_refl in Hn. discriminate.
Qed.

Lemma loop_table_added (rt : runtime) (filter_nordeste dry_run : bool)
    (chunks : list DataFrame) :
  forall t : table,
  exists added,
    loop_table rt filter_nordeste dry_run chunks t = t ++ added
    /\ (forall r, In r added ->
          has_codigo t (codigo r) = false
          /\ exists chunk, In chunk chunks
                           /\ usable (mapping_of (columns chunk)) = true
                           /\ exists vals,
                                In vals (rows (retained rt filter_nordeste chunk))
                                /\ r = normalize rt (mapping_of (columns chunk))
                                         (columns chunk) vals)
    /\ NoDup (map codigo added).
Proof.
  induction chunks as [|chunk rest IH]; intros t.
  - exists []. cbn. rewrite app_nil_r.
    split; [reflexivity|]. split; [intros r []|]. try (split; [intros r []|]). constructor.
  - rewrite loop_table_cons.
    destruct (raises rt filter_nordeste dry_run t chunk).
    { exists []. rewrite app_nil_r.
      split; [reflexivity | split; [intros r [] | constructor]]. }
    assert (Hstep : exists a1,
               step_table rt filter_nordeste dry_run t chunk = t ++ a1
               /\ (forall r, In r a1 ->
                     has_codigo t (codigo r) = false
                     /\ usable (mapping_of (columns chunk)) = true
                     /\ exists vals,
                          In vals (rows (retained rt filter_nordeste chunk))
                          /\ r = normalize rt (mapping_of (columns chunk))
                                   (columns chunk) vals)
               /\ NoDup (map codigo a1)).
    { unfold step_table.
      destruct (usable (mapping_of (columns chunk))) eqn:Hu;
        [destruct (written_cases dry_run t (submitted rt t filter_nordeste chunk))
           as [->| ->]|];
        try (exists []; rewrite app_nil_r;
             split; [reflexivity | split; [intros r [] | constructor]]).
      destruct (insert_or_ignore_many_added
                  (submitted rt t filter_nordeste chunk) t) as (a & Ha & Hi & Hn & Hd).
      exists a. split; [assumption|]. split; [|assumption].
      intros r Hr. split; [now apply Hn|]. split; [reflexivity|].
      apply Hi in Hr. unfold submitted in Hr. rewrite retained_columns in Hr.
      apply in_map_iff in Hr. destruct Hr as [vals [<- Hv]].
      apply filter_In in Hv. exists vals. now split. }
    destruct Hstep as (a1 & H1 & P1 & D1).
    destruct (IH (step_table rt filter_nordeste dry_run t chunk)) as (a2 & H2 & P2 & D2).
    exists (a1 ++ a2). split; [rewrite H2, H1; now rewrite app_assoc|]. split.
    + intros r Hr. apply in_app_or in Hr. destruct Hr as [Hr|Hr].
      * destruct (P1 r Hr) as (Hc & Hu & Hv). split; [assumption|].
        exists chunk. split; [now left | now split].
      * destruct (P2 r Hr) as (Hc & c & Hin & Hrest). split.
        -- rewrite H1, has_codigo_app in Hc. now apply orb_false_iff in Hc.
        -- exists c. split; [now right | assumption].
    + rewrite map_app. apply NoDup_app; [assumption | assumption |].
      intros c Hc1 Hc2. apply in_map_iff in Hc2. destruct Hc2 as [r [<- Hr]].
      destruct (P2 r Hr) as (Hc & _). rewrite H1, has_codigo_app in Hc.
      apply orb_false_iff in Hc. destruct Hc as [_ Hc].
      apply in_map_iff in Hc1. destruct Hc1 as [r1 [He Hr1]].
      assert (has_codigo a1 (codigo r) = true) by (apply has_codigo_In; eauto).
      congruence.
Qed.

(** ** What has been logged does not steer the run *)

Section TraceIndependence.

Variable rt : runtime.
Variables filter_nordeste dry_run : bool.

Lemma chunk_body_trace_indep (chunk : DataFrame) (l : locals) (t : table) (c : Z)
    (tr : list event) :
  let r := chunk_body rt filter_nordeste dry_run chunk l (mkWorld t c []) in
  chunk_body rt filter_nordeste dry_run chunk l (mkWorld t c tr)
  = (fst r, mkWorld (tb_instituicao (snd r)) (total_changes (snd r)) (tr ++ trace (snd r))).
Proof.
  cbn zeta. destruct (usable (mapping_of (columns chunk))) eqn:Hu.
  - rewrite !(chunk_body_usable rt filter_nordeste dry_run chunk l _ Hu). reflexivity.
  - rewrite !(chunk_body_unusable rt filter_nordeste dry_run chunk l _ Hu). reflexivity.
Qed.

Lemma chunk_loop_trace_indep (chunks : list DataFrame) :
  forall (l : locals) (t : table) (c : Z) (tr : list event),
  let r := chunk_loop rt filter_nordeste dry_run chunks l (mkWorld t c []) in
  chunk_loop rt filter_nordeste dry_run chunks l (mkWorld t c tr)
  = (fst r, mkWorld (tb_instituicao (snd r)) (total_changes (snd r)) (tr ++ trace (snd r))).
Proof.
  induction chunks as [|chunk rest IH]; intros l t c tr; cbn zeta.
  - cbn. unfold ret. now rewrite app_nil_r.
  - rewrite !chunk_loop_cons.
    rewrite (chunk_body_trace_indep chunk l t c tr). cbn zeta. cbn [fst snd].
    set (b := chunk_body rt filter_nordeste dry_run chunk l (mkWorld t c [])).
    clearbody b. destruct b as [[eb|lb] [tb0 cb trb]];
      cbn [fst snd tb_instituicao total_changes trace]; [reflexivity|].
    rewrite (IH lb tb0 cb (tr ++ trb)). cbn zeta.
    rewrite (IH lb tb0 cb trb). cbn zeta.
    cbn [fst snd tb_instituicao total_changes trace].
    now rewrite app_assoc.
Qed.

End TraceIndependence.

(** ** Every row of the loop is counted once *)




Section Accounting.

Variable rt : runtime.
Variables filter_nordeste dry_run : bool.









Lemma chunk_loop_dry_inserts (chunks : list DataFrame) :
  dry_run = true ->
  forall (l : locals) (w : world),
  filter is_insert (trace (snd (chunk_loop rt filter_nordeste dry_run chunks l w)))
  = filter is_insert (trace w).
Proof.
  intros Hd. induction chunks as [|chunk rest IH]; intros l w; [reflexivity|].
  rewrite chunk_loop_cons.
  assert (Hb : filter is_insert
                 (trace (snd (chunk_body rt filter_nordeste dry_run chunk l w)))
               = filter is_insert (trace w)).
  { destruct (usable (mapping_of (columns chunk))) eqn:Hu.
    - rewrite (chunk_body_usable rt filter_nordeste dry_run chunk l w Hu).
      cbn [snd trace]. rewrite !filter_app, is_insert_detect, insert_select.
      unfold write_events. rewrite Hd, overflows_dry. cbn [negb andb filter app].
      destruct (columns_printed l); cbn; now rewrite app_nil_r.
    - rewrite (chunk_body_unusable rt filter_nordeste dry_run chunk l w Hu).
      cbn [snd trace]. rewrite !filter_app, is_insert_detect.
      destruct (columns_printed l); cbn; now rewrite app_nil_r. }
  destruct (fst (chunk_body rt filter_nordeste dry_run chunk l w)) as [e|l1];
    [exact Hb | now rewrite IH].
Qed.

End Accounting.

(** ** Region codes that a filtered run stores *)

Lemma truncate_in_region (q : Q) :
  (21 # 1 <= q)%Q -> (q <= 29 # 1)%Q ->
  21 <= Z.quot (Qnum q) (Z.pos (Qden q)) <= 29.
Proof.
  unfold Qle. cbn [Qnum Qden]. intros Hlo Hhi.
  assert (Hd : 0 < Z.pos (Qden q)) by lia.
  rewrite Z.quot_div_nonneg by lia. split.
  - apply Z.div_le_lower_bound; lia.
  - apply Z.div_le_upper_bound; lia.
Qed.

Lemma truthy_Some (col : option string) :
  truthy col = true -> exists c, col = Some c.
Proof. destruct col as [c|]; [eauto | discriminate]. Qed.

(** With the range test in force, the tuple of a retained row has a region
    code of the Nordeste. *)
Lemma normalize_in_nordeste (rt : runtime) (chunk : DataFrame) (vals : list cell) :
  between_accepts_bool rt = true ->
  usable (mapping_of (columns chunk)) = true ->
  In vals (rows (retained rt true chunk)) ->
  in_nordeste (normalize rt (mapping_of (columns chunk)) (columns chunk) vals) = true.
Proof.
  intros Hb Hu Hin. unfold usable in Hu.
  apply andb_prop in Hu. destruct Hu as [_ Huf].
  destruct (truthy_Some _ Huf) as [c Hc].
  unfold retained in Hin. rewrite Hc, region_filter_rows in Hin.
  apply in_map_iff in Hin. destruct Hin as [v [<- Hv]].
  apply filter_In in Hv. destruct Hv as [_ Hk].
  unfold region_keep in Hk. rewrite Hb in Hk.
  apply between_iff in Hk. destruct Hk as (q & Hq & Hlo & Hhi).
  unfold in_nordeste, normalize. cbn [co_uf]. unfold int_or_zero.
  rewrite Huf, Hc. cbn [row_get]. rewrite lookup_set_cell by reflexivity.
  rewrite Hq. cbn [isna negb andb py_int].
  pose proof (truncate_in_region q Hlo Hhi) as Hr.
  apply andb_true_intro. split; apply Z.leb_le; lia.
Qed.

(** * Further properties of the readers *)

Lemma sql_limit_length {A : Type} (n : Z) (l : list A) :
  Z.of_nat (List.length (sql_limit n l))
  = if n <? 0 then Z.of_nat (List.length l) else Z.min n (Z.of_nat (List.length l)).
Proof.
  unfold sql_limit. destruct (n <? 0) eqn:E; [reflexivity|].
  apply Z.ltb_ge in E. rewrite length_firstn. lia.
Qed.

Lemma In_firstn {A : Type} (n : nat) (l : list A) (x : A) :
  In x (firstn n l) -> In x l.
Proof.
  intros H. rewrite <- (firstn_skipn n l). apply in_or_app. now left.
Qed.

Lemma In_skipn {A : Type} (n : nat) (l : list A) (x : A) :
  In x (skipn n l) -> In x l.
Proof.
  intros H. rewrite <- (firstn_skipn n l). apply in_or_app. now right.
Qed.

Lemma find_id_Some (db : list stored) (id : Z) (r : stored) :
  find (fun r => fst r =? id) db = Some r -> In r db /\ fst r = id.
Proof.
  intros H. apply find_some in H. destruct H as [Hin He].
  split; [assumption | now apply Z.eqb_eq].
Qed.

Lemma find_id_unique (db : list stored) (r : stored) :
  NoDup (map fst db) -> In r db ->
  find (fun x => fst x =? fst r) db = Some r.
Proof.
  induction db as [|x db IH]; intros Hnd Hin; [destruct Hin|].
  cbn [find]. cbn [map] in Hnd. inversion Hnd as [|? ? Hx Hnd']; subst.
  destruct Hin as [->|Hin]; [now rewrite Z.eqb_refl|].
  destruct (fst x =? fst r) eqn:E; [|now apply IH].
  apply Z.eqb_eq in E. exfalso. apply Hx. rewrite E. now apply in_map.
Qed.

(** * Properties beyond the specification *)

(** X1: [find_column] returns the first candidate, in the declared order,
    that the header holds: no candidate before it is in the header; and it
    returns [None] only when the header holds no candidate at all. *)
Theorem X1_find_column_first_match :
  forall (columns candidates : list string),
    match find_column columns candidates with
    | Some c =>
        exists pre post,
          candidates = pre ++ c :: post
          /\ In c columns
          /\ (forall k, In k pre -> ~ In k columns)
    | None => forall k, In k candidates -> ~ In k columns
    end.
Proof.
  intros columns candidates. induction candidates as [|k rest IH]; cbn [find_column].
  - intros k [].
  - destruct (contains columns k) eqn:Hk.
    + exists [], rest. split; [reflexivity|]. split; [now apply contains_In|].
      intros x [].
    + assert (Hnk : ~ In k columns).
      { intros Hin. apply contains_In in Hin. congruence. }
      destruct (find_column columns rest) as [c|].
      * destruct IH as (pre & post & -> & Hc & Hpre).
        exists (k :: pre), post. split; [reflexivity|]. split; [assumption|].
        intros x [<-|Hx]; [assumption | now apply Hpre].
      * intros x [<-|Hx]; [assumption | now apply IH].
Qed.





(** X3: the insert total a run reports is exactly the number of rows by
    which the table grew, and equals the change counter of the connection at
    the end of the run; it is never negative. In a run that the bulk write
    cuts short the table has not shrunk and the change counter has counted
    at least its growth: what the chunks before the failing one committed,
    and what the failing write executed without committing. *)
Theorem X3_inserted_total_is_the_growth_of_the_table :
  forall (rt : runtime) (src : csv_source) (db : table) (chunk_size : Z)
         (filter_nordeste fast dry_run : bool),
    1 <= chunk_size ->
    match migrate_csv rt (Some src) db chunk_size filter_nordeste fast dry_run with
    | Finished l w =>
        inserted_total l
        = Z.of_nat (List.length (tb_instituicao w)) - Z.of_nat (List.length db)
        /\ total_changes w = inserted_total l
        /\ 0 <= inserted_total l
    | Aborted _ w =>
        0 <= Z.of_nat (List.length (tb_instituicao w)) - Z.of_nat (List.length db)
          <= total_changes w
    | Raised _ => False
    end.
Proof.
  intros rt src db n fn fast d Hn.
  set (chunks := read_csv rt src (Z.to_nat n)).
  assert (Hgrow : 0 <= Z.of_nat (List.length
                                   (tb_instituicao (snd (run_chunks rt fn fast d chunks db))))
                       - Z.of_nat (List.length db)).
  { rewrite run_chunks_table.
    destruct (loop_table_added rt fn d chunks db) as (a & -> & _).
    rewrite length_app. lia. }
  destruct (migrate_csv rt (Some src) db n fn fast d) as [e|l w|e w] eqn:Hm.
  - now apply migrate_csv_not_Raised in Hm.
  - apply migrate_csv_Finished_inv in Hm; [|exact Hn]. fold chunks in Hm.
    destruct Hm as (_ & Hl & <-).
    destruct (run_chunks_inserted rt fn fast d chunks db l Hl) as (Hi & Hc & _).
    split; [assumption|]. split; [assumption|]. lia.
  - apply migrate_csv_Aborted_inv in Hm; [|exact Hn]. fold chunks in Hm.
    destruct Hm as (_ & _ & _ & _ & <-).
    pose proof (run_chunks_changes rt fn fast d chunks db) as Hc. cbn zeta in Hc.
    lia.
Qed.

Lemma X3_witness :
  match migrate_csv pandas_bool_inclusive (Some repeated_code_file) [escola_b] 1
          true false false with
  | Finished l w =>
      inserted_total l
      = Z.of_nat (List.length (tb_instituicao w)) - Z.of_nat (List.length [escola_b])
      /\ total_changes w = inserted_total l
      /\ 0 <= inserted_total l
  | Aborted _ w =>
      0 <= Z.of_nat (List.length (tb_instituicao w)) - Z.of_nat (List.length [escola_b])
        <= total_changes w
  | Raised _ => False
  end.
Proof.
  apply (X3_inserted_total_is_the_growth_of_the_table pandas_bool_inclusive
           repeated_code_file [escola_b] 1 true false false).
  lia.
Defined.

(** X4: a run never deletes, changes or reorders a row, whether it reaches
    its end or is cut short: the table it leaves is the table it found
    followed by the rows it added. Every added row is the tuple of a row the
    loop iterated over, carries a [codigo] the table did not hold, and no
    two added rows share a [codigo]; so a table without repeated [codigo]
    stays without. *)
Theorem X4_run_only_appends_new_codes :
  forall (rt : runtime) (src : csv_source) (db : table) (chunk_size : Z)
         (filter_nordeste fast dry_run : bool),
    1 <= chunk_size ->
    let r := migrate_csv rt (Some src) db chunk_size filter_nordeste fast dry_run in
    match r with
    | Raised _ => False
    | _ =>
        exists added,
          left_table db r = db ++ added
          /\ (forall x, In x added ->
                has_codigo db (codigo x) = false
                /\ exists chunk vals,
                     In chunk (read_csv rt src (Z.to_nat chunk_size))
                     /\ In vals (rows (retained rt filter_nordeste chunk))
                     /\ x = normalize rt (mapping_of (columns chunk)) (columns chunk) vals)
          /\ NoDup (map codigo added)
          /\ (NoDup (map codigo db) -> NoDup (map codigo (left_table db r)))
    end.
Proof.
  intros rt src db n fn fast d Hn r.
  set (chunks := read_csv rt src (Z.to_nat n)).
  assert (Hleft : left_table db r = loop_table rt fn d chunks db)
    by (apply left_table_migrate_csv; exact Hn).
  assert (Hbody : exists added,
             left_table db r = db ++ added
             /\ (forall x, In x added ->
                   has_codigo db (codigo x) = false
                   /\ exists chunk vals,
                        In chunk chunks
                        /\ In vals (rows (retained rt fn chunk))
                        /\ x = normalize rt (mapping_of (columns chunk)) (columns chunk) vals)
             /\ NoDup (map codigo added)
             /\ (NoDup (map codigo db) -> NoDup (map codigo (left_table db r)))).
  { rewrite Hleft.
    destruct (loop_table_added rt fn d chunks db) as (a & Ha & Hp & Hd).
    exists a. split; [assumption|]. split.
    - intros x Hx. destruct (Hp x Hx) as (Hc & chunk & Hin & _ & vals & Hv & He).
      split; [assumption|]. exists chunk, vals. now repeat split.
    - split; [assumption|]. intros Hdb. rewrite <- run_chunks_table with (fast := fast).
      now apply run_keeps_codigo_unique. }
  destruct r as [e|l w|e w] eqn:Hr; [|exact Hbody|exact Hbody].
  now apply migrate_csv_not_Raised in Hr.
Qed.

Lemma X4_witness :
  let r := migrate_csv pandas_bool_inclusive (Some two_schools_file) [escola_b] 1
             true false false in
  match r with
  | Raised _ => False
  | _ =>
      exists added,
        left_table [escola_b] r = [escola_b] ++ added
        /\ (forall x, In x added ->
              has_codigo [escola_b] (codigo x) = false
              /\ exists chunk vals,
                   In chunk (read_csv pandas_bool_inclusive two_schools_file (Z.to_nat 1))
                   /\ In vals (rows (retained pandas_bool_inclusive true chunk))
                   /\ x = normalize pandas_bool_inclusive (mapping_of (columns chunk))
                            (columns chunk) vals)
        /\ NoDup (map codigo added)
        /\ (NoDup (map codigo [escola_b]) -> NoDup (map codigo (left_table [escola_b] r)))
  end.
Proof.
  apply (X4_run_only_appends_new_codes pandas_bool_inclusive two_schools_file
           [escola_b] 1 true false false).
  lia.
Defined.









(** X7: the fast mode changes nothing but the three [PRAGMA] statements it
    issues first: the run ends in the same way, and the totals, the table,
    the change counter and everything executed and printed afterwards are
    those of the run without it. *)
Theorem X7_fast_mode_only_adds_the_pragmas :
  forall (rt : runtime) (src : csv_source) (db : table) (chunk_size : Z)
         (filter_nordeste dry_run : bool),
    1 <= chunk_size ->
    match migrate_csv rt (Some src) db chunk_size filter_nordeste true dry_run,
          migrate_csv rt (Some src) db chunk_size filter_nordeste false dry_run with
    | Finished l1 w1, Finished l0 w0 =>
        l1 = l0
        /\ tb_instituicao w1 = tb_instituicao w0
        /\ total_changes w1 = total_changes w0
        /\ trace w1
           = [Pragma "journal_mode = WAL"; Pragma "synchronous = OFF";
              Pragma "temp_store = MEMORY"] ++ trace w0
    | Aborted e1 w1, Aborted e0 w0 =>
        e1 = e0
        /\ tb_instituicao w1 = tb_instituicao w0
        /\ total_changes w1 = total_changes w0
        /\ trace w1
           = [Pragma "journal_mode = WAL"; Pragma "synchronous = OFF";
              Pragma "temp_store = MEMORY"] ++ trace w0
    | _, _ => False
    end.
Proof.
  intros rt src db n fn d Hn.
  assert (Hlt : (n <? 1) = false) by (apply Z.ltb_ge; lia).
  unfold migrate_csv. rewrite Hlt.
  set (chunks := read_csv rt src (Z.to_nat n)).
  rewrite !run_chunks_spec. cbn zeta. cbn [pragma_events].
  rewrite (chunk_loop_trace_indep rt fn d chunks initial_locals db 0
             [Pragma "journal_mode = WAL"; Pragma "synchronous = OFF";
              Pragma "temp_store = MEMORY"]).
  cbn zeta. cbn [fst snd].
  destruct (chunk_loop rt fn d chunks initial_locals (mkWorld db 0 [])) as [[e|l] w];
    cbn [fst snd]; unfold log; cbn [tb_instituicao total_changes trace];
    repeat split.
Qed.

Lemma X7_witness :
  match migrate_csv pandas_bool_inclusive (Some two_schools_file) [] 1 true true false,
        migrate_csv pandas_bool_inclusive (Some two_schools_file) [] 1 true false false with
  | Finished l1 w1, Finished l0 w0 =>
      l1 = l0
      /\ tb_instituicao w1 = tb_instituicao w0
      /\ total_changes w1 = total_changes w0
      /\ trace w1
         = [Pragma "journal_mode = WAL"; Pragma "synchronous = OFF";
            Pragma "temp_store = MEMORY"] ++ trace w0
  | _, _ => False
  end.
Proof.
  apply (X7_fast_mode_only_adds_the_pragmas pandas_bool_inclusive two_schools_file [] 1
           true false).
  lia.
Defined.

(** X8: when the range test of the region filter is in force, a filtered
    run, cut short or not, adds only rows whose stored [co_uf] lies between
    21 and 29; a table that held only such rows holds only such rows
    afterwards. *)
Theorem X8_filtered_run_stores_only_nordeste :
  forall (rt : runtime) (src : csv_source) (db : table) (chunk_size : Z)
         (fast dry_run : bool),
    1 <= chunk_size ->
    between_accepts_bool rt = true ->
    let r := migrate_csv rt (Some src) db chunk_size true fast dry_run in
    match r with
    | Raised _ => False
    | _ =>
        (forall x, In x (left_table db r) -> In x db \/ in_nordeste x = true)
        /\ (forallb in_nordeste db = true -> forallb in_nordeste (left_table db r) = true)
    end.
Proof.
  intros rt src db n fast d Hn Hb r.
  set (chunks := read_csv rt src (Z.to_nat n)).
  assert (Hbody : (forall x, In x (left_table db r) -> In x db \/ in_nordeste x = true)
                  /\ (forallb in_nordeste db = true
                      -> forallb in_nordeste (left_table db r) = true)).
  { subst r. rewrite left_table_migrate_csv by exact Hn. fold chunks.
    destruct (loop_table_added rt true d chunks db) as (a & -> & Hp & _).
    assert (Ha : forall x, In x a -> in_nordeste x = true).
    { intros x Hx. destruct (Hp x Hx) as (_ & chunk & _ & Hu & vals & Hv & ->).
      now apply normalize_in_nordeste. }
    split.
    - intros x Hx. apply in_app_or in Hx. destruct Hx as [Hx|Hx]; [now left|].
      right. now apply Ha.
    - intros Hdb. rewrite forallb_app, Hdb. cbn [andb]. apply forallb_forall. exact Ha. }
  destruct r as [e|l w|e w] eqn:Hr; [|exact Hbody|exact Hbody].
  now apply migrate_csv_not_Raised in Hr.
Qed.

Lemma X8_witness :
  let r := migrate_csv pandas_bool_inclusive (Some mixed_region_file) [escola_b] 1
             true false false in
  match r with
  | Raised _ => False
  | _ =>
      (forall x, In x (left_table [escola_b] r) -> In x [escola_b] \/ in_nordeste x = true)
      /\ (forallb in_nordeste [escola_b] = true
          -> forallb in_nordeste (left_table [escola_b] r) = true)
  end.
Proof.
  apply (X8_filtered_run_stores_only_nordeste pandas_bool_inclusive mixed_region_file
           [escola_b] 1 false false).
  - lia.
  - reflexivity.
Defined.

Lemma chunk_loop_dry_lines (rt : runtime) (filter_nordeste : bool)
    (chunks : list DataFrame) :
  forall (l : locals) (w : world),
  Forall (fun x => match x with
                   | ChunkStats _ _ _ new_inserts dup_count => dup_count = new_inserts
                   | _ => True
                   end) (printed (trace w)) ->
  Forall (fun x => match x with
                   | ChunkStats _ _ _ new_inserts dup_count => dup_count = new_inserts
                   | _ => True
                   end)
         (printed (trace (snd (chunk_loop rt filter_nordeste true chunks l w)))).
Proof.
  induction chunks as [|chunk rest IH]; intros l w H; [assumption|].
  rewrite chunk_loop_cons.
  destruct (chunk_body_returns rt filter_nordeste true chunk l w
              (raises_dry rt filter_nordeste (tb_instituicao w) chunk)) as [l1 ->].
  apply IH.
  destruct (usable (mapping_of (columns chunk))) eqn:Hu.
  - rewrite (chunk_body_usable rt filter_nordeste true chunk l w Hu).
    cbn [snd trace]. rewrite overflows_dry, written_dry.
    rewrite !printed_app, printed_detect, printed_select, printed_write.
    cbn [app]. apply Forall_app. split; [assumption|]. apply Forall_app. split.
    + destruct (columns_printed l); cbn; repeat constructor.
    + cbn. constructor; [|constructor]. lia.
  - rewrite (chunk_body_unusable rt filter_nordeste true chunk l w Hu).
    cbn [snd trace]. rewrite !printed_app, printed_detect.
    cbn [app]. apply Forall_app. split; [assumption|]. apply Forall_app. split.
    + destruct (columns_printed l); cbn; repeat constructor.
    + cbn. repeat constructor.
Qed.

(** X9: a dry run over any file leaves the table as it found it, executes no
    [INSERT], and reports an insert total and a change counter of 0; it
    still counts every record as processed, and each of its chunk lines
    shows under duplicates the very number it shows under new inserts. *)
Theorem X9_dry_run_writes_nothing :
  forall (rt : runtime) (src : csv_source) (db : table) (chunk_size : Z)
         (filter_nordeste fast : bool),
    1 <= chunk_size ->
    match migrate_csv rt (Some src) db chunk_size filter_nordeste fast true with
    | Finished l w =>
        tb_instituicao w = db
        /\ filter is_insert (trace w) = []
        /\ inserted_total l = 0
        /\ total_changes w = 0
        /\ processed_total l = Z.of_nat (List.length (records src))
        /\ Forall (fun x => match x with
                            | ChunkStats _ _ _ new_inserts dup_count =>
                                dup_count = new_inserts
                            | _ => True
                            end) (printed (trace w))
    | _ => False
    end.
Proof.
  intros rt src db n fn fast Hn.
  set (chunks := read_csv rt src (Z.to_nat n)).
  destruct (dry_run_leaves_table rt fn fast chunks db) as (l & Hl & Ht & Hi & Hc & Hp).
  rewrite (migrate_csv_inr rt src db n fn fast true Hn l Hl). fold chunks.
  split; [assumption|].
  destruct (run_chunks_finished rt fn fast true chunks db l Hl) as [_ Hw].
  split.
  { rewrite Hw. unfold log. cbn [trace].
    rewrite filter_app, chunk_loop_dry_inserts by reflexivity.
    cbn [trace]. now destruct fast. }
  split; [assumption|]. split; [assumption|]. split.
  { rewrite Hp. apply len_total_read_csv. lia. }
  rewrite Hw. unfold log. cbn [trace].
  rewrite printed_app. apply Forall_app. split.
  - apply chunk_loop_dry_lines. cbn [trace]. destruct fast; constructor.
  - cbn. repeat constructor.
Qed.

Lemma X9_witness :
  match migrate_csv pandas_bool_inclusive (Some two_schools_file) [escola_b] 1
          true false true with
  | Finished l w =>
      tb_instituicao w = [escola_b]
      /\ filter is_insert (trace w) = []
      /\ inserted_total l = 0
      /\ total_changes w = 0
      /\ processed_total l = Z.of_nat (List.length (records two_schools_file))
      /\ Forall (fun x => match x with
                          | ChunkStats _ _ _ new_inserts dup_count =>
                              dup_count = new_inserts
                          | _ => True
                          end) (printed (trace w))
  | _ => False
  end.
Proof.
  apply (X9_dry_run_writes_nothing pandas_bool_inclusive two_schools_file [escola_b] 1
           true false).
  lia.
Defined.



Lemma insert_or_ignore_many_In (rs : list instituicao) :
  forall (t : table) (r : instituicao),
  In r (insert_or_ignore_many t rs) ->
  In r t
  \/ (has_codigo t (codigo r) = false
      /\ exists pre post,
           rs = pre ++ r :: post /\ forall x, In x pre -> codigo x <> codigo r).
Proof.
  induction rs as [|x rs IH]; intros t r H; [now left|].
  rewrite insert_or_ignore_many_cons in H. apply IH in H. unfold insert_or_ignore in H.
  destruct (has_codigo t (codigo x)) eqn:E.
  - destruct H as [H|(Hc & pre & post & -> & Hpre)]; [now left | right].
    split; [assumption|]. exists (x :: pre), post. split; [reflexivity|].
    intros y [<-|Hy]; [congruence | now apply Hpre].
  - destruct H as [H|(Hc & pre & post & -> & Hpre)].
    + apply in_app_or in H. destruct H as [H|[<-|[]]]; [now left | right].
      split; [assumption|]. exists [], rs. split; [reflexivity | intros y []].
    + rewrite has_codigo_app in Hc. apply orb_false_iff in Hc. destruct Hc as [Hc Hx].
      right. split; [assumption|]. exists (x :: pre), post. split; [reflexivity|].
      intros y [<-|Hy]; [|now apply Hpre].
      cbn in Hx. rewrite orb_false_r in Hx. now apply String.eqb_neq in Hx.
Qed.

(** X11: the first occurrence wins. After a chunk is written, a row is in
    the table exactly when it was there before or is the first row of the
    submitted list with its [codigo]; a later row with the same [codigo]
    never replaces it. When the write raises, for an integer beyond 64
    bits in a submitted tuple, the table is the one from before. *)
Theorem X11_first_occurrence_wins :
  forall (rt : runtime) (filter_nordeste : bool) (chunk : DataFrame)
         (l : locals) (w : world) (r : instituicao),
    usable (mapping_of (columns chunk)) = true ->
    let ins := submitted rt (tb_instituicao w) filter_nordeste chunk in
    let w' := snd (chunk_body rt filter_nordeste false chunk l w) in
    if forallb bindable ins
    then In r (tb_instituicao w')
         <-> In r (tb_instituicao w)
             \/ exists pre post,
                  ins = pre ++ r :: post /\ forall x, In x pre -> codigo x <> codigo r
    else tb_instituicao w' = tb_instituicao w
         /\ fst (chunk_body rt filter_nordeste false chunk l w) = inl OverflowError.
Proof.
  intros rt fn chunk l w r Hu ins w'. subst w'.
  rewrite (chunk_body_usable rt fn false chunk l w Hu). cbn [fst snd tb_instituicao].
  fold ins. rewrite overflows_write.
  destruct (forallb bindable ins) eqn:Hb; cbn [negb].
  - rewrite (written_stored _ _ Hb). split.
    + intros H. apply insert_or_ignore_many_In in H.
      destruct H as [H|(_ & H)]; [now left | now right].
    + intros [H|(pre & post & He & Hpre)].
      * destruct (insert_or_ignore_many_extends ins (tb_instituicao w)) as [a [-> _]].
        apply in_or_app. now left.
      * rewrite He. apply insert_or_ignore_many_first; [|assumption].
        apply (submitted_unknown rt fn (tb_instituicao w) chunk).
        fold ins. rewrite He. apply in_or_app. right. now left.
  - split; [|reflexivity]. apply written_overflow. rewrite overflows_write.
    now rewrite Hb.
Qed.

Lemma X11_witness :
  let chunk := mkFrame censo_header
                 [[Str "111"; Str "Escola A"; Str "23"];
                  [Str "111"; Str "Escola A Dup"; Str "23"]] in
  let ins := submitted pandas_bool_inclusive [] true chunk in
  In escola_a
     (tb_instituicao (snd (chunk_body pandas_bool_inclusive true false chunk
                             initial_locals (mkWorld [] 0 []))))
  <-> In escola_a []
      \/ exists pre post,
           ins = pre ++ escola_a :: post /\ forall x, In x pre -> codigo x <> codigo escola_a.
Proof.
  exact (X11_first_occurrence_wins pandas_bool_inclusive true
           (mkFrame censo_header
              [[Str "111"; Str "Escola A"; Str "23"];
               [Str "111"; Str "Escola A Dup"; Str "23"]])
           initial_locals (mkWorld [] 0 []) escola_a eq_refl).
Defined.

Lemma chunk_loop_unusable (rt : runtime) (filter_nordeste dry_run : bool)
    (chunks : list DataFrame) :
  (forall chunk, In chunk chunks -> usable (mapping_of (columns chunk)) = false) ->
  forall (l : locals) (w : world),
  let w' := snd (chunk_loop rt filter_nordeste dry_run chunks l w) in
  exists l',
  fst (chunk_loop rt filter_nordeste dry_run chunks l w) = inr l'
  /\ tb_instituicao w' = tb_instituicao w
  /\ inserted_total l' = inserted_total l
  /\ skipped_total l' = skipped_total l
  /\ chunk_idx l' = chunk_idx l
  /\ filter is_select (trace w') = filter is_select (trace w)
  /\ filter is_insert (trace w') = filter is_insert (trace w).
Proof.
  induction chunks as [|chunk rest IH]; intros Hall l w; cbn zeta.
  - cbn. exists l. repeat split.
  - rewrite chunk_loop_cons.
    assert (Hu : usable (mapping_of (columns chunk)) = false)
      by (apply Hall; now left).
    assert (Hrest : forall c, In c rest -> usable (mapping_of (columns c)) = false)
      by (intros c Hc; apply Hall; now right).
    rewrite (chunk_body_unusable rt filter_nordeste dry_run chunk l w Hu). cbn [fst snd].
    match goal with
    | |- context [chunk_loop _ _ _ rest ?l1 ?w1] =>
        specialize (IH Hrest l1 w1); cbn zeta in IH;
        destruct IH as (l' & Hl' & Ht & Hi & Hs & Hc & Hsel & Hins)
    end.
    cbn [tb_instituicao trace inserted_total skipped_total chunk_idx] in *.
    exists l'. split; [exact Hl'|].
    rewrite Ht, Hi, Hs, Hc, Hsel, Hins. repeat split;
      rewrite !filter_app; destruct (columns_printed l); cbn; now rewrite app_nil_r.
Qed.

(** X12: when the header of the file lacks one of the columns for [codigo],
    [nome] or [co_uf], the whole run is skipped chunk by chunk: no
    statement reaches the table, nothing is inserted, no chunk is numbered,
    and although every record is counted as processed none is counted as
    skipped. *)
Theorem X12_file_without_mandatory_column :
  forall (rt : runtime) (src : csv_source) (db : table) (chunk_size : Z)
         (filter_nordeste fast dry_run : bool),
    1 <= chunk_size ->
    find_column (header src) (CANDIDATE_COLUMNS f_codigo) = None
    \/ find_column (header src) (CANDIDATE_COLUMNS f_nome) = None
    \/ find_column (header src) (CANDIDATE_COLUMNS f_co_uf) = None ->
    match migrate_csv rt (Some src) db chunk_size filter_nordeste fast dry_run with
    | Finished l w =>
        tb_instituicao w = db
        /\ filter is_select (trace w) = []
        /\ filter is_insert (trace w) = []
        /\ inserted_total l = 0
        /\ skipped_total l = 0
        /\ chunk_idx l = 0
        /\ processed_total l = Z.of_nat (List.length (records src))
    | _ => False
    end.
Proof.
  intros rt src db n fn fast d Hn H.
  set (chunks := read_csv rt src (Z.to_nat n)).
  assert (Hu : usable (mapping_of (header src)) = false).
  { unfold usable, mapping_of. cbn [codigo_col nome_col co_uf_col].
    destruct H as [H|[H|H]]; rewrite H; cbn [truthy andb]; auto using andb_false_r.
    now rewrite andb_false_r. }
  assert (Hall : forall chunk, In chunk chunks -> usable (mapping_of (columns chunk)) = false).
  { intros chunk Hc. now rewrite (read_csv_columns rt src (Z.to_nat n) chunk Hc). }
  pose proof (chunk_loop_unusable rt fn d chunks Hall initial_locals
                (mkWorld db 0 (pragma_events fast))) as Hl.
  cbn zeta in Hl. destruct Hl as (l & Hl & Ht & Hi & Hs & Hc & Hsel & Hins).
  assert (Hrun : fst (run_chunks rt fn fast d chunks db) = inr l).
  { rewrite run_chunks_spec. cbn zeta. now rewrite Hl. }
  rewrite (migrate_csv_inr rt src db n fn fast d Hn l Hrun). fold chunks.
  destruct (run_chunks_inserted rt fn fast d chunks db l Hrun) as (_ & _ & Hp).
  assert (Hlen : fold_right (fun chunk k => len chunk + k) 0 chunks
                 = Z.of_nat (List.length (records src)))
    by (apply len_total_read_csv; lia).
  rewrite Hlen in Hp. clear Hlen.
  destruct (run_chunks_finished rt fn fast d chunks db l Hrun) as [_ ->].
  unfold log. cbn [tb_instituicao trace].
  cbn [tb_instituicao trace inserted_total skipped_total chunk_idx initial_locals] in *.
  rewrite Ht, !filter_app, Hsel, Hins.
  split; [reflexivity|]. split; [now destruct fast|]. split; [now destruct fast|].
  now repeat split.
Qed.

Lemma X12_witness :
  match migrate_csv pandas_bool_inclusive (Some no_region_file) [escola_b] 1
          true false false with
  | Finished l w =>
      tb_instituicao w = [escola_b]
      /\ filter is_select (trace w) = []
      /\ filter is_insert (trace w) = []
      /\ inserted_total l = 0
      /\ skipped_total l = 0
      /\ chunk_idx l = 0
      /\ processed_total l = Z.of_nat (List.length (records no_region_file))
  | _ => False
  end.
Proof.
  apply (X12_file_without_mandatory_column pandas_bool_inclusive no_region_file
           [escola_b] 1 true false false).
  - lia.
  - right. right. reflexivity.
Defined.

(** The sample is a prefix of what it is taken from. *)
Lemma sql_limit_prefix {A : Type} (n : Z) (l : list A) :
  exists rest, l = sql_limit n l ++ rest.
Proof.
  unfold sql_limit. destruct (n <? 0).
  - exists []. now rewrite app_nil_r.
  - exists (skipn (Z.to_nat n) l). symmetry. apply firstn_skipn.
Qed.

(** X13: [verify] prints the number of rows of the table, then the number
    of its rows whose [co_uf] lies between 21 and 29, then the sample: these
    rows in the order of the table, from the first on, as many as [sample]
    allows, and all of them when [sample] is negative. *)
Theorem X13_verify_counts_and_sample :
  forall (db : list stored) (sample : Z),
    - INT64_MAX - 1 <= sample <= INT64_MAX ->
    exists nordeste shown rest,
      verify db sample true
      = ([TotalRegistros (Z.of_nat (List.length db));
          TotalNordeste (Z.of_nat (List.length nordeste)); Mostrando sample]
         ++ map amostra shown, false)
      /\ nordeste = filter (fun x => (21 <=? co_uf (snd x)) && (co_uf (snd x) <=? 29)) db
      /\ (forall x, In x nordeste <-> In x db /\ 21 <= co_uf (snd x) <= 29)
      /\ (List.length nordeste <= List.length db)%nat
      /\ nordeste = shown ++ rest
      /\ Z.of_nat (List.length shown)
         = (if sample <? 0 then Z.of_nat (List.length nordeste)
            else Z.min sample (Z.of_nat (List.length nordeste)))
      /\ (sample < 0 -> shown = nordeste).
Proof.
  intros db sample Hs.
  set (nordeste := filter (fun x : stored => in_nordeste (snd x)) db).
  destruct (sql_limit_prefix sample nordeste) as [rest Hrest].
  exists nordeste, (sql_limit sample nordeste), rest.
  unfold verify.
  assert (Hb : (sample >? INT64_MAX) || (sample <? - INT64_MAX - 1) = false).
  { apply orb_false_iff. split; [rewrite Z.gtb_ltb|]; apply Z.ltb_ge; lia. }
  rewrite Hb. fold nordeste. split; [reflexivity|]. split; [reflexivity|]. split.
  { intros x. subst nordeste. rewrite filter_In. unfold in_nordeste.
    rewrite andb_true_iff, !Z.leb_le. tauto. }
  split; [apply filter_length_le|]. split; [exact Hrest|].
  split; [apply sql_limit_length|].
  intros Hneg. unfold sql_limit.
  assert (Hlt : (sample <? 0) = true) by (apply Z.ltb_lt; lia).
  now rewrite Hlt.
Qed.

Lemma X13_witness :
  exists nordeste shown rest,
    verify five_schools 2 true
    = ([TotalRegistros (Z.of_nat (List.length five_schools));
        TotalNordeste (Z.of_nat (List.length nordeste)); Mostrando 2]
       ++ map amostra shown, false)
    /\ nordeste = filter (fun x => (21 <=? co_uf (snd x)) && (co_uf (snd x) <=? 29))
                     five_schools
    /\ (forall x, In x nordeste <-> In x five_schools /\ 21 <= co_uf (snd x) <= 29)
    /\ (List.length nordeste <= List.length five_schools)%nat
    /\ nordeste = shown ++ rest
    /\ Z.of_nat (List.length shown)
       = (if 2 <? 0 then Z.of_nat (List.length nordeste)
          else Z.min 2 (Z.of_nat (List.length nordeste)))
    /\ (2 < 0 -> shown = nordeste).
Proof.
  apply (X13_verify_counts_and_sample five_schools 2).
  unfold INT64_MAX. lia.
Defined.

(** X14: import and check agree. After a filtered run whose range test is
    in force, into a table that held only rows of the Nordeste, [verify]
    reports as many rows of the Nordeste as rows in all, whether the run
    reached its end or was cut short. *)
Theorem X14_verify_after_filtered_import :
  forall (rt : runtime) (src : csv_source) (db : table) (chunk_size : Z)
         (fast : bool),
    1 <= chunk_size ->
    between_accepts_bool rt = true ->
    forallb in_nordeste db = true ->
    let r := migrate_csv rt (Some src) db chunk_size true fast false in
    match r with
    | Raised _ => False
    | _ =>
        forall (snapshot : list stored) (sample : Z),
          map snd snapshot = left_table db r ->
          exists rest,
            fst (verify snapshot sample true)
            = TotalRegistros (Z.of_nat (List.length (left_table db r)))
              :: TotalNordeste (Z.of_nat (List.length (left_table db r))) :: rest
    end.
Proof.
  intros rt src db n fast Hn Hb Hdb r.
  assert (Hbody : forall (snapshot : list stored) (sample : Z),
             map snd snapshot = left_table db r ->
             exists rest,
               fst (verify snapshot sample true)
               = TotalRegistros (Z.of_nat (List.length (left_table db r)))
                 :: TotalNordeste (Z.of_nat (List.length (left_table db r))) :: rest).
  { subst r. rewrite left_table_migrate_csv by exact Hn.
    destruct (loop_table_added rt true false (read_csv rt src (Z.to_nat n)) db)
      as (a & -> & Hp & _).
    assert (Hall : forallb in_nordeste (db ++ a) = true).
    { rewrite forallb_app, Hdb. cbn [andb]. apply forallb_forall. intros x Hx.
      destruct (Hp x Hx) as (_ & chunk & _ & Hu & vals & Hv & ->).
      now apply normalize_in_nordeste. }
    intros snapshot sample Hsnap.
    assert (Hf : filter (fun x : stored => in_nordeste (snd x)) snapshot = snapshot).
    { apply filter_all. intros x Hx. rewrite forallb_forall in Hall. apply Hall.
      rewrite <- Hsnap. now apply in_map. }
    assert (Hlen : List.length snapshot = List.length (db ++ a))
      by (rewrite <- Hsnap; now rewrite length_map).
    unfold verify. unfold stored in *. rewrite Hf, Hlen.
    destruct ((sample >? INT64_MAX) || (sample <? - INT64_MAX - 1)); cbn [fst app]; eauto. }
  destruct r as [e|l w|e w] eqn:Hr; [|exact Hbody|exact Hbody].
  now apply migrate_csv_not_Raised in Hr.
Qed.

Lemma X14_witness :
  let r := migrate_csv pandas_bool_inclusive (Some mixed_region_file) [escola_b] 1
             true false false in
  match r with
  | Raised _ => False
  | _ =>
      forall (snapshot : list stored) (sample : Z),
        map snd snapshot = left_table [escola_b] r ->
        exists rest,
          fst (verify snapshot sample true)
          = TotalRegistros (Z.of_nat (List.length (left_table [escola_b] r)))
            :: TotalNordeste (Z.of_nat (List.length (left_table [escola_b] r))) :: rest
  end.
Proof.
  apply (X14_verify_after_filtered_import pandas_bool_inclusive mixed_region_file
           [escola_b] 1 false).
  - lia.
  - reflexivity.
  - reflexivity.
Defined.

(** X15: the listing answers 400 as soon as a given [limit] or [offset] is
    not an integer. Otherwise the page holds, in the order of the table and
    with the [id], [codigo] and [nome] of each, the rows from the offset on,
    negative offsets counting as 0, as many as the limit allows once it is
    brought into 1..100: never more than 100 rows, and at least one when
    the offset lies inside the table. *)
Theorem X15_listing_page_bounds :
  forall (rt : runtime) (db : list stored) (limit_arg offset_arg : option string),
    match arg_int rt limit_arg 50, arg_int rt offset_arg 0 with
    | Some limit, Some offset =>
        if clamp_offset offset >? INT64_MAX
        then listar_instituicoes_paginadas rt db limit_arg offset_arg = (Unhandled, 500)
        else
          exists items before after,
            listar_instituicoes_paginadas rt db limit_arg offset_arg = (Lista items, 200)
            /\ db = before ++ after
            /\ Z.of_nat (List.length before)
               = Z.min (Z.max 0 offset) (Z.of_nat (List.length db))
            /\ items
               = map (fun x => (fst x, codigo (snd x), nome (snd x)))
                     (firstn (Z.to_nat (Z.max 1 (Z.min limit 100))) after)
            /\ Z.of_nat (List.length items)
               = Z.min (clamp_limit limit)
                       (Z.max 0 (Z.of_nat (List.length db) - clamp_offset offset))
            /\ Z.of_nat (List.length items) <= 100
            /\ (clamp_offset offset < Z.of_nat (List.length db) ->
                1 <= Z.of_nat (List.length items))
    | _, _ =>
        listar_instituicoes_paginadas rt db limit_arg offset_arg
        = (ParametrosInvalidos, 400)
    end.
Proof.
  intros rt db la oa. unfold listar_instituicoes_paginadas.
  destruct (arg_int rt la 50) as [limit|]; [|reflexivity].
  destruct (arg_int rt oa 0) as [offset|]; [|reflexivity].
  destruct (clamp_offset offset >? INT64_MAX); [reflexivity|].
  exists (map item (firstn (Z.to_nat (clamp_limit limit))
                     (skipn (Z.to_nat (clamp_offset offset)) db))),
         (firstn (Z.to_nat (clamp_offset offset)) db),
         (skipn (Z.to_nat (clamp_offset offset)) db).
  split; [reflexivity|]. split; [symmetry; apply firstn_skipn|].
  split; [rewrite length_firstn; unfold clamp_offset; lia|].
  split.
  { unfold item, clamp_limit. reflexivity. }
  rewrite length_map, length_firstn, length_skipn.
  unfold clamp_limit, clamp_offset. repeat split; lia.
Qed.

Lemma firstn_add_skipn {A : Type} (n k : nat) :
  forall l : list A, firstn n l ++ firstn k (skipn n l) = firstn (n + k) l.
Proof.
  induction n as [|n IH]; intros l; [reflexivity|].
  destruct l as [|x l]; cbn [firstn skipn app Nat.add].
  - now rewrite firstn_nil.
  - now rewrite IH.
Qed.

Lemma firstn_two_pages {A : Type} (n o : nat) (l : list A) :
  firstn n (skipn o l) ++ firstn n (skipn (o + n) l) = firstn (n + n) (skipn o l).
Proof.
  rewrite (Nat.add_comm o n), <- skipn_skipn. apply firstn_add_skipn.
Qed.

(** X16: pages tile the table. With a limit from 1 to 100, the page at an
    offset followed by the page at that offset plus the limit is the double
    page at the offset: between two consecutive pages no row is lost and
    none is repeated. *)
Theorem X16_consecutive_pages_tile_the_table :
  forall (rt : runtime) (db : list stored) (limit offset : Z)
         (limit_arg offset_arg next_arg : string),
    int_of_str rt limit_arg = Some limit ->
    int_of_str rt offset_arg = Some offset ->
    int_of_str rt next_arg = Some (offset + limit) ->
    1 <= limit <= 100 ->
    0 <= offset ->
    offset + limit <= INT64_MAX ->
    exists page next,
      listar_instituicoes_paginadas rt db (Some limit_arg) (Some offset_arg)
      = (Lista page, 200)
      /\ listar_instituicoes_paginadas rt db (Some limit_arg) (Some next_arg)
         = (Lista next, 200)
      /\ page ++ next
         = map (item) (firstn (Z.to_nat (2 * limit)) (skipn (Z.to_nat offset) db)).
Proof.
  intros rt db limit offset la oa na Hl Ho Hna Hlim Hoff Hmax.
  unfold listar_instituicoes_paginadas, arg_int. rewrite Hl, Ho, Hna.
  assert (Hcl : clamp_limit limit = limit) by (unfold clamp_limit; lia).
  assert (Hco : clamp_offset offset = offset) by (unfold clamp_offset; lia).
  assert (Hcn : clamp_offset (offset + limit) = offset + limit)
    by (unfold clamp_offset; lia).
  rewrite Hcl, Hco, Hcn.
  assert (H1 : (offset >? INT64_MAX) = false) by (rewrite Z.gtb_ltb; apply Z.ltb_ge; lia).
  assert (H2 : (offset + limit >? INT64_MAX) = false) by (rewrite Z.gtb_ltb; apply Z.ltb_ge; lia).
  rewrite H1, H2. do 2 eexists. split; [reflexivity|]. split; [reflexivity|].
  rewrite <- map_app. f_equal.
  replace (Z.to_nat (offset + limit)) with (Z.to_nat offset + Z.to_nat limit)%nat by lia.
  replace (Z.to_nat (2 * limit)) with (Z.to_nat limit + Z.to_nat limit)%nat by lia.
  apply firstn_two_pages.
Qed.

Lemma X16_witness :
  exists page next,
    listar_instituicoes_paginadas pandas_bool_inclusive five_schools (Some "2") (Some "1")
    = (Lista page, 200)
    /\ listar_instituicoes_paginadas pandas_bool_inclusive five_schools (Some "2") (Some "3")
       = (Lista next, 200)
    /\ page ++ next
       = map item (firstn (Z.to_nat (2 * 2)) (skipn (Z.to_nat 1) five_schools)).
Proof.
  apply (X16_consecutive_pages_tile_the_table pandas_bool_inclusive five_schools 2 1
           "2" "1" "3").
  - reflexivity.
  - reflexivity.
  - reflexivity.
  - lia.
  - lia.
  - unfold INT64_MAX. lia.
Defined.

(** X17: the detail endpoint answers 404 exactly when no row has the [id],
    and otherwise 200 with a row of the table that has it. When the ids
    are unique, every entry of a listed page leads back, by its [id], to the
    row whose [codigo] and [nome] the page showed. *)
Theorem X17_detail_finds_what_the_listing_shows :
  forall (rt : runtime) (db : list stored) (limit_arg offset_arg : option string)
         (items : list (Z * string * string)),
    NoDup (map fst db) ->
    (forall r, In r db -> fst r <= INT64_MAX) ->
    listar_instituicoes_paginadas rt db limit_arg offset_arg = (Lista items, 200) ->
    (forall id,
        id <= INT64_MAX ->
        (getInstituicoesEnsinoById db id = (InstituicaoNaoEncontrada, 404)
         <-> ~ In id (map fst db))
        /\ (In id (map fst db) ->
            exists r, getInstituicoesEnsinoById db id = (Detalhe id r, 200)
                      /\ In (id, r) db))
    /\ (forall id c n,
          In (id, c, n) items ->
          exists r, getInstituicoesEnsinoById db id = (Detalhe id r, 200)
                    /\ codigo r = c /\ nome r = n).
Proof.
  intros rt db la oa items Hnd Hmax Hlist.
  assert (Hfound : forall r, In r db ->
             getInstituicoesEnsinoById db (fst r) = (Detalhe (fst r) (snd r), 200)).
  { intros r Hr. unfold getInstituicoesEnsinoById.
    assert (Hg : (fst r >? INT64_MAX) = false)
      by (rewrite Z.gtb_ltb; apply Z.ltb_ge; now apply Hmax).
    rewrite Hg, (find_id_unique db r Hnd Hr). reflexivity. }
  split.
  - intros id Hid. split.
    + unfold getInstituicoesEnsinoById.
      assert (Hg : (id >? INT64_MAX) = false) by (rewrite Z.gtb_ltb; apply Z.ltb_ge; lia).
      rewrite Hg. destruct (find (fun r => fst r =? id) db) as [r|] eqn:E.
      * split; [discriminate|]. intros Hno. exfalso. apply Hno.
        apply find_id_Some in E. destruct E as [Hin <-]. now apply in_map.
      * split; [|reflexivity]. intros _ Hin. apply in_map_iff in Hin.
        destruct Hin as [r [He Hr]].
        pose proof (find_none _ _ E r Hr) as Hn. cbn in Hn.
        rewrite He, Z.eqb_refl in Hn. discriminate.
    + intros Hin. apply in_map_iff in Hin. destruct Hin as [r [<- Hr]].
      exists (snd r). split; [now apply Hfound | now destruct r].
  - intros id c n Hin. unfold listar_instituicoes_paginadas in Hlist.
    destruct (arg_int rt la 50) as [limit|]; [|discriminate].
    destruct (arg_int rt oa 0) as [offset|]; [|discriminate].
    destruct (clamp_offset offset >? INT64_MAX); [discriminate|].
    injection Hlist as <-. apply in_map_iff in Hin. destruct Hin as [r [He Hr]].
    apply In_firstn, In_skipn in Hr. unfold item in He. injection He as <- <- <-.
    exists (snd r). split; [now apply Hfound | now split].
Qed.

Lemma X17_witness :
  (forall id,
      id <= INT64_MAX ->
      (getInstituicoesEnsinoById five_schools id = (InstituicaoNaoEncontrada, 404)
       <-> ~ In id (map fst five_schools))
      /\ (In id (map fst five_schools) ->
          exists r, getInstituicoesEnsinoById five_schools id = (Detalhe id r, 200)
                    /\ In (id, r) five_schools))
  /\ (forall id c n,
        In (id, c, n) [(2, "222", "Escola B"); (3, "333", "Escola C")] ->
        exists r, getInstituicoesEnsinoById five_schools id = (Detalhe id r, 200)
                  /\ codigo r = c /\ nome r = n).
Proof.
  apply (X17_detail_finds_what_the_listing_shows pandas_bool_inclusive five_schools
           (Some "2") (Some "1")).
  - cbn. repeat constructor; cbn; intuition discriminate.
  - intros r Hr. cbn in Hr. unfold INT64_MAX.
    repeat (destruct Hr as [<-|Hr]; [cbn; lia|]). destruct Hr.
  - reflexivity.
Defined.

(** X18: whichever of its two tests the region filter applies, every row it
    keeps has a region value that converted to a number: a missing region,
    or a text that [pd.to_numeric] does not read, is dropped under the
    range test and under the prefix test alike. *)
Theorem X18_unconverted_region_is_never_kept :
  forall (rt : runtime) (chunk : DataFrame) (c : string),
    (forall vals, In vals (rows chunk) ->
                  to_numeric_cell rt (lookup (columns chunk) vals c) = NaN ->
                  region_keep rt (columns chunk) c vals = false)
    /\ (forall vals', In vals' (rows (region_filter rt chunk (Some c))) ->
                      exists q, lookup (columns chunk) vals' c = Num q).
Proof.
  intros rt chunk c.
  assert (Hnan : forall vals,
             to_numeric_cell rt (lookup (columns chunk) vals c) = NaN ->
             region_keep rt (columns chunk) c vals = false).
  { intros vals H. unfold region_keep. rewrite H.
    now destruct (between_accepts_bool rt). }
  split; [intros vals _; apply Hnan|].
  intros vals' Hin. rewrite region_filter_rows in Hin.
  apply in_map_iff in Hin. destruct Hin as [vals [<- Hv]].
  apply filter_In in Hv. destruct Hv as [_ Hk].
  rewrite lookup_set_cell by reflexivity.
  destruct (to_numeric_cell rt (lookup (columns chunk) vals c)) as [|s|q] eqn:E.
  - rewrite (Hnan vals E) in Hk. discriminate.
  - exfalso. unfold to_numeric_cell in E.
    destruct (lookup (columns chunk) vals c) as [|s0|q0]; try discriminate.
    destruct (to_numeric rt s0); discriminate.
  - now exists q.
Qed.

(** X19: what is stored as [co_uf] depends on the filter. Without it the
    region text goes through [int], and a text [int] rejects is stored as 0;
    with it, and with the range test in force, the text has gone through
    [pd.to_numeric] first and the row, kept when the number lies in 21..29,
    stores that number cut to its integer part. *)
Theorem X19_stored_region_code :
  forall (rt : runtime) (chunk : DataFrame) (vals : list cell) (c s : string),
    let m := mapping_of (columns chunk) in
    let cols := columns chunk in
    let vals' := set_cell cols vals c (to_numeric_cell rt) in
    usable m = true ->
    co_uf_col m = Some c ->
    In vals (rows chunk) ->
    lookup cols vals c = Str s ->
    co_uf (normalize rt m cols vals)
    = match int_of_str rt s with Some n => n | None => 0 end
    /\ (between_accepts_bool rt = true ->
        forall q, to_numeric rt s = Some q ->
                  (21 # 1 <= q)%Q -> (q <= 29 # 1)%Q ->
                  In vals' (rows (retained rt true chunk))
                  /\ co_uf (normalize rt m cols vals')
                     = Z.quot (Qnum q) (Z.pos (Qden q))).
Proof.
  intros rt chunk vals c s m cols vals' Hu Hc Hin Hs.
  assert (Ht : truthy (co_uf_col m) = true).
  { unfold usable in Hu. apply andb_prop in Hu. now destruct Hu. }
  split.
  - unfold normalize, int_or_zero. cbn [co_uf]. rewrite Ht, Hc. cbn [row_get].
    fold cols. rewrite Hs. reflexivity.
  - intros Hb q Hq Hlo Hhi. split.
    + unfold retained. fold m. rewrite Hc, region_filter_rows.
      apply in_map_iff. exists vals. split; [reflexivity|].
      apply filter_In. split; [assumption|].
      unfold region_keep. rewrite Hb. fold cols. rewrite Hs. cbn [to_numeric_cell].
      rewrite Hq. apply between_iff. now exists q.
    + unfold normalize, int_or_zero. cbn [co_uf]. rewrite Ht, Hc. cbn [row_get].
      subst vals'. rewrite lookup_set_cell by reflexivity.
      fold cols. rewrite Hs. cbn [to_numeric_cell]. rewrite Hq. reflexivity.
Qed.

Lemma X19_witness :
  let rt := pandas_bool_inclusive in
  let chunk := mkFrame censo_header [[Str "111"; Str "Escola A"; Str "23"]] in
  let vals := [Str "111"; Str "Escola A"; Str "23"] in
  let m := mapping_of censo_header in
  let vals' := set_cell censo_header vals "CO_UF" (to_numeric_cell rt) in
  co_uf (normalize rt m censo_header vals)
  = match int_of_str rt "23" with Some n => n | None => 0 end
  /\ (between_accepts_bool rt = true ->
      forall q, to_numeric rt "23" = Some q ->
                (21 # 1 <= q)%Q -> (q <= 29 # 1)%Q ->
                In vals' (rows (retained rt true chunk))
                /\ co_uf (normalize rt m censo_header vals')
                   = Z.quot (Qnum q) (Z.pos (Qden q))).
Proof.
  apply (X19_stored_region_code pandas_bool_inclusive
           (mkFrame censo_header [[Str "111"; Str "Escola A"; Str "23"]])
           [Str "111"; Str "Escola A"; Str "23"] "CO_UF" "23").
  - reflexivity.
  - reflexivity.
  - now left.
  - reflexivity.
Defined.
